(** * Telegram Forwarder SaaS backend: a shallow embedding

    The development follows the Python sources module by module
    ([app/config.py], [app/database.py], [app/core/security.py],
    [app/core/optimizations.py], [app/schemas.py], [app/crud.py],
    [app/routers/auth.py]).  Python [str] values are Rocq strings, a
    [dict] is a finite map keyed by strings, [Optional[T]] is [option T],
    and a call that may raise returns a [py_result].  Wall-clock time
    ([datetime.utcnow()]) is an explicit argument, in whole seconds since
    the epoch, as are the draws of randomness (fresh UUIDs, salts, IVs). *)

From stdpp Require Import base option strings gmap list fin_maps sorting.
From Stdlib Require Import Ascii ZArith QArith Lia.

Local Open Scope Z_scope.
Local Open Scope string_scope.

(** ** Python exceptions and results *)

(** The exception classes that the modelled code raises or catches.  The
    last two derive from [BaseException] only, so that an
    [except Exception] clause lets them through. *)
Inductive exn : Type :=
  | ValueError (msg : string)
  | NameError (name : string)
  | AttributeError (msg : string)
  | KeyError (key : string)
  | MultipleResultsFound
  | InvalidRequestError (msg : string)
  | DBAPIError (msg : string)
  | InvalidToken
  | RedisError (msg : string)
  | OSError (msg : string)
  | CancelledError
  | KeyboardInterrupt.

Definition is_Exception (e : exn) : bool :=
  match e with
  | CancelledError | KeyboardInterrupt => false
  | _ => true
  end.

(** [str(e)], as interpolated into log lines. *)
Definition exn_str (e : exn) : string :=
  match e with
  | ValueError m | AttributeError m | RedisError m | OSError m
  | InvalidRequestError m | DBAPIError m => m
  | NameError n => "name '" +:+ n +:+ "' is not defined"
  | KeyError k => "'" +:+ k +:+ "'"
  | MultipleResultsFound => "Multiple rows were found when one or none was required"
  | InvalidToken | CancelledError | KeyboardInterrupt => ""
  end.

Inductive py_result (A : Type) : Type :=
  | Ok (a : A)
  | Raise (e : exn).
Arguments Ok {A} a.
Arguments Raise {A} e.

Definition returns_normally {A} (r : py_result A) : Prop :=
  match r with Ok _ => True | Raise _ => False end.

(** ** Python string primitives *)

Module PyStr.

(** [s.startswith(p)] *)
Definition startswith (s p : string) : bool := String.prefix p s.

(** [s[n:]] *)
Fixpoint drop (n : nat) (s : string) : string :=
  match n, s with
  | O, _ => s
  | S n', String _ s' => drop n' s'
  | S _, EmptyString => EmptyString
  end.

(** [s.replace(old, new, 1)]: only the leftmost occurrence is replaced. *)
Fixpoint replace_first (old new s : string) : string :=
  if String.prefix old s then new +:+ drop (String.length old) s
  else match s with
       | EmptyString => EmptyString
       | String c s' => String c (replace_first old new s')
       end.

(** Truthiness of an [Optional[str]]: [None] and [""] are falsy. *)
Definition truthy (v : option string) : bool :=
  match v with
  | None => false
  | Some s => negb (String.eqb s "")
  end.

End PyStr.

(** ** app/config.py *)

Module Config.

Record Settings : Type := {
  SECRET_KEY : string;
  ACCESS_TOKEN_EXPIRE_MINUTES : Z;
  REFRESH_TOKEN_EXPIRE_DAYS : Z;
  ALGORITHM : string;
  DATABASE_URL : option string
}.

(** The [pre=True] validator of [DATABASE_URL]. *)
Definition fix_postgres_url (v : option string) : option string :=
  match v with
  | Some s =>
      if PyStr.truthy v && PyStr.startswith s "postgres://"
      then Some (PyStr.replace_first "postgres://" "postgresql://" s)
      else v
  | None => v
  end.

(** [Settings()] with the secret key and the raw [DATABASE_URL] taken
    from the environment; the other fields are the class defaults. *)
Definition load (secret_key : string) (env_database_url : option string)
  : Settings :=
  {| SECRET_KEY := secret_key;
     ACCESS_TOKEN_EXPIRE_MINUTES := 60 * 24 * 8;
     REFRESH_TOKEN_EXPIRE_DAYS := 30;
     ALGORITHM := "HS256";
     DATABASE_URL := fix_postgres_url env_database_url |}.

End Config.

(** ** app/database.py *)

Module Database.

Definition get_database_url (settings : Config.Settings)
  : py_result string :=
  let database_url := Config.DATABASE_URL settings in
  if negb (PyStr.truthy database_url) then
    Raise (ValueError "DATABASE_URL not set")
  else
    match database_url with
    | None => Raise (ValueError "DATABASE_URL not set")
    | Some url =>
        if PyStr.startswith url "postgres://" then
          Ok (PyStr.replace_first "postgres://" "postgresql+psycopg2://" url)
        else if PyStr.startswith url "postgresql://" then
          Ok (PyStr.replace_first "postgresql://" "postgresql+psycopg2://" url)
        else Ok url
    end.

(** The rewrite of [get_database_url] applied to a settings object whose
    [DATABASE_URL] holds [v] unchanged (the validator bypassed). *)
Definition rewrite_raw (secret_key : string) (v : option string)
  : py_result string :=
  get_database_url
    {| Config.SECRET_KEY := secret_key;
       Config.ACCESS_TOKEN_EXPIRE_MINUTES := 60 * 24 * 8;
       Config.REFRESH_TOKEN_EXPIRE_DAYS := 30;
       Config.ALGORITHM := "HS256";
       Config.DATABASE_URL := v |}.

End Database.

(** ** Library and runtime primitives

    What the code takes from its libraries and does not define itself: the
    HMAC behind HS256 (python-jose), bcrypt (passlib), SHA-256, URL-safe
    base64 and Fernet (hashlib, base64, cryptography), the calendar step
    [replace(day=1)] of [datetime], and the Unicode table of decimal digits
    that [re] consults for [\d] beyond ASCII. *)

Inductive jval : Type :=
  | JStr (s : string)
  | JInt (z : Z).

#[global] Instance jval_eq_dec : EqDecision jval.
Proof. solve_decision. Defined.

Class Runtime : Type := {
  hmac_sign : string -> string -> gmap string jval -> string;
  bcrypt_hash : string -> list N -> string;
  sha256 : string -> string;
  urlsafe_b64encode : string -> string;
  fernet_encrypt : string -> string -> string -> string;
  fernet_decrypt : string -> string -> option string;
  month_start : Z -> Z;
  unicode_Nd : N -> bool
}.

(** The contract of Fernet: a token made under a key decrypts under the
    same key to the plaintext, whatever IV and timestamp went into it. *)
Class FernetLaws (R : Runtime) : Prop := {
  fernet_roundtrip :
    forall key iv plain,
      fernet_decrypt key (fernet_encrypt key iv plain) = Some plain
}.

(** ** python-jose: signed tokens *)

Module Jose.

(** A compact JWS seen through its three parts; a string that does not
    split into them is [Garbled]. *)
Record jws : Type := {
  jws_alg : string;
  jws_payload : gmap string jval;
  jws_sig : string
}.

Inductive token : Type :=
  | Garbled (raw : string)
  | Compact (j : jws).

(** The subclasses of [JWTError] (and the causes wrapped into it) that
    [jwt.decode] raises. *)
Inductive jwt_error : Type :=
  | DecodeError
  | AlgorithmNotAllowed
  | SignatureFailed
  | ExpiredSignatureError
  | JWTClaimsError (claim : string).

Section WithRuntime.
Context {R : Runtime}.

(** [jwt.encode(claims, key, algorithm=alg)] *)
Definition encode (claims : gmap string jval) (key alg : string) : token :=
  Compact {| jws_alg := alg;
             jws_payload := claims;
             jws_sig := hmac_sign alg key claims |}.

(** Expiry check: the token is rejected once [exp < now]. *)
Definition validate_exp (now : Z) (claims : gmap string jval)
  : option jwt_error :=
  match claims !! "exp" with
  | None => None
  | Some (JInt e) => if (e <? now)%Z then Some ExpiredSignatureError else None
  | Some (JStr _) => Some (JWTClaimsError "exp")
  end.

(** The subject, when present, must be a string. *)
Definition validate_sub (claims : gmap string jval) : option jwt_error :=
  match claims !! "sub" with
  | None | Some (JStr _) => None
  | Some (JInt _) => Some (JWTClaimsError "sub")
  end.

(** [jwt.decode(token, key, algorithms=algs)] at time [now]. *)
Definition decode (now : Z) (tok : token) (key : string)
    (algs : list string) : jwt_error + gmap string jval :=
  match tok with
  | Garbled _ => inl DecodeError
  | Compact j =>
      if negb (bool_decide (jws_alg j ∈ algs)) then inl AlgorithmNotAllowed
      else if negb (String.eqb (jws_sig j)
                      (hmac_sign (jws_alg j) key (jws_payload j)))
      then inl SignatureFailed
      else match validate_exp now (jws_payload j) with
           | Some e => inl e
           | None =>
               match validate_sub (jws_payload j) with
               | Some e => inl e
               | None => inr (jws_payload j)
               end
           end
  end.

End WithRuntime.

End Jose.

(** ** app/core/security.py *)

Module Security.
Import Config.

Section WithRuntime.
Context {R : Runtime}.

(** A [timedelta] in seconds; [if expires_delta:] is false for [None]
    and for the zero duration. *)
Definition expiry (now : Z) (expires_delta : option Z) (default : Z) : Z :=
  match expires_delta with
  | Some d => if (d =? 0)%Z then now + default else now + d
  | None => now + default
  end.

Definition create_access_token (settings : Settings) (now : Z)
    (subject : string) (expires_delta : option Z) : Jose.token :=
  let expire :=
    expiry now expires_delta (ACCESS_TOKEN_EXPIRE_MINUTES settings * 60) in
  let to_encode : gmap string jval :=
    <["exp" := JInt expire]> (<["sub" := JStr subject]> ∅) in
  Jose.encode to_encode (SECRET_KEY settings) (ALGORITHM settings).

Definition create_refresh_token (settings : Settings) (now : Z)
    (subject : string) (expires_delta : option Z) : Jose.token :=
  let expire :=
    expiry now expires_delta (REFRESH_TOKEN_EXPIRE_DAYS settings * 86400) in
  let to_encode : gmap string jval :=
    <["exp" := JInt expire]>
      (<["sub" := JStr subject]> (<["type" := JStr "refresh"]> ∅)) in
  Jose.encode to_encode (SECRET_KEY settings) (ALGORITHM settings).

Definition get_password_hash (salt : string) (password : list N) : string :=
  bcrypt_hash salt password.

Definition verify_token (settings : Settings) (now : Z) (tok : Jose.token)
  : option jval :=
  match Jose.decode now tok (SECRET_KEY settings) [ALGORITHM settings] with
  | inr payload =>
      match payload !! "sub" with
      | None => None
      | Some subject => Some subject
      end
  | inl _ => None
  end.

Definition create_verification_token (settings : Settings) (now : Z)
    (email : string) : Jose.token :=
  let expire := now + 24 * 3600 in
  let to_encode : gmap string jval :=
    <["exp" := JInt expire]>
      (<["email" := JStr email]> (<["type" := JStr "verification"]> ∅)) in
  Jose.encode to_encode (SECRET_KEY settings) (ALGORITHM settings).

Definition verify_verification_token (settings : Settings) (now : Z)
    (tok : Jose.token) : option jval :=
  match Jose.decode now tok (SECRET_KEY settings) [ALGORITHM settings] with
  | inr payload =>
      if negb (bool_decide (payload !! "type" = Some (JStr "verification")))
      then None
      else payload !! "email"
  | inl _ => None
  end.

End WithRuntime.

End Security.

(** ** app/core/security.py: DataEncryption *)

Module DataEncryption.
Import Config.

(** A [Fernet] instance is determined by its key. *)
Record Fernet : Type := { fernet_key : string }.

(** The class attribute [_fernet]. *)
Definition cache : Type := option Fernet.

Section WithRuntime.
Context {R : Runtime}.

(** [key[:32]] *)
Fixpoint take (n : nat) (s : string) : string :=
  match n, s with
  | S n', String c s' => String c (take n' s')
  | _, _ => EmptyString
  end.

Definition derived_key (settings : Settings) : string :=
  urlsafe_b64encode (take 32 (sha256 (SECRET_KEY settings))).

Definition _get_fernet (settings : Settings) (st : cache) : Fernet * cache :=
  match st with
  | None =>
      let f := {| fernet_key := derived_key settings |} in (f, Some f)
  | Some f => (f, st)
  end.

Definition encrypt_data (settings : Settings) (st : cache)
    (iv data : string) : string * cache :=
  let '(fernet, st) := _get_fernet settings st in
  (fernet_encrypt (fernet_key fernet) iv data, st).

Definition decrypt_data (settings : Settings) (st : cache)
    (encrypted_data : string) : py_result string * cache :=
  let '(fernet, st) := _get_fernet settings st in
  match fernet_decrypt (fernet_key fernet) encrypted_data with
  | Some plain => (Ok plain, st)
  | None => (Raise InvalidToken, st)
  end.

(** The three fields are encrypted in the order the dict literal lists
    them, each with its own IV. *)
Definition encrypt_telegram_credentials (settings : Settings) (st : cache)
    (ivs : string * string * string)
    (api_id api_hash phone_number : string)
  : gmap string string * cache :=
  let '(iv1, iv2, iv3) := ivs in
  let '(c1, st) := encrypt_data settings st iv1 api_id in
  let '(c2, st) := encrypt_data settings st iv2 api_hash in
  let '(c3, st) := encrypt_data settings st iv3 phone_number in
  (<["api_id" := c1]> (<["api_hash" := c2]> (<["phone_number" := c3]> ∅)),
   st).

(** [d[k]] *)
Definition getitem (d : gmap string string) (k : string)
  : py_result string :=
  match d !! k with
  | Some v => Ok v
  | None => Raise (KeyError k)
  end.

Definition decrypt_field (settings : Settings) (st : cache)
    (d : gmap string string) (k : string) : py_result string * cache :=
  match getitem d k with
  | Ok c => decrypt_data settings st c
  | Raise e => (Raise e, st)
  end.

Definition decrypt_telegram_credentials (settings : Settings) (st : cache)
    (encrypted_data : gmap string string)
  : py_result (gmap string string) * cache :=
  match decrypt_field settings st encrypted_data "api_id" with
  | (Raise e, st) => (Raise e, st)
  | (Ok p1, st) =>
      match decrypt_field settings st encrypted_data "api_hash" with
      | (Raise e, st) => (Raise e, st)
      | (Ok p2, st) =>
          match decrypt_field settings st encrypted_data "phone_number" with
          | (Raise e, st) => (Raise e, st)
          | (Ok p3, st) =>
              (Ok (<["api_id" := p1]>
                     (<["api_hash" := p2]> (<["phone_number" := p3]> ∅))),
               st)
          end
      end
  end.

End WithRuntime.

End DataEncryption.

(** ** app/core/optimizations.py *)

Module FreeTierOptimizer.

(** A Redis client, as far as the code uses it: [setex key ttl value]
    either returns ([None]) or raises. *)
Record Redis : Type := { setex : string -> Z -> string -> option exn }.

(** The result, paired with the lines sent to [logger.warning].
    A client object is always truthy, so [if not redis] tests for
    [None]. *)
Definition cache_with_timeout (redis : option Redis) (key value : string)
    (ttl : Z) : py_result (option bool) * list string :=
  match redis with
  | None => (Ok None, [])
  | Some client =>
      match setex client key ttl value with
      | None => (Ok (Some true), [])
      | Some e =>
          if is_Exception e
          then (Ok None, ["Redis cache failed: " +:+ exn_str e])
          else (Raise e, [])
      end
  end.

(** The call with [ttl] left to its default. *)
Definition cache_with_default_ttl (redis : option Redis) (key value : string)
  : py_result (option bool) * list string :=
  cache_with_timeout redis key value 300.

End FreeTierOptimizer.

(** ** app/schemas.py *)

Module Schemas.

(** A password is a sequence of Unicode code points: [len] counts code
    points and [re] classifies them one by one. *)
Definition codepoints : Type := list N.

Definition in_range (lo hi c : N) : bool := ((lo <=? c) && (c <=? hi))%N.

(** [[A-Z]], [[a-z]] and [\d]. *)
Definition is_AZ (c : N) : bool := in_range 65 90 c.
Definition is_az (c : N) : bool := in_range 97 122 c.
Definition is_digit `{R : Runtime} (c : N) : bool :=
  if (c <? 128)%N then in_range 48 57 c else unicode_Nd c.

(** [re.search(cls, v)] for a one-character class is truthy exactly when
    some character of [v] is in the class. *)
Definition re_search (cls : N -> bool) (v : codepoints) : bool :=
  existsb cls v.

Definition msg_length : string := "Password must be at least 8 characters".
Definition msg_upper : string :=
  "Password must contain at least one uppercase letter".
Definition msg_lower : string :=
  "Password must contain at least one lowercase letter".
Definition msg_digit : string := "Password must contain at least one number".

Definition validate_password `{R : Runtime} (v : codepoints)
  : py_result codepoints :=
  if (length v <? 8)%nat then Raise (ValueError msg_length)
  else if negb (re_search is_AZ v) then Raise (ValueError msg_upper)
  else if negb (re_search is_az v) then Raise (ValueError msg_lower)
  else if negb (re_search is_digit v) then Raise (ValueError msg_digit)
  else Ok v.

(** The four clauses of the rule. *)
Definition long_enough (v : codepoints) : Prop := (8 <= length v)%nat.
Definition has_upper (v : codepoints) : Prop := exists c, c ∈ v /\ is_AZ c = true.
Definition has_lower (v : codepoints) : Prop := exists c, c ∈ v /\ is_az c = true.
Definition has_digit `{R : Runtime} (v : codepoints) : Prop :=
  exists c, c ∈ v /\ is_digit c = true.

(** ASCII text as code points, for writing examples. *)
Fixpoint of_string (s : string) : codepoints :=
  match s with
  | EmptyString => []
  | String a s' => Ascii.N_of_ascii a :: of_string s'
  end.

Record UserCreate : Type := {
  uc_email : string;
  uc_full_name : option string;
  uc_company_name : option string;
  uc_phone : option string;
  uc_password : codepoints
}.

(** [ForwardingRuleCreate]; the filter, schedule and behaviour fields left
    out here are copied to the row in the same way as the ones kept. *)
Record ForwardingRuleCreate : Type := {
  frc_rule_name : string;
  frc_telegram_account_id : string;
  frc_source_chat_id : string;
  frc_destination_chat_id : string;
  frc_is_active : bool;
  frc_forward_mode : string;
  frc_keywords : option (list string);
  frc_filter_logic : string;
  frc_max_forwards_per_hour : Z;
  frc_min_interval_seconds : Z
}.

End Schemas.

(** ** app/models.py

    A UUID is kept in its canonical text form, so [str(user.id)] is the id
    itself.  Each table is a finite map from primary key to row, which
    makes the primary key unique by construction.  Rows carry the columns
    the modelled operations read or write. *)

Module Models.

Record User : Type := {
  id : string;
  email : string;
  password_hash : string;
  full_name : option string;
  company_name : option string;
  phone : option string;
  is_active : bool;
  is_verified : bool;
  verification_token : option Jose.token;
  verification_expires : option Z;
  subscription_tier : option string
}.

Record UserProfile : Type := {
  profile_id : string;
  profile_user_id : string
}.

Record ForwardingRule : Type := {
  rule_id : string;
  rule_user_id : string;
  rule_fields : Schemas.ForwardingRuleCreate
}.

Record MessageLog : Type := {
  log_id : string;
  log_rule_id : option string;
  processing_time_ms : option Z;
  status : option string;
  forwarded_at : Z
}.

Record DB : Type := {
  users : gmap string User;
  user_profiles : gmap string UserProfile;
  forwarding_rules : gmap string ForwardingRule;
  message_logs : gmap string MessageLog
}.

Definition empty_db : DB :=
  {| users := ∅; user_profiles := ∅; forwarding_rules := ∅;
     message_logs := ∅ |}.

Inductive Row : Type :=
  | RUser (u : User)
  | RProfile (p : UserProfile)
  | RRule (r : ForwardingRule)
  | RLog (l : MessageLog).

(** INSERT of a new row, or UPDATE of the row with the same key. *)
Definition write (db : DB) (row : Row) : DB :=
  match row with
  | RUser u =>
      {| users := <[id u := u]> (users db);
         user_profiles := user_profiles db;
         forwarding_rules := forwarding_rules db;
         message_logs := message_logs db |}
  | RProfile p =>
      {| users := users db;
         user_profiles := <[profile_id p := p]> (user_profiles db);
         forwarding_rules := forwarding_rules db;
         message_logs := message_logs db |}
  | RRule r =>
      {| users := users db;
         user_profiles := user_profiles db;
         forwarding_rules := <[rule_id r := r]> (forwarding_rules db);
         message_logs := message_logs db |}
  | RLog l =>
      {| users := users db;
         user_profiles := user_profiles db;
         forwarding_rules := forwarding_rules db;
         message_logs := <[log_id l := l]> (message_logs db) |}
  end.

End Models.

(** ** The database session

    An [AsyncSession]: the committed [store], the objects added since the
    last commit, and the sequence of states that commits made durable.
    A query sees the store with the pending objects flushed into it. *)

Module Session.
Import Models.

Record t : Type := {
  store : DB;
  pending : list Row;
  history : list DB
}.

Definition fresh (db : DB) : t :=
  {| store := db; pending := []; history := [] |}.

Definition view (s : t) : DB := fold_left write (pending s) (store s).

(** Session operations: a state-and-exception monad. *)
Definition M (A : Type) : Type := t -> py_result A * t.

Definition ret {A} (a : A) : M A := fun s => (Ok a, s).

Definition bind {A B} (m : M A) (k : A -> M B) : M B :=
  fun s =>
    match m s with
    | (Ok a, s') => k a s'
    | (Raise e, s') => (Raise e, s')
    end.

Definition raise {A} (e : exn) : M A := fun s => (Raise e, s).

Definition lift {A} (r : py_result A) : M A := fun s => (r, s).

(** [db.execute(select ...)] *)
Definition query {A} (q : DB -> A) : M A := fun s => (Ok (q (view s)), s).

(** [db.add(obj)] *)
Definition add (row : Row) : M unit :=
  fun s =>
    (Ok tt, {| store := store s;
               pending := pending s ++ [row];
               history := history s |}).

(** [await db.commit()] *)
Definition commit : M unit :=
  fun s =>
    let db := view s in
    (Ok tt, {| store := db; pending := []; history := history s ++ [db] |}).

(** [result.scalar_one_or_none()] *)
Definition scalar_one_or_none {A} (rows : list A) : py_result (option A) :=
  match rows with
  | [] => Ok None
  | [x] => Ok (Some x)
  | _ => Raise MultipleResultsFound
  end.

(** The session after [db.add(row)] and [await db.commit()]. *)
Definition saved (row : Row) (s : t) : t :=
  {| store := write (view s) row;
     pending := [];
     history := history s ++ [write (view s) row] |}.

End Session.

Notation "'let*' x := m 'in' k" := (Session.bind m (fun x => k))
  (at level 10, x name, m at level 100, k at level 200, only parsing).
Notation "'do*' m 'in' k" := (Session.bind m (fun _ => k))
  (at level 10, m at level 100, k at level 200, only parsing).

(** ** app/crud.py *)

Module CRUDUser.
Import Config Models Session.

Section WithRuntime.
Context {R : Runtime}.

Definition with_email (e : string) (db : DB) : gmap string User :=
  filter (fun kv => email kv.2 = e) (users db).

Definition get_by_email (e : string) : M (option User) :=
  let* rows := query (fun db => (map_to_list (with_email e db)).*2) in
  lift (scalar_one_or_none rows).

(** A lookup by primary key selects at most one row. *)
Definition get (user_id : string) : M (option User) :=
  query (fun db => users db !! user_id).

(** [await db.refresh(obj)]: the row is read back by primary key. *)
Definition refresh (user_id : string) : M User :=
  let* row := query (fun db => users db !! user_id) in
  match row with
  | Some u => ret u
  | None => raise (InvalidRequestError "Could not refresh instance")
  end.

(** The arguments after [obj_in] are the clock and the random draws of
    the call: the bcrypt salt and the primary keys that [uuid.uuid4]
    hands to the user and to the profile.  Columns not passed to the
    constructor take their declared defaults on insert. *)
Definition create (settings : Settings) (obj_in : Schemas.UserCreate)
    (now : Z) (salt new_user_id new_profile_id : string) : M User :=
  let* existing_user := get_by_email (Schemas.uc_email obj_in) in
  match existing_user with
  | Some _ => raise (ValueError "User with this email already exists")
  | None =>
      let db_obj :=
        {| id := new_user_id;
           email := Schemas.uc_email obj_in;
           password_hash :=
             Security.get_password_hash salt (Schemas.uc_password obj_in);
           full_name := Schemas.uc_full_name obj_in;
           company_name := Schemas.uc_company_name obj_in;
           phone := Schemas.uc_phone obj_in;
           is_active := true;
           is_verified := false;
           verification_token :=
             Some (Security.create_verification_token settings now
                     (Schemas.uc_email obj_in));
           verification_expires := Some (now + 24 * 3600);
           subscription_tier := Some "free" |} in
      do* add (RUser db_obj) in
      do* commit in
      let* db_obj := refresh (id db_obj) in
      let profile :=
        {| profile_id := new_profile_id; profile_user_id := id db_obj |} in
      do* add (RProfile profile) in
      do* commit in
      ret db_obj
  end.

(** The three assignments of [verify_email]. *)
Definition mark_verified (u : User) : User :=
  {| id := id u;
     email := email u;
     password_hash := password_hash u;
     full_name := full_name u;
     company_name := company_name u;
     phone := phone u;
     is_active := is_active u;
     is_verified := true;
     verification_token := None;
     verification_expires := None;
     subscription_tier := subscription_tier u |}.

(** [if not email] holds for [None], [""] and [0].  A signed token of
    the application always carries a string; comparing the [email]
    column with a number is an error of the database. *)
Definition verify_email (settings : Settings) (now : Z)
    (token : Jose.token) : M (option User) :=
  match Security.verify_verification_token settings now token with
  | None => ret None
  | Some (JInt z) =>
      if (z =? 0)%Z then ret None
      else raise (DBAPIError "character varying = integer")
  | Some (JStr e) =>
      if String.eqb e "" then ret None
      else
        let* user := get_by_email e in
        match user with
        | None => ret None
        | Some user =>
            let user := mark_verified user in
            do* add (RUser user) in
            do* commit in
            let* user := refresh (id user) in
            ret (Some user)
        end
  end.

End WithRuntime.

End CRUDUser.

Module CRUDForwardingRule.
Import Models Session.

Definition rules_of (user_id : string) (db : DB)
  : gmap string ForwardingRule :=
  filter (fun kv => rule_user_id kv.2 = user_id) (forwarding_rules db).

(** [select(func.count(ForwardingRule.id)).where(user_id == ...)] *)
Definition count_rules (user_id : string) (db : DB) : Z :=
  Z.of_nat (size (rules_of user_id db)).

Definition refresh (rid : string) : M ForwardingRule :=
  let* row := query (fun db => forwarding_rules db !! rid) in
  match row with
  | Some r => ret r
  | None => raise (InvalidRequestError "Could not refresh instance")
  end.

(** [new_rule_id] is the primary key drawn by [uuid.uuid4]. *)
Definition create (user_id : string) (obj_in : Schemas.ForwardingRuleCreate)
    (new_rule_id : string) : M ForwardingRule :=
  let* user := CRUDUser.get user_id in
  let* rule_count := query (count_rules user_id) in
  match user with
  | None =>
      raise (AttributeError
               "'NoneType' object has no attribute 'subscription_tier'")
  | Some user =>
      if bool_decide (subscription_tier user = Some "free")
         && (3 <=? rule_count)%Z
      then raise (ValueError "Free tier limited to 3 forwarding rules")
      else if bool_decide (subscription_tier user = Some "pro")
              && (20 <=? rule_count)%Z
      then raise (ValueError "Pro tier limited to 20 forwarding rules")
      else
        let db_obj :=
          {| rule_id := new_rule_id;
             rule_user_id := user_id;
             rule_fields := obj_in |} in
        do* add (RRule db_obj) in
        do* commit in
        let* db_obj := refresh (rule_id db_obj) in
        ret db_obj
  end.

End CRUDForwardingRule.

Module CRUDMessageLog.
Import Models Session.

(** The names bound at module level in [app/crud.py] (imports, the
    logger, the classes and their instances), and the builtins the
    module uses.  A name found in neither raises [NameError] when the
    expression using it is evaluated. *)
Definition module_globals : list string :=
  [ "Optional"; "List"; "Dict"; "Any"; "AsyncSession";
    "select"; "update"; "delete"; "func"; "and_"; "or_"; "selectinload";
    "uuid"; "datetime"; "timedelta";
    "User"; "UserProfile"; "TelegramAccount"; "TelegramChat";
    "ForwardingRule"; "MessageLog"; "ApiKey";
    "UserCreate"; "UserUpdate"; "TelegramAccountCreate";
    "ForwardingRuleCreate"; "ForwardingRuleUpdate";
    "security"; "encryption"; "structlog"; "logger";
    "CRUDUser"; "CRUDTelegramAccount"; "CRUDTelegramChat";
    "CRUDForwardingRule"; "CRUDMessageLog"; "CRUDApiKey";
    "crud_user"; "crud_telegram_account"; "crud_telegram_chat";
    "crud_forwarding_rule"; "crud_message_log"; "crud_api_key" ].

Definition builtins : list string := [ "round"; "str"; "len" ].

Definition load_name (globals : list string) (name : string) : M unit :=
  if bool_decide (name ∈ (globals ++ builtins)%list) then ret tt
  else raise (NameError name).

Record Stats : Type := {
  messages_today : Z;
  messages_this_month : Z;
  success_rate : Q;
  average_processing_time_ms : Q
}.

(** The user owning a log, through [MessageLog JOIN ForwardingRule]. *)
Definition log_owner (db : DB) (l : MessageLog) : option string :=
  match log_rule_id l with
  | None => None
  | Some rid =>
      match forwarding_rules db !! rid with
      | None => None
      | Some r => Some (rule_user_id r)
      end
  end.

Definition user_logs (user_id : string) (db : DB) : list MessageLog :=
  filter (fun l => log_owner db l = Some user_id)
         (map_to_list (message_logs db)).*2.

Definition count_since (t : Z) (logs : list MessageLog) : Z :=
  Z.of_nat (length (filter (fun l => (t <= forwarded_at l)%Z) logs)).

Definition count_success (logs : list MessageLog) : Z :=
  Z.of_nat (length (filter (fun l => status l = Some "success") logs)).

(** [func.avg] over the non-null values: [None] on an empty set. *)
Definition avg (xs : list Z) : option Q :=
  match xs with
  | [] => None
  | _ => Some (inject_Z (fold_right Z.add 0%Z xs)
               / inject_Z (Z.of_nat (length xs)))%Q
  end.

(** [round(x, 2)] on an exact rational: to the nearest hundredth, ties
    to the even one. *)
Definition round2 (x : Q) : Q :=
  let n := (Qnum x * 100)%Z in
  let d := Zpos (Qden x) in
  let fl := (n / d)%Z in
  let r2 := (2 * (n mod d))%Z in
  let k := if (r2 <? d)%Z then fl
           else if (d <? r2)%Z then (fl + 1)%Z
           else if Z.even fl then fl else (fl + 1)%Z in
  (k # 100)%Q.

(** The body of [get_user_stats], run in a module whose global names are
    [globals]. *)
Definition get_user_stats_in `{R : Runtime} (globals : list string)
    (user_id : string) (now : Z) : M Stats :=
  let today := (now - now mod 86400)%Z in
  let* messages_today :=
    query (fun db => count_since today (user_logs user_id db)) in
  let first_day_of_month := month_start today in
  let* messages_this_month :=
    query (fun db => count_since first_day_of_month (user_logs user_id db)) in
  (* building the third statement evaluates the name [case] *)
  do* load_name globals "case" in
  let* row :=
    query (fun db =>
             let logs := user_logs user_id db in
             (Z.of_nat (length logs), count_success logs)) in
  let '(total, success) := row in
  let success_rate :=
    if (0 <? total)%Z
    then (inject_Z success / inject_Z total * 100)%Q
    else 100%Q in
  let* average :=
    query (fun db =>
             avg (omap processing_time_ms (user_logs user_id db))) in
  let avg_processing_time := default 0%Q average in
  ret {| messages_today := messages_today;
         messages_this_month := messages_this_month;
         success_rate := round2 success_rate;
         average_processing_time_ms := round2 avg_processing_time |}.

Definition get_user_stats `{R : Runtime} (user_id : string) (now : Z)
  : M Stats :=
  get_user_stats_in module_globals user_id now.

End CRUDMessageLog.

(** ** app/routers/auth.py *)

Module Auth.
Import Config Models Session.

Inductive response : Type :=
  | Token (access_token refresh_token : Jose.token) (token_type : string)
  | HTTPException (status_code : Z) (detail : string).

(** POST /refresh.  [if not user_id] holds for [None] and [""]; a
    subject that is not a string never gets past [jwt.decode]. *)
Definition refresh_token `{R : Runtime} (settings : Settings) (now : Z)
    (refresh_token : Jose.token) : M response :=
  match Security.verify_token settings now refresh_token with
  | None => ret (HTTPException 401 "Invalid refresh token")
  | Some (JInt _) => raise (DBAPIError "invalid input syntax for type uuid")
  | Some (JStr user_id) =>
      if String.eqb user_id "" then
        ret (HTTPException 401 "Invalid refresh token")
      else
        let* user := CRUDUser.get user_id in
        match user with
        | None => ret (HTTPException 401 "User not found or inactive")
        | Some user =>
            if negb (is_active user) then
              ret (HTTPException 401 "User not found or inactive")
            else
              let access_token_expires :=
                (ACCESS_TOKEN_EXPIRE_MINUTES settings * 60)%Z in
              let refresh_token_expires :=
                (REFRESH_TOKEN_EXPIRE_DAYS settings * 86400)%Z in
              let new_access_token :=
                Security.create_access_token settings now (id user)
                  (Some access_token_expires) in
              let new_refresh_token :=
                Security.create_refresh_token settings now (id user)
                  (Some refresh_token_expires) in
              ret (Token new_access_token new_refresh_token "bearer")
        end
  end.

End Auth.

(** ** A stand-in runtime

    Simple functions in place of the library primitives, for evaluating
    the model on concrete inputs.  The signature binds key, algorithm and
    the names and values of the claims; the cipher tags the plaintext. *)

Module StandIn.

Fixpoint show_pos (p : positive) : string :=
  match p with
  | xH => "1"
  | xO p' => show_pos p' +:+ "0"
  | xI p' => show_pos p' +:+ "1"
  end.

Definition show_Z (z : Z) : string :=
  match z with
  | Z0 => "0"
  | Zpos p => show_pos p
  | Zneg p => "-" +:+ show_pos p
  end.

Definition show_jval (v : jval) : string :=
  match v with
  | JStr s => "s" +:+ s
  | JInt z => "i" +:+ show_Z z
  end.

Definition show_claims (claims : gmap string jval) : string :=
  fold_right (fun kv acc => kv.1 +:+ "=" +:+ show_jval kv.2 +:+ ";" +:+ acc)
             "" (map_to_list claims).

Definition runtime : Runtime :=
  {| hmac_sign alg key claims := alg +:+ "/" +:+ key +:+ "/" +:+ show_claims claims;
     bcrypt_hash salt password := "$2b$" +:+ salt;
     sha256 s := s;
     urlsafe_b64encode s := s;
     fernet_encrypt key iv plain := "F" +:+ plain;
     fernet_decrypt key tok :=
       match tok with
       | String a plain => if Ascii.eqb a "F"%char then Some plain else None
       | EmptyString => None
       end;
     month_start t := t;
     unicode_Nd c := false |}.

Definition settings : Config.Settings :=
  Config.load "0123456789abcdef0123456789abcdef"
              (Some "postgres://app:pw@db.internal:5432/forwarder").

Definition alice : Schemas.UserCreate :=
  {| Schemas.uc_email := "alice@example.com";
     Schemas.uc_full_name := Some "Alice";
     Schemas.uc_company_name := None;
     Schemas.uc_phone := None;
     Schemas.uc_password := Schemas.of_string "Abcdef12" |}.

Definition rule (name : string) : Schemas.ForwardingRuleCreate :=
  {| Schemas.frc_rule_name := name;
     Schemas.frc_telegram_account_id := "acc-1";
     Schemas.frc_source_chat_id := "chat-1";
     Schemas.frc_destination_chat_id := "chat-2";
     Schemas.frc_is_active := true;
     Schemas.frc_forward_mode := "all";
     Schemas.frc_keywords := None;
     Schemas.frc_filter_logic := "any";
     Schemas.frc_max_forwards_per_hour := 100;
     Schemas.frc_min_interval_seconds := 0 |}.

(** Alice registers at time 1000 on an empty database. *)
Definition registration : py_result Models.User * Session.t :=
  CRUDUser.create (R := runtime) settings alice 1000 "salt" "u-1" "p-1"
    (Session.fresh Models.empty_db).

Definition registered : Session.t := registration.2.

Definition alice_row : Models.User :=
  {| Models.id := "u-1";
     Models.email := "alice@example.com";
     Models.password_hash := "$2b$salt";
     Models.full_name := Some "Alice";
     Models.company_name := None;
     Models.phone := None;
     Models.is_active := true;
     Models.is_verified := false;
     Models.verification_token :=
       Some (Security.create_verification_token (R := runtime) settings 1000
               "alice@example.com");
     Models.verification_expires := Some 87400;
     Models.subscription_tier := Some "free" |}.

(** Fixtures: a stored user with the given tier and [n] rules of theirs,
    with keys [r-1] to [r-n]. *)
Definition with_tier (tier : string) (u : Models.User) : Models.User :=
  {| Models.id := Models.id u;
     Models.email := Models.email u;
     Models.password_hash := Models.password_hash u;
     Models.full_name := Models.full_name u;
     Models.company_name := Models.company_name u;
     Models.phone := Models.phone u;
     Models.is_active := Models.is_active u;
     Models.is_verified := Models.is_verified u;
     Models.verification_token := Models.verification_token u;
     Models.verification_expires := Models.verification_expires u;
     Models.subscription_tier := Some tier |}.

Definition rule_key (n : nat) : string := "r-" +:+ show_Z (Z.of_nat n).

Fixpoint add_rules (n : nat) (db : Models.DB) : Models.DB :=
  match n with
  | O => db
  | S n' =>
      Models.write (add_rules n' db)
        (Models.RRule {| Models.rule_id := rule_key n;
                         Models.rule_user_id := "u-1";
                         Models.rule_fields := rule (rule_key n) |})
  end.

Definition account (tier : string) (n : nat) : Session.t :=
  Session.fresh
    (add_rules n
       (Models.write Models.empty_db (Models.RUser (with_tier tier alice_row)))).

End StandIn.

(** * Further operations *)

(** ** app/core/security.py: password-reset tokens *)

Module PasswordReset.
Import Config.

Section WithRuntime.
Context {R : Runtime}.

Definition create_password_reset_token (settings : Settings) (now : Z)
    (email : string) : Jose.token :=
  let expire := now + 1 * 3600 in
  let to_encode : gmap string jval :=
    <["exp" := JInt expire]>
      (<["email" := JStr email]> (<["type" := JStr "reset"]> ∅)) in
  Jose.encode to_encode (SECRET_KEY settings) (ALGORITHM settings).

Definition verify_password_reset_token (settings : Settings) (now : Z)
    (tok : Jose.token) : option jval :=
  match Jose.decode now tok (SECRET_KEY settings) [ALGORITHM settings] with
  | inr payload =>
      if negb (bool_decide (payload !! "type" = Some (JStr "reset")))
      then None
      else payload !! "email"
  | inl _ => None
  end.

End WithRuntime.

End PasswordReset.

(** ** app/database.py and app/dependencies.py: scoped sessions *)

Module Scoped.
Import Models Session.

(** [await session.rollback()] *)
Definition rollback : M unit :=
  fun s =>
    (Ok tt, {| store := store s; pending := []; history := history s |}).

(** [await session.close()]: what was not committed is dropped with the
    transaction. *)
Definition close : M unit :=
  fun s =>
    (Ok tt, {| store := store s; pending := []; history := history s |}).

End Scoped.

Module DatabaseSession.
Import Models Session.

(** [get_db] of app/database.py around the code that runs at its
    [yield]: commit when that code returns, roll back when it raises an
    [Exception], close in every case. *)
Definition get_db {A} (handler : M A) : M A :=
  fun s =>
    match handler s with
    | (Ok a, s1) =>
        match commit s1 with
        | (Ok _, s2) => (Ok a, (Scoped.close s2).2)
        | (Raise e, s2) =>
            if is_Exception e
            then (Raise e, (Scoped.close (Scoped.rollback s2).2).2)
            else (Raise e, (Scoped.close s2).2)
        end
    | (Raise e, s1) =>
        if is_Exception e
        then (Raise e, (Scoped.close (Scoped.rollback s1).2).2)
        else (Raise e, (Scoped.close s1).2)
    end.

End DatabaseSession.

Module Dependencies.
Import Models Session.

(** [get_db] of app/dependencies.py: close in every case, and nothing
    else. *)
Definition get_db {A} (handler : M A) : M A :=
  fun s =>
    match handler s with
    | (r, s1) => (r, (Scoped.close s1).2)
    end.

End Dependencies.

(** ** app/crud.py: rules by key *)

Module RuleOps.
Import Models Session.

Definition get_by_id (rule_id : string) : M (option ForwardingRule) :=
  query (fun db => forwarding_rules db !! rule_id).

(** [ForeignKey("forwarding_rules.id", ondelete="SET NULL")] on
    [MessageLog.rule_id]. *)
Definition detach (rid : string) (l : MessageLog) : MessageLog :=
  if bool_decide (log_rule_id l = Some rid)
  then {| log_id := log_id l;
          log_rule_id := None;
          processing_time_ms := processing_time_ms l;
          status := status l;
          forwarded_at := forwarded_at l |}
  else l.

Definition delete_rule (rid : string) (db : DB) : DB :=
  {| users := users db;
     user_profiles := user_profiles db;
     forwarding_rules := base.delete rid (forwarding_rules db);
     message_logs := detach rid <$> message_logs db |}.

(** [delete]: the DELETE ... RETURNING statement and the commit that
    follows it, taken together; a returned key is always truthy. *)
Definition delete (rule_id : string) : M bool :=
  fun s =>
    let db := view s in
    let deleted_id := Models.rule_id <$> forwarding_rules db !! rule_id in
    let db' := delete_rule rule_id db in
    let s' := {| store := db'; pending := []; history := history s ++ [db'] |} in
    match deleted_id with
    | Some _ => (Ok true, s')
    | None => (Ok false, s')
    end.

End RuleOps.

(** ** app/routers/auth.py: the other routes *)

(** [pwd_context.verify] of passlib. *)
Class PasswordRuntime : Type := {
  bcrypt_verify : list N -> string -> bool
}.

Module AuthRoutes.
Import Config Models Session.

(** The names bound at module level in [app/routers/auth.py]. *)
Definition module_globals : list string :=
  [ "timedelta"; "Any"; "APIRouter"; "Depends"; "HTTPException"; "status";
    "BackgroundTasks"; "OAuth2PasswordRequestForm"; "AsyncSession";
    "structlog"; "crud"; "models"; "schemas"; "get_db"; "get_current_user";
    "security"; "settings"; "send_verification_email";
    "send_password_reset_email"; "router"; "logger";
    "register"; "login"; "refresh_token"; "verify_email";
    "resend_verification"; "forgot_password"; "reset_password"; "logout";
    "read_users_me"; "update_user_me"; "change_password" ].

(** What a route hands to [background_tasks.add_task]. *)
Inductive task : Type :=
  | send_verification_email (email_to username : string)
      (token : option Jose.token)
  | send_password_reset_email (email_to username : string)
      (token : Jose.token).

Inductive reply : Type :=
  | UserResponse (user : User)
  | TokenResponse (access_token refresh_token : Jose.token)
      (token_type : string)
  | MessageResponse (message : string)
  | HTTPException (status_code : Z) (detail : string)
      (headers : list (string * string)).

(** [user.full_name or user.email] *)
Definition display_name (u : User) : string :=
  match full_name u with
  | Some n => if String.eqb n "" then email u else n
  | None => email u
  end.

Definition with_verification (u : User) (token : option Jose.token)
    (expires : option Z) : User :=
  {| id := id u;
     email := email u;
     password_hash := password_hash u;
     full_name := full_name u;
     company_name := company_name u;
     phone := phone u;
     is_active := is_active u;
     is_verified := is_verified u;
     verification_token := token;
     verification_expires := expires;
     subscription_tier := subscription_tier u |}.

Section WithRuntime.
Context {R : Runtime} {P : PasswordRuntime}.

Definition verify_password (plain_password : list N)
    (hashed_password : string) : bool :=
  bcrypt_verify plain_password hashed_password.

(** POST /register.  Only [ValueError] is caught. *)
Definition register (settings : Settings) (user_in : Schemas.UserCreate)
    (now : Z) (salt new_user_id new_profile_id : string)
  : M (reply * list task) :=
  fun s =>
    match CRUDUser.create settings user_in now salt new_user_id
            new_profile_id s with
    | (Ok user, s1) =>
        (Ok (UserResponse user,
             [send_verification_email (email user) (display_name user)
                (verification_token user)]), s1)
    | (Raise (ValueError msg), s1) =>
        (Ok (HTTPException 400 (exn_str (ValueError msg)) [], []), s1)
    | (Raise e, s1) => (Raise e, s1)
    end.

(** POST /login.  The statement that records the login evaluates the name
    [datetime]; the row it would save differs from the stored one only in
    [last_login]. *)
Definition login (settings : Settings) (now : Z) (username : string)
    (password : list N) : M reply :=
  let* user := CRUDUser.get_by_email username in
  match user with
  | None =>
      ret (HTTPException 401 "Incorrect email or password"
             [("WWW-Authenticate", "Bearer")])
  | Some user =>
      if negb (verify_password password (password_hash user)) then
        ret (HTTPException 401 "Incorrect email or password"
               [("WWW-Authenticate", "Bearer")])
      else if negb (is_active user) then
        ret (HTTPException 400 "Inactive user" [])
      else
        do* CRUDMessageLog.load_name module_globals "datetime" in
        do* add (RUser user) in
        do* commit in
        let access_token_expires :=
          (ACCESS_TOKEN_EXPIRE_MINUTES settings * 60)%Z in
        let refresh_token_expires :=
          (REFRESH_TOKEN_EXPIRE_DAYS settings * 86400)%Z in
        let access_token :=
          Security.create_access_token settings now (id user)
            (Some access_token_expires) in
        let refresh_token :=
          Security.create_refresh_token settings now (id user)
            (Some refresh_token_expires) in
        ret (TokenResponse access_token refresh_token "bearer")
  end.

(** POST /verify-email *)
Definition verify_email (settings : Settings) (now : Z) (token : Jose.token)
  : M reply :=
  let* user := CRUDUser.verify_email settings now token in
  match user with
  | None => ret (HTTPException 400 "Invalid or expired verification token" [])
  | Some _ => ret (MessageResponse "Email verified successfully")
  end.

(** POST /resend-verification.  The new token is assigned to the loaded
    row, which the session then holds as changed; the next statement
    evaluates the name [datetime]. *)
Definition resend_verification (settings : Settings) (now : Z)
    (email_in : string) : M (reply * list task) :=
  let* user := CRUDUser.get_by_email email_in in
  match user with
  | None =>
      ret (MessageResponse
             "If your email exists, you will receive a verification link", [])
  | Some user =>
      if is_verified user then
        ret (HTTPException 400 "Email already verified" [], [])
      else
        let user :=
          with_verification user
            (Some (Security.create_verification_token settings now
                     (email user)))
            (verification_expires user) in
        do* add (RUser user) in
        do* CRUDMessageLog.load_name module_globals "datetime" in
        let user :=
          with_verification user (verification_token user)
            (Some (now + 24 * 3600)%Z) in
        do* add (RUser user) in
        do* commit in
        ret (MessageResponse "Verification email sent",
             [send_verification_email (email user) (display_name user)
                (verification_token user)])
  end.

(** POST /forgot-password *)
Definition forgot_password (settings : Settings) (now : Z)
    (email_in : string) : M (reply * list task) :=
  let* user := CRUDUser.get_by_email email_in in
  let tasks :=
    match user with
    | Some user =>
        if is_active user then
          [send_password_reset_email (email user) (display_name user)
             (PasswordReset.create_password_reset_token settings now
                (email user))]
        else []
    | None => []
    end in
  ret (MessageResponse
         "If your email exists, you will receive a password reset link",
       tasks).

End WithRuntime.

End AuthRoutes.

(** ** Accounts and API keys

    The tables that the operations below use besides [users]: the
    Telegram accounts and the API keys, with a session over them built
    like the one above. *)

Module Accounts.

Record TelegramAccount : Type := {
  account_id : string;
  account_user_id : string;
  api_id : string;
  api_hash : string;
  phone_number : string;
  is_active : bool;
  is_connected : bool;
  connection_token : option string;
  expires_at : option Z
}.

(** Modelled from the spec: the [ApiKey] model class, which
    app/models.py leaves out.  The columns are those that
    [validate_api_key] reads and writes. *)
Record ApiKey : Type := {
  key_id : string;
  api_key : string;
  key_user_id : string;
  key_is_active : bool;
  key_expires_at : option Z;
  last_used : option Z;
  usage_count : Z
}.

Record DB : Type := {
  users : gmap string Models.User;
  telegram_accounts : gmap string TelegramAccount;
  api_keys : gmap string ApiKey
}.

Inductive Row : Type :=
  | RAccount (a : TelegramAccount)
  | RApiKey (k : ApiKey).

Definition write (db : DB) (row : Row) : DB :=
  match row with
  | RAccount a =>
      {| users := users db;
         telegram_accounts := <[account_id a := a]> (telegram_accounts db);
         api_keys := api_keys db |}
  | RApiKey k =>
      {| users := users db;
         telegram_accounts := telegram_accounts db;
         api_keys := <[key_id k := k]> (api_keys db) |}
  end.

Record session : Type := {
  store : DB;
  pending : list Row;
  history : list DB
}.

Definition view (s : session) : DB := fold_left write (pending s) (store s).

Definition M (A : Type) : Type := session -> py_result A * session.

Definition ret {A} (a : A) : M A := fun s => (Ok a, s).

Definition bind {A B} (m : M A) (k : A -> M B) : M B :=
  fun s =>
    match m s with
    | (Ok a, s') => k a s'
    | (Raise e, s') => (Raise e, s')
    end.

Definition raise {A} (e : exn) : M A := fun s => (Raise e, s).

Definition lift {A} (r : py_result A) : M A := fun s => (r, s).

Definition query {A} (q : DB -> A) : M A := fun s => (Ok (q (view s)), s).

Definition add (row : Row) : M unit :=
  fun s =>
    (Ok tt, {| store := store s;
               pending := pending s ++ [row];
               history := history s |}).

Definition commit : M unit :=
  fun s =>
    let db := view s in
    (Ok tt, {| store := db; pending := []; history := history s ++ [db] |}).

Definition saved (row : Row) (s : session) : session :=
  {| store := write (view s) row;
     pending := [];
     history := history s ++ [write (view s) row] |}.

End Accounts.

Notation "'let+' x := m 'in' k" := (Accounts.bind m (fun x => k))
  (at level 10, x name, m at level 100, k at level 200, only parsing).
Notation "'do+' m 'in' k" := (Accounts.bind m (fun _ => k))
  (at level 10, m at level 100, k at level 200, only parsing).

Module CRUDTelegramAccount.
Import Config Accounts.

Record TelegramAccountCreate : Type := {
  tac_phone_number : string;
  tac_api_id : string;
  tac_api_hash : string;
  tac_verification_code : option string;
  tac_password : option string
}.

Section WithRuntime.
Context {R : Runtime}.

(** The rows whose [user_id] and stored [phone_number] equal the given
    values. *)
Definition matching (user_id phone : string) (db : DB)
  : gmap string TelegramAccount :=
  filter (fun kv => account_user_id kv.2 = user_id
                    /\ Accounts.phone_number kv.2 = phone)
         (telegram_accounts db).

Definition get_by_id (account_id : string) : M (option TelegramAccount) :=
  query (fun db => telegram_accounts db !! account_id).

Definition refresh (account_id : string) : M TelegramAccount :=
  let+ row := query (fun db => telegram_accounts db !! account_id) in
  match row with
  | Some a => ret a
  | None => raise (InvalidRequestError "Could not refresh instance")
  end.

(** [create].  Besides the session it runs on the cipher cache of the
    process, which it returns; [ivs], [connection_token] and
    [new_account_id] are the random draws of the call. *)
Definition create (settings : Settings) (st : DataEncryption.cache)
    (ivs : string * string * string) (connection_token : string) (now : Z)
    (new_account_id user_id : string) (obj_in : TelegramAccountCreate)
  : M (TelegramAccount * DataEncryption.cache) :=
  let+ rows :=
    query (fun db =>
             (map_to_list (matching user_id (tac_phone_number obj_in) db)).*2) in
  let+ existing := lift (Session.scalar_one_or_none rows) in
  match existing with
  | Some _ => raise (ValueError "Telegram account already connected")
  | None =>
      let '(encrypted_creds, st) :=
        DataEncryption.encrypt_telegram_credentials settings st ivs
          (tac_api_id obj_in) (tac_api_hash obj_in)
          (tac_phone_number obj_in) in
      let+ c_api_id := lift (DataEncryption.getitem encrypted_creds "api_id") in
      let+ c_api_hash :=
        lift (DataEncryption.getitem encrypted_creds "api_hash") in
      let+ c_phone :=
        lift (DataEncryption.getitem encrypted_creds "phone_number") in
      let db_obj :=
        {| account_id := new_account_id;
           account_user_id := user_id;
           api_id := c_api_id;
           api_hash := c_api_hash;
           Accounts.phone_number := c_phone;
           is_active := true;
           is_connected := false;
           Accounts.connection_token := Some connection_token;
           expires_at := Some (now + 30 * 60) |} in
      do+ add (RAccount db_obj) in
      do+ commit in
      let+ db_obj := refresh (account_id db_obj) in
      ret (db_obj, st)
  end.


End WithRuntime.

End CRUDTelegramAccount.

Module CRUDApiKey.
Import Accounts.

Definition valid_at (now : Z) (key : string) (k : ApiKey) : Prop :=
  api_key k = key
  /\ key_is_active k = true
  /\ (key_expires_at k = None
      \/ exists t, key_expires_at k = Some t /\ now < t).

#[global] Instance valid_at_dec now key k : Decision (valid_at now key k).
Proof.
  unfold valid_at.
  destruct (key_expires_at k) as [t|].
  - destruct (decide (api_key k = key)); [|right; tauto].
    destruct (decide (key_is_active k = true)); [|right; tauto].
    destruct (decide (now < t)).
    + left. split; [assumption|]. split; [assumption|].
      right. exists t. split; [reflexivity | assumption].
    + right. intros (_ & _ & [?|(t' & [= <-] & ?)]); [discriminate | lia].
  - destruct (decide (api_key k = key)); [|right; tauto].
    destruct (decide (key_is_active k = true)); [|right; tauto].
    left. auto.
Defined.

Definition used (now : Z) (k : ApiKey) : ApiKey :=
  {| key_id := key_id k;
     api_key := api_key k;
     key_user_id := key_user_id k;
     key_is_active := key_is_active k;
     key_expires_at := key_expires_at k;
     last_used := Some now;
     usage_count := usage_count k + 1 |}.

Definition validate_api_key (now : Z) (key : string) : M (option string) :=
  let+ rows :=
    query (fun db =>
             (map_to_list
                (filter (fun kv => valid_at now key kv.2) (api_keys db))).*2) in
  let+ api_key_obj := lift (Session.scalar_one_or_none rows) in
  match api_key_obj with
  | Some api_key_obj =>
      let api_key_obj := used now api_key_obj in
      do+ add (RApiKey api_key_obj) in
      do+ commit in
      ret (Some (key_user_id api_key_obj))
  | None => ret None
  end.

End CRUDApiKey.

(** ** app/dependencies.py: the caller of a request *)

Module CurrentUser.
Import Config Accounts.

Inductive outcome : Type :=
  | Authenticated (user : Models.User)
  | HTTPException (status_code : Z) (detail : string)
      (headers : list (string * string)).

Definition credentials_exception : outcome :=
  HTTPException 401 "Could not validate credentials"
    [("WWW-Authenticate", "Bearer")].

Definition select_user (user_id : string) : M (option Models.User) :=
  query (fun db => users db !! user_id).

(** [get_current_user].  An API key that is not empty is checked first
    and decides alone; a subject that is not a string never gets past
    [jwt.decode]. *)
Definition get_current_user `{R : Runtime} (settings : Settings) (now : Z)
    (token : Jose.token) (api_key : option string) : M outcome :=
  if PyStr.truthy api_key then
    let+ user_id :=
      CRUDApiKey.validate_api_key now (default "" api_key) in
    match user_id with
    | None => ret credentials_exception
    | Some user_id =>
        let+ user := select_user user_id in
        match user with
        | None => ret credentials_exception
        | Some user =>
            if negb (Models.is_active user) then ret credentials_exception
            else ret (Authenticated user)
        end
    end
  else
    match Jose.decode now token (SECRET_KEY settings) [ALGORITHM settings] with
    | inl _ => ret credentials_exception
    | inr payload =>
        match payload !! "sub" with
        | None => ret credentials_exception
        | Some (JInt _) =>
            raise (DBAPIError "invalid input syntax for type uuid")
        | Some (JStr user_id) =>
            let+ user := select_user user_id in
            match user with
            | None => ret credentials_exception
            | Some user =>
                if negb (Models.is_active user) then
                  ret (HTTPException 400 "Inactive user" [])
                else ret (Authenticated user)
            end
        end
    end.

(** [get_current_superuser], after [get_current_user]. *)
Definition get_current_superuser (current : outcome) : outcome :=
  match current with
  | Authenticated current_user =>
      if negb (bool_decide
                 (Models.subscription_tier current_user = Some "enterprise"))
      then HTTPException 403 "Not enough permissions" []
      else Authenticated current_user
  | denied => denied
  end.

End CurrentUser.


(** Fixtures for the accounts. *)
Module StandInAccounts.

Definition phone : CRUDTelegramAccount.TelegramAccountCreate :=
  {| CRUDTelegramAccount.tac_phone_number := "+15550100";
     CRUDTelegramAccount.tac_api_id := "1234567";
     CRUDTelegramAccount.tac_api_hash := "0a1b2c3d4e5f";
     CRUDTelegramAccount.tac_verification_code := None;
     CRUDTelegramAccount.tac_password := None |}.

Definition empty : Accounts.session :=
  {| Accounts.store :=
       {| Accounts.users := {["u-1" := StandIn.alice_row]};
          Accounts.telegram_accounts := ∅;
          Accounts.api_keys := ∅ |};
     Accounts.pending := [];
     Accounts.history := [] |}.

Definition key_row (active : bool) (expires : option Z) : Accounts.ApiKey :=
  {| Accounts.key_id := "k-1";
     Accounts.api_key := "sk_live_alice";
     Accounts.key_user_id := "u-1";
     Accounts.key_is_active := active;
     Accounts.key_expires_at := expires;
     Accounts.last_used := None;
     Accounts.usage_count := 41 |}.

Definition with_key (active : bool) (expires : option Z) : Accounts.session :=
  {| Accounts.store :=
       Accounts.write (Accounts.store empty)
         (Accounts.RApiKey (key_row active expires));
     Accounts.pending := [];
     Accounts.history := [] |}.

End StandInAccounts.

(** ** app/crud.py: the logs of a rule *)

Module RuleLogs.
Import Models Session.

Definition rule_logs (rule_id : string) (db : DB) : list MessageLog :=
  filter (fun l => log_rule_id l = Some rule_id)
         (map_to_list (message_logs db)).*2.

(** [order_by(MessageLog.forwarded_at.desc())]: the order among logs of
    the same instant is the one the sort happens to produce. *)
Definition newer (a b : MessageLog) : Prop :=
  (forwarded_at b <= forwarded_at a)%Z.

#[global] Instance newer_dec : RelDecision newer :=
  fun a b => decide (forwarded_at b <= forwarded_at a)%Z.

(** [get_rule_logs]; the database refuses a negative LIMIT. *)
Definition get_rule_logs (rule_id : string) (limit : Z)
  : M (list MessageLog) :=
  if (limit <? 0)%Z then raise (DBAPIError "LIMIT must not be negative")
  else
    query (fun db =>
             take (Z.to_nat limit) (merge_sort newer (rule_logs rule_id db))).

(** The call with [limit] left to its default. *)
Definition get_rule_logs_default (rule_id : string) : M (list MessageLog) :=
  get_rule_logs rule_id 100.

End RuleLogs.

(** Fixtures for the logs: one rule with three logs. *)
Module StandInLogs.

Definition log (key : string) (at_ : Z) : Models.MessageLog :=
  {| Models.log_id := key;
     Models.log_rule_id := Some "r-1";
     Models.processing_time_ms := Some 12;
     Models.status := Some "success";
     Models.forwarded_at := at_ |}.

Definition session : Session.t :=
  Session.fresh
    (Models.write
       (Models.write
          (Models.write (Session.store (StandIn.account "free" 1))
             (Models.RLog (log "l-1" 100)))
          (Models.RLog (log "l-2" 300)))
       (Models.RLog (log "l-3" 200))).

End StandInLogs.

(** * Statements under test *)

(** The statement that the validator and the session factory rewrite [v]
    to one and the same connection string. *)
Definition same_canonical_url (secret_key v : string) : Prop :=
  exists url,
    Config.fix_postgres_url (Some v) = Some url
    /\ Database.rewrite_raw secret_key (Some v) = Ok url
    /\ Database.get_database_url (Config.load secret_key (Some v)) = Ok url.

(** A user with [n] rules is under no cap: not on the free tier with
    three rules or more, nor on the pro tier with twenty or more. *)
Definition uncapped (u : Models.User) (n : Z) : Prop :=
  ~ (Models.subscription_tier u = Some "free" /\ 3 <= n)
  /\ ~ (Models.subscription_tier u = Some "pro" /\ 20 <= n).

(** The profiles that belong to a user. *)
Definition profiles_of (user_id : string) (db : Models.DB)
  : gmap string Models.UserProfile :=
  filter (fun kv => Models.profile_user_id kv.2 = user_id)
         (Models.user_profiles db).

(** The statement that a verification token works once: the first call
    verifies the user and clears token and expiry, the second call with
    the same token returns the absent result. *)
Definition single_use `{R : Runtime} (settings : Config.Settings)
    (token : Jose.token) (now1 now2 : Z) (s : Session.t) : Prop :=
  exists u s1 s2,
    CRUDUser.verify_email settings now1 token s = (Ok (Some u), s1)
    /\ Models.is_verified u = true
    /\ Models.verification_token u = None
    /\ Models.verification_expires u = None
    /\ CRUDUser.verify_email settings now2 token s1 = (Ok None, s2).

(** No state made durable by a commit holds the user without a profile. *)
Definition committed_together (h : list Models.DB) (user_id : string) : Prop :=
  forall db, db ∈ h ->
    is_Some (Models.users db !! user_id) -> profiles_of user_id db <> ∅.

(** The statement that a duplicate registration is rejected, leaving one
    user row and one profile row, and that user and profile were created
    in one unit of work. *)
Definition rejects_duplicate_atomically `{R : Runtime}
    (settings : Config.Settings) (obj_in : Schemas.UserCreate) (now : Z)
    (salt uid pid : string) (s : Session.t) : Prop :=
  exists u s1,
    CRUDUser.create settings obj_in now salt uid pid s = (Ok u, s1)
    /\ CRUDUser.create settings obj_in now salt uid pid s1
       = (Raise (ValueError "User with this email already exists"), s1)
    /\ size (CRUDUser.with_email (Schemas.uc_email obj_in) (Session.store s1))
       = 1%nat
    /\ size (profiles_of uid (Session.store s1)) = 1%nat
    /\ committed_together
         (drop (length (Session.history s)) (Session.history s1)) uid.

(** * Properties *)

(** ** Database URL normalisation *)

Lemma prefix_append (p rest : string) : String.prefix p (p +:+ rest) = true.
Proof.
  induction p as [|a p IH]; simpl.
  - now destruct rest.
  - destruct (Ascii.ascii_dec a a); [exact IH | congruence].
Qed.

Lemma drop_append (p rest : string) :
  PyStr.drop (String.length p) (p +:+ rest) = rest.
Proof. induction p as [|a p IH]; simpl; auto. Qed.

Lemma replace_first_at_start (old new s : string) :
  String.prefix old s = true ->
  PyStr.replace_first old new s = new +:+ PyStr.drop (String.length old) s.
Proof.
  intros H.
  destruct s; cbn [PyStr.replace_first]; rewrite H; reflexivity.
Qed.

Lemma replace_first_scheme (old new rest : string) :
  PyStr.replace_first old new (old +:+ rest) = new +:+ rest.
Proof.
  rewrite replace_first_at_start by apply prefix_append.
  now rewrite drop_append.
Qed.

Lemma truthy_scheme (rest : string) :
  PyStr.truthy (Some ("postgres://" +:+ rest)) = true.
Proof. reflexivity. Qed.

Lemma truthy_canonical (rest : string) :
  PyStr.truthy (Some ("postgresql://" +:+ rest)) = true.
Proof. reflexivity. Qed.

Lemma canonical_not_legacy (rest : string) :
  String.prefix "postgres://" ("postgresql://" +:+ rest) = false.
Proof. reflexivity. Qed.

(** C4, as stated, fails on a legacy URL: the validator answers with the
    scheme [postgresql://], the session factory with
    [postgresql+psycopg2://]. *)
Lemma url_paths_disagree :
  ~ same_canonical_url "0123456789abcdef0123456789abcdef"
      "postgres://app:pw@db.internal:5432/forwarder".
Proof.
  intros (url & Hcfg & Hraw & _).
  vm_compute in Hcfg. vm_compute in Hraw.
  injection Hcfg as <-. discriminate Hraw.
Qed.

(** C4, amended: on every URL with the legacy prefix the validator yields
    [postgresql://] followed by the rest, the session factory yields
    [postgresql+psycopg2://] followed by the same rest, whether it reads
    the raw URL or the validated one. *)
Theorem url_paths_rewrite_scheme (secret_key rest : string) :
  let v := "postgres://" +:+ rest in
  Config.fix_postgres_url (Some v) = Some ("postgresql://" +:+ rest)
  /\ Database.rewrite_raw secret_key (Some v)
     = Ok ("postgresql+psycopg2://" +:+ rest)
  /\ Database.get_database_url (Config.load secret_key (Some v))
     = Ok ("postgresql+psycopg2://" +:+ rest).
Proof.
  intros v.
  assert (Hfix : Config.fix_postgres_url (Some v)
                 = Some ("postgresql://" +:+ rest)).
  { unfold Config.fix_postgres_url, PyStr.startswith, v.
    rewrite truthy_scheme, prefix_append. simpl andb. cbv iota.
    now rewrite replace_first_scheme. }
  split; [exact Hfix|]. split.
  - unfold Database.rewrite_raw, Database.get_database_url, PyStr.startswith.
    cbn [Config.DATABASE_URL]. unfold v.
    rewrite truthy_scheme, prefix_append. cbn [negb].
    now rewrite replace_first_scheme.
  - unfold Config.load, Database.get_database_url, PyStr.startswith.
    cbn [Config.DATABASE_URL]. rewrite Hfix.
    rewrite truthy_canonical, canonical_not_legacy, prefix_append.
    cbn [negb]. now rewrite replace_first_scheme.
Qed.

(** ** Registration password *)

Section Password.
Context {R : Runtime}.
Import Schemas.

Lemma re_search_spec (cls : N -> bool) (v : codepoints) :
  re_search cls v = true <-> exists c, c ∈ v /\ cls c = true.
Proof.
  unfold re_search. rewrite existsb_exists.
  split; intros (c & Hc & Hcls); exists c; split; auto;
    now apply list_elem_of_In.
Qed.

Lemma re_search_false (cls : N -> bool) (v : codepoints) :
  re_search cls v = false <-> ~ exists c, c ∈ v /\ cls c = true.
Proof.
  rewrite <- re_search_spec. destruct (re_search cls v); split; congruence.
Qed.

Lemma length_check (v : codepoints) :
  (length v <? 8)%nat = false <-> long_enough v.
Proof. unfold long_enough. rewrite Nat.ltb_ge. reflexivity. Qed.

Lemma messages_distinct :
  msg_length <> msg_upper /\ msg_length <> msg_lower
  /\ msg_length <> msg_digit /\ msg_upper <> msg_lower
  /\ msg_upper <> msg_digit /\ msg_lower <> msg_digit.
Proof. repeat split; discriminate. Qed.

End Password.

(** C9: the validator accepts a password exactly when the four clauses
    hold; otherwise it raises the message of the first clause that fails,
    the four messages differ pairwise, [Abcdefgh] is rejected for the
    missing digit and [Abcdef12] is accepted. *)
Theorem validate_password_rule (R : Runtime) (v : Schemas.codepoints) :
  (Schemas.validate_password v = Ok v
   <-> Schemas.long_enough v /\ Schemas.has_upper v
       /\ Schemas.has_lower v /\ Schemas.has_digit v)
  /\ (~ Schemas.long_enough v ->
      Schemas.validate_password v = Raise (ValueError Schemas.msg_length))
  /\ (Schemas.long_enough v -> ~ Schemas.has_upper v ->
      Schemas.validate_password v = Raise (ValueError Schemas.msg_upper))
  /\ (Schemas.long_enough v -> Schemas.has_upper v -> ~ Schemas.has_lower v ->
      Schemas.validate_password v = Raise (ValueError Schemas.msg_lower))
  /\ (Schemas.long_enough v -> Schemas.has_upper v -> Schemas.has_lower v ->
      ~ Schemas.has_digit v ->
      Schemas.validate_password v = Raise (ValueError Schemas.msg_digit))
  /\ (Schemas.msg_length <> Schemas.msg_upper
      /\ Schemas.msg_length <> Schemas.msg_lower
      /\ Schemas.msg_length <> Schemas.msg_digit
      /\ Schemas.msg_upper <> Schemas.msg_lower
      /\ Schemas.msg_upper <> Schemas.msg_digit
      /\ Schemas.msg_lower <> Schemas.msg_digit)
  /\ Schemas.validate_password (Schemas.of_string "Abcdefgh")
     = Raise (ValueError Schemas.msg_digit)
  /\ Schemas.validate_password (Schemas.of_string "Abcdef12")
     = Ok (Schemas.of_string "Abcdef12").
Proof.
  unfold Schemas.validate_password, Schemas.has_upper, Schemas.has_lower,
    Schemas.has_digit.
  destruct (length v <? 8)%nat eqn:Hlen.
  { assert (Hshort : ~ Schemas.long_enough v).
    { rewrite <- length_check. congruence. }
    split; [split; [discriminate | tauto] |].
    repeat (split; [tauto || reflexivity || apply messages_distinct |]).
    split; reflexivity. }
  apply length_check in Hlen.
  destruct (Schemas.re_search Schemas.is_AZ v) eqn:Hup; cbn [negb].
  2:{ apply re_search_false in Hup.
      split; [split; [discriminate | tauto] |].
      repeat (split; [tauto || reflexivity || apply messages_distinct |]).
      split; reflexivity. }
  apply re_search_spec in Hup.
  destruct (Schemas.re_search Schemas.is_az v) eqn:Hlo; cbn [negb].
  2:{ apply re_search_false in Hlo.
      split; [split; [discriminate | tauto] |].
      repeat (split; [tauto || reflexivity || apply messages_distinct |]).
      split; reflexivity. }
  apply re_search_spec in Hlo.
  destruct (Schemas.re_search Schemas.is_digit v) eqn:Hdi; cbn [negb].
  2:{ apply re_search_false in Hdi.
      split; [split; [discriminate | tauto] |].
      repeat (split; [tauto || reflexivity || apply messages_distinct |]).
      split; reflexivity. }
  apply re_search_spec in Hdi.
  split; [split; [tauto | reflexivity] |].
  repeat (split; [tauto || reflexivity || apply messages_distinct |]).
  split; reflexivity.
Qed.

(** The rule at work on the two passwords of the specification. *)
Lemma validate_password_rule_witness :
  Schemas.validate_password (R := StandIn.runtime)
    (Schemas.of_string "Abcdef12") = Ok (Schemas.of_string "Abcdef12")
  /\ Schemas.validate_password (R := StandIn.runtime)
       (Schemas.of_string "Abcdefgh") = Raise (ValueError Schemas.msg_digit).
Proof.
  split.
  - apply (proj1 (validate_password_rule StandIn.runtime
                    (Schemas.of_string "Abcdef12"))).
    repeat split.
    + unfold Schemas.long_enough. simpl. lia.
    + exists 65%N. split; [vm_compute; set_solver | reflexivity].
    + exists 98%N. split; [vm_compute; set_solver | reflexivity].
    + exists 49%N. split; [vm_compute; set_solver | reflexivity].
  - destruct (validate_password_rule StandIn.runtime
                (Schemas.of_string "Abcdefgh")) as (_ & _ & _ & _ & H & _).
    apply H.
    + unfold Schemas.long_enough. simpl. lia.
    + exists 65%N. split; [vm_compute; set_solver | reflexivity].
    + exists 98%N. split; [vm_compute; set_solver | reflexivity].
    + intros (c & Hc & Hd). vm_compute in Hc.
      repeat (apply elem_of_cons in Hc as [-> | Hc]; [discriminate Hd |]).
      now apply elem_of_nil in Hc.
Defined.

(** ** Cache writes *)

(** C7: whatever the key, value and time-to-live, and provided that what
    the client raises is an [Exception], the call returns normally; the
    result is the success indicator when [setex] returned, and absent when
    no client is configured or [setex] raised. *)
Theorem cache_with_timeout_degrades
    (redis : option FreeTierOptimizer.Redis) (key value : string) (ttl : Z) :
  (forall client e,
      redis = Some client ->
      FreeTierOptimizer.setex client key ttl value = Some e ->
      is_Exception e = true) ->
  exists r log,
    FreeTierOptimizer.cache_with_timeout redis key value ttl = (Ok r, log)
    /\ (r = Some true \/ r = None)
    /\ (redis = None -> r = None)
    /\ (forall client, redis = Some client ->
          match FreeTierOptimizer.setex client key ttl value with
          | None => r = Some true
          | Some _ => r = None
          end).
Proof.
  intros Herr. unfold FreeTierOptimizer.cache_with_timeout.
  destruct redis as [client|].
  - destruct (FreeTierOptimizer.setex client key ttl value) as [e|] eqn:Hset.
    + rewrite (Herr client e eq_refl Hset).
      eexists None, _. split; [reflexivity|].
      split; [now right|]. split; [discriminate|].
      intros c [= <-]. now rewrite Hset.
    + eexists (Some true), _. split; [reflexivity|].
      split; [now left|]. split; [discriminate|].
      intros c [= <-]. now rewrite Hset.
  - exists None, []. split; [reflexivity|].
    split; [now right|]. split; [reflexivity|]. discriminate.
Qed.

(** A client whose connection is refused: the write returns absent. *)
Lemma cache_with_timeout_degrades_witness :
  exists r log,
    FreeTierOptimizer.cache_with_timeout
      (Some {| FreeTierOptimizer.setex :=
                 fun _ _ _ => Some (RedisError "Connection refused") |})
      "stats:alice" "{}" 300 = (Ok r, log)
    /\ (r = Some true \/ r = None).
Proof.
  destruct (cache_with_timeout_degrades
              (Some {| FreeTierOptimizer.setex :=
                         fun _ _ _ => Some (RedisError "Connection refused") |})
              "stats:alice" "{}" 300) as (r & log & H & Hr & _).
  - intros client e [= <-] [= <-]. reflexivity.
  - exists r, log. split; assumption.
Defined.

(** ** Signed tokens *)

Section Tokens.
Context {R : Runtime}.
Import Config.

(** Decoding under the key and algorithm that signed the token leaves
    only the checks of the claims. *)
Lemma decode_encode (now : Z) (claims : gmap string jval) (key alg : string) :
  Jose.decode now (Jose.encode claims key alg) key [alg]
  = match Jose.validate_exp now claims with
    | Some e => inl e
    | None =>
        match Jose.validate_sub claims with
        | Some e => inl e
        | None => inr claims
        end
    end.
Proof.
  unfold Jose.decode, Jose.encode. cbn [Jose.jws_alg Jose.jws_sig Jose.jws_payload].
  rewrite bool_decide_eq_true_2 by apply list_elem_of_here.
  rewrite String.eqb_refl. reflexivity.
Qed.

Lemma decode_wrong_key (now : Z) (claims : gmap string jval)
    (key key' alg : string) :
  hmac_sign alg key' claims <> hmac_sign alg key claims ->
  Jose.decode now (Jose.encode claims key' alg) key [alg]
  = inl Jose.SignatureFailed.
Proof.
  intros Hne. unfold Jose.decode, Jose.encode.
  cbn [Jose.jws_alg Jose.jws_sig Jose.jws_payload].
  rewrite bool_decide_eq_true_2 by apply list_elem_of_here.
  apply String.eqb_neq in Hne. rewrite Hne. reflexivity.
Qed.

Lemma verify_token_decode (settings : Settings) (now : Z) (tok : Jose.token) :
  Security.verify_token settings now tok
  = match Jose.decode now tok (SECRET_KEY settings) [ALGORITHM settings] with
    | inl _ => None
    | inr payload => payload !! "sub"
    end.
Proof.
  unfold Security.verify_token.
  destruct (Jose.decode _ _ _ _) as [e|payload]; [reflexivity|].
  now destruct (payload !! "sub").
Qed.

Lemma validate_exp_not_passed (now e : Z) (claims : gmap string jval) :
  claims !! "exp" = Some (JInt e) -> now <= e ->
  Jose.validate_exp now claims = None.
Proof.
  intros Hexp Hle. unfold Jose.validate_exp. rewrite Hexp.
  destruct (Z.ltb_spec e now); [lia | reflexivity].
Qed.

Lemma verify_signed (settings : Settings) (now : Z)
    (claims : gmap string jval) (s : string) :
  Jose.validate_exp now claims = None ->
  claims !! "sub" = Some (JStr s) ->
  Security.verify_token settings now
    (Jose.encode claims (SECRET_KEY settings) (ALGORITHM settings))
  = Some (JStr s).
Proof.
  intros Hexp Hsub. rewrite verify_token_decode, decode_encode, Hexp.
  unfold Jose.validate_sub. now rewrite Hsub.
Qed.

(** The [type] claim has no part in the verdict. *)
Lemma verify_token_ignores_type (settings : Settings) (now : Z)
    (claims : gmap string jval) (v : jval) :
  Security.verify_token settings now
    (Jose.encode (<["type" := v]> claims)
       (SECRET_KEY settings) (ALGORITHM settings))
  = Security.verify_token settings now
      (Jose.encode claims (SECRET_KEY settings) (ALGORITHM settings)).
Proof.
  rewrite !verify_token_decode, !decode_encode.
  unfold Jose.validate_exp, Jose.validate_sub.
  rewrite !lookup_insert_ne by done.
  destruct (claims !! "exp") as [[?|e]|]; try reflexivity.
  - destruct (e <? now)%Z; [reflexivity|].
    destruct (claims !! "sub") as [[?|?]|]; try reflexivity;
      now rewrite lookup_insert_ne by done.
  - destruct (claims !! "sub") as [[?|?]|]; try reflexivity;
      now rewrite lookup_insert_ne by done.
Qed.

End Tokens.

(** C5: a token signed under another key, a token whose [exp] lies in the
    past and a token without [sub] all verify to the absent result, as
    does every token that [jwt.decode] rejects, whatever the cause; a
    subject is returned exactly when decoding succeeds and the payload
    carries one, and then it is that subject. *)
Theorem verify_token_collapses (R : Runtime) (settings : Config.Settings)
    (now : Z) :
  let key := Config.SECRET_KEY settings in
  let alg := Config.ALGORITHM settings in
  (forall key' claims,
      hmac_sign alg key' claims <> hmac_sign alg key claims ->
      Security.verify_token settings now (Jose.encode claims key' alg) = None)
  /\ (forall j e,
        Jose.jws_payload j !! "exp" = Some (JInt e) -> e < now ->
        Security.verify_token settings now (Jose.Compact j) = None)
  /\ (forall j,
        Jose.jws_payload j !! "sub" = None ->
        Security.verify_token settings now (Jose.Compact j) = None)
  /\ (forall tok err,
        Jose.decode now tok key [alg] = inl err ->
        Security.verify_token settings now tok = None)
  /\ (forall tok v,
        Security.verify_token settings now tok = Some v <->
        exists payload,
          Jose.decode now tok key [alg] = inr payload
          /\ payload !! "sub" = Some v)
  /\ (forall claims s,
        Jose.validate_exp now claims = None ->
        claims !! "sub" = Some (JStr s) ->
        Security.verify_token settings now (Jose.encode claims key alg)
        = Some (JStr s)).
Proof.
  intros key alg. repeat split.
  - intros key' claims Hne.
    rewrite verify_token_decode. subst key alg.
    now rewrite decode_wrong_key.
  - intros j e Hexp Hlt. rewrite verify_token_decode.
    unfold Jose.decode.
    destruct (negb (bool_decide _)); [reflexivity|].
    destruct (negb (String.eqb _ _)); [reflexivity|].
    unfold Jose.validate_exp. rewrite Hexp.
    destruct (Z.ltb_spec e now); [reflexivity | lia].
  - intros j Hsub. rewrite verify_token_decode.
    destruct (Jose.decode _ _ _ _) as [e|payload] eqn:Hdec; [reflexivity|].
    unfold Jose.decode in Hdec.
    destruct (negb (bool_decide _)); [discriminate|].
    destruct (negb (String.eqb _ _)); [discriminate|].
    destruct (Jose.validate_exp now _); [discriminate|].
    destruct (Jose.validate_sub _); [discriminate|].
    now injection Hdec as <-.
  - intros tok err Hdec. rewrite verify_token_decode. fold key alg.
    now rewrite Hdec.
  - rewrite verify_token_decode. fold key alg.
    destruct (Jose.decode now tok key [alg]) as [e|payload];
      [discriminate | eauto].
  - rewrite verify_token_decode. fold key alg.
    intros (payload & -> & Hsub). exact Hsub.
  - intros claims s Hexp Hsub. now apply verify_signed.
Qed.

(** An access token issued under a different secret, and one that expired
    a second ago, both verify to the absent result. *)
Lemma verify_token_collapses_witness :
  Security.verify_token (R := StandIn.runtime) StandIn.settings 5000
    (Security.create_access_token (R := StandIn.runtime)
       (Config.load "ffffffffffffffffffffffffffffffff" None) 1000 "u-1" None)
  = None
  /\ Security.verify_token (R := StandIn.runtime) StandIn.settings 5000
       (Security.create_access_token (R := StandIn.runtime)
          StandIn.settings 1000 "u-1" (Some 3999))
     = None.
Proof.
  destruct (verify_token_collapses StandIn.runtime StandIn.settings 5000)
    as (Hkey & Hexp & _).
  split.
  - apply Hkey. vm_compute. discriminate.
  - apply (Hexp _ 4999); [reflexivity | lia].
Defined.

(** ** Token kinds *)

Section TokenKinds.
Context {R : Runtime}.
Import Config.

Lemma verify_refresh_token (settings : Settings) (t0 now : Z)
    (subject : string) (expires_delta : option Z) :
  now <= Security.expiry t0 expires_delta
           (REFRESH_TOKEN_EXPIRE_DAYS settings * 86400) ->
  Security.verify_token settings now
    (Security.create_refresh_token settings t0 subject expires_delta)
  = Some (JStr subject).
Proof.
  intros Hle. unfold Security.create_refresh_token.
  apply verify_signed.
  - eapply validate_exp_not_passed; [apply lookup_insert_eq | exact Hle].
  - rewrite lookup_insert_ne by done. apply lookup_insert_eq.
Qed.

Lemma verify_access_token (settings : Settings) (t0 now : Z)
    (subject : string) (expires_delta : option Z) :
  now <= Security.expiry t0 expires_delta
           (ACCESS_TOKEN_EXPIRE_MINUTES settings * 60) ->
  Security.verify_token settings now
    (Security.create_access_token settings t0 subject expires_delta)
  = Some (JStr subject).
Proof.
  intros Hle. unfold Security.create_access_token.
  apply verify_signed.
  - eapply validate_exp_not_passed; [apply lookup_insert_eq | exact Hle].
  - rewrite lookup_insert_ne by done. apply lookup_insert_eq.
Qed.

(** The refresh route, given a token whose subject is an active user. *)
Lemma refresh_route_accepts (settings : Settings) (now : Z)
    (tok : Jose.token) (s : Session.t) (u : Models.User) :
  Security.verify_token settings now tok = Some (JStr (Models.id u)) ->
  Models.id u <> "" ->
  Models.users (Session.view s) !! Models.id u = Some u ->
  Models.is_active u = true ->
  Auth.refresh_token settings now tok s
  = (Ok (Auth.Token
           (Security.create_access_token settings now (Models.id u)
              (Some (ACCESS_TOKEN_EXPIRE_MINUTES settings * 60)))
           (Security.create_refresh_token settings now (Models.id u)
              (Some (REFRESH_TOKEN_EXPIRE_DAYS settings * 86400)))
           "bearer"),
     s).
Proof.
  intros Hv Hid Hu Hact. unfold Auth.refresh_token. rewrite Hv.
  apply String.eqb_neq in Hid. rewrite Hid.
  unfold Session.bind, CRUDUser.get, Session.query. rewrite Hu.
  now rewrite Hact.
Qed.

End TokenKinds.

(** C10: an unexpired refresh token verifies to its subject, exactly as an
    unexpired access token does; rewriting the [type] claim of a signed
    token never changes the verdict; and the refresh route, handed a plain
    access token of an active user, answers with a new token pair. *)
Theorem verify_token_ignores_kind (R : Runtime) (settings : Config.Settings)
    (t0 now : Z) (expires_delta : option Z) (s : Session.t) (u : Models.User) :
  now <= Security.expiry t0 expires_delta
           (Config.REFRESH_TOKEN_EXPIRE_DAYS settings * 86400) ->
  now <= Security.expiry t0 expires_delta
           (Config.ACCESS_TOKEN_EXPIRE_MINUTES settings * 60) ->
  Models.id u <> "" ->
  Models.users (Session.view s) !! Models.id u = Some u ->
  Models.is_active u = true ->
  let refresh :=
    Security.create_refresh_token settings t0 (Models.id u) expires_delta in
  let access :=
    Security.create_access_token settings t0 (Models.id u) expires_delta in
  Security.verify_token settings now refresh = Some (JStr (Models.id u))
  /\ Security.verify_token settings now access = Some (JStr (Models.id u))
  /\ (forall claims v,
        Security.verify_token settings now
          (Jose.encode (<["type" := v]> claims)
             (Config.SECRET_KEY settings) (Config.ALGORITHM settings))
        = Security.verify_token settings now
            (Jose.encode claims
               (Config.SECRET_KEY settings) (Config.ALGORITHM settings)))
  /\ Auth.refresh_token settings now access s
     = Auth.refresh_token settings now refresh s
  /\ exists new_access new_refresh,
       Auth.refresh_token settings now access s
       = (Ok (Auth.Token new_access new_refresh "bearer"), s).
Proof.
  intros Hr Ha Hid Hu Hact refresh access.
  pose proof (verify_refresh_token settings t0 now (Models.id u)
                expires_delta Hr) as Hvr.
  pose proof (verify_access_token settings t0 now (Models.id u)
                expires_delta Ha) as Hva.
  split; [exact Hvr|]. split; [exact Hva|].
  split; [intros; apply verify_token_ignores_type|].
  subst refresh access.
  rewrite (refresh_route_accepts settings now _ s u Hva Hid Hu Hact).
  rewrite (refresh_route_accepts settings now _ s u Hvr Hid Hu Hact).
  split; [reflexivity | eauto].
Qed.

(** Alice, registered and active, presents her access token to the
    refresh route and receives a new pair. *)
Lemma verify_token_ignores_kind_witness :
  exists new_access new_refresh,
    Auth.refresh_token (R := StandIn.runtime) StandIn.settings 2000
      (Security.create_access_token (R := StandIn.runtime)
         StandIn.settings 1500 "u-1" None)
      StandIn.registered
    = (Ok (Auth.Token new_access new_refresh "bearer"), StandIn.registered).
Proof.
  destruct (verify_token_ignores_kind StandIn.runtime StandIn.settings
              1500 2000 None StandIn.registered StandIn.alice_row)
    as (_ & _ & _ & _ & H).
  - vm_compute. discriminate.
  - vm_compute. discriminate.
  - discriminate.
  - vm_compute. reflexivity.
  - reflexivity.
  - exact H.
Defined.

(** ** Credential encryption *)

Section Credentials.
Context {R : Runtime} {L : FernetLaws R}.
Import Config DataEncryption.

Lemma get_fernet_idem (settings : Settings) (st : cache) :
  _get_fernet settings (_get_fernet settings st).2
  = ((_get_fernet settings st).1, (_get_fernet settings st).2).
Proof. now destruct st. Qed.

Lemma decrypt_encrypt_data (settings : Settings) (st : cache)
    (iv data : string) :
  let enc := encrypt_data settings st iv data in
  decrypt_data settings enc.2 enc.1 = (Ok data, enc.2)
  /\ (_get_fernet settings enc.2).2 = enc.2
  /\ enc.2 = (_get_fernet settings st).2.
Proof.
  unfold encrypt_data, decrypt_data.
  destruct st as [f|]; cbn; rewrite fernet_roundtrip; auto.
Qed.

Lemma encrypt_state (settings : Settings) (st : cache)
    (ivs : string * string * string) (a h p : string) :
  (encrypt_telegram_credentials settings st ivs a h p).2
  = (_get_fernet settings st).2.
Proof. destruct ivs as [[iv1 iv2] iv3]. now destruct st. Qed.

Lemma encrypt_fields (settings : Settings) (st : cache)
    (iv1 iv2 iv3 a h p : string) :
  let key := fernet_key (_get_fernet settings st).1 in
  (encrypt_telegram_credentials settings st (iv1, iv2, iv3) a h p).1
  = <["api_id" := fernet_encrypt key iv1 a]>
      (<["api_hash" := fernet_encrypt key iv2 h]>
         (<["phone_number" := fernet_encrypt key iv3 p]> ∅)).
Proof. now destruct st. Qed.

End Credentials.

(** C6: decrypting what [encrypt_telegram_credentials] produced gives back
    the three fields under the keys [api_id], [api_hash] and
    [phone_number]; the encrypted dict has exactly these keys; and a
    process that has not built its cipher yet builds it from the key
    derived from [SECRET_KEY] by SHA-256, truncation to 32 bytes and
    URL-safe base64. *)
Theorem credentials_roundtrip (R : Runtime) (L : FernetLaws R)
    (settings : Config.Settings) (st : DataEncryption.cache)
    (ivs : string * string * string) (api_id api_hash phone_number : string) :
  let enc :=
    DataEncryption.encrypt_telegram_credentials settings st ivs
      api_id api_hash phone_number in
  (DataEncryption.decrypt_telegram_credentials settings enc.2 enc.1).1
  = Ok (<["api_id" := api_id]>
          (<["api_hash" := api_hash]>
             (<["phone_number" := phone_number]> ∅)))
  /\ dom enc.1 = ({["api_id"; "api_hash"; "phone_number"]} : gset string)
  /\ (st = None ->
      enc.2 = Some {| DataEncryption.fernet_key :=
                        urlsafe_b64encode
                          (DataEncryption.take 32
                             (sha256 (Config.SECRET_KEY settings))) |}).
Proof.
  intros enc. subst enc. destruct ivs as [[iv1 iv2] iv3].
  rewrite encrypt_state, encrypt_fields.
  set (f := DataEncryption._get_fernet settings st).
  assert (Hf : DataEncryption._get_fernet settings f.2 = (f.1, f.2))
    by apply get_fernet_idem.
  split; [|split].
  - unfold DataEncryption.decrypt_telegram_credentials,
      DataEncryption.decrypt_field, DataEncryption.getitem,
      DataEncryption.decrypt_data.
    rewrite lookup_insert_eq, Hf, fernet_roundtrip.
    rewrite lookup_insert_ne by done.
    rewrite lookup_insert_eq, Hf, fernet_roundtrip.
    rewrite !lookup_insert_ne by done.
    rewrite lookup_insert_eq, Hf, fernet_roundtrip.
    reflexivity.
  - rewrite !dom_insert_L, dom_empty_L. set_solver.
  - intros ->. reflexivity.
Qed.

Lemma standin_fernet_laws : FernetLaws StandIn.runtime.
Proof.
  constructor. intros key iv plain. reflexivity.
Defined.

(** Three credentials, encrypted by a process that starts without a
    cipher and decrypted afterwards. *)
Lemma credentials_roundtrip_witness :
  let enc :=
    DataEncryption.encrypt_telegram_credentials (R := StandIn.runtime)
      StandIn.settings None ("iv-1", "iv-2", "iv-3")
      "1234567" "0a1b2c3d4e5f" "+15550100" in
  (DataEncryption.decrypt_telegram_credentials (R := StandIn.runtime)
     StandIn.settings enc.2 enc.1).1
  = Ok (<["api_id" := "1234567"]>
          (<["api_hash" := "0a1b2c3d4e5f"]>
             (<["phone_number" := "+15550100"]> ∅))).
Proof.
  exact (proj1 (credentials_roundtrip StandIn.runtime standin_fernet_laws
                  StandIn.settings None ("iv-1", "iv-2", "iv-3")
                  "1234567" "0a1b2c3d4e5f" "+15550100")).
Defined.

(** ** The session *)

Section SessionFacts.
Import Models Session.

Lemma view_add (row : Row) (s : t) :
  view (add row s).2 = write (view s) row.
Proof. unfold view, add. cbn. now rewrite fold_left_app. Qed.

Lemma view_fresh (db : DB) : view (fresh db) = db.
Proof. reflexivity. Qed.

Lemma view_saved (row : Row) (s : t) : view (saved row s) = write (view s) row.
Proof. reflexivity. Qed.

(** One step of a session program. *)
Lemma bind_query {A B} (q : DB -> A) (k : A -> M B) (s : t) :
  bind (query q) k s = k (q (view s)) s.
Proof. reflexivity. Qed.

Lemma bind_ret {A B} (a : A) (k : A -> M B) (s : t) :
  bind (ret a) k s = k a s.
Proof. reflexivity. Qed.

Lemma bind_bind {A B C} (m : M A) (f : A -> M B) (g : B -> M C) (s : t) :
  bind (bind m f) g s = bind m (fun a => bind (f a) g) s.
Proof. unfold bind. now destruct (m s) as [[a|e] s']. Qed.

Lemma bind_add_commit {B} (row : Row) (k : M B) (s : t) :
  bind (add row) (fun _ => bind commit (fun _ => k)) s = k (saved row s).
Proof.
  unfold bind, commit, saved, add, view. cbn.
  now rewrite fold_left_app.
Qed.

End SessionFacts.

(** ** Usage statistics *)

Lemma case_is_unbound :
  bool_decide ("case" ∈ (CRUDMessageLog.module_globals
                          ++ CRUDMessageLog.builtins)%list) = false.
Proof. vm_compute. reflexivity. Qed.

(** C3: in every session, for every user and at every time,
    [get_user_stats] runs its first two queries and then raises
    [NameError]: the module never imports [case].  In particular it does
    so for a user without message logs, where a success rate of 100 and
    an average of 0 are expected. *)
Theorem get_user_stats_raises (R : Runtime) (user_id : string) (now : Z)
    (s : Session.t) :
  CRUDMessageLog.get_user_stats user_id now s = (Raise (NameError "case"), s)
  /\ ~ returns_normally (CRUDMessageLog.get_user_stats user_id now s).1.
Proof.
  assert (H : CRUDMessageLog.get_user_stats user_id now s
              = (Raise (NameError "case"), s)).
  { unfold CRUDMessageLog.get_user_stats, CRUDMessageLog.get_user_stats_in,
      Session.bind, Session.query, CRUDMessageLog.load_name.
    rewrite case_is_unbound. reflexivity. }
  split; [exact H|]. rewrite H. cbn. tauto.
Qed.

(** With [case] among the module's names, the same body returns for a
    user without message logs, with a success rate of 100 and an average
    processing time of 0. *)
Lemma stats_once_case_is_imported (R : Runtime) (user_id : string) (now : Z)
    (s : Session.t) :
  CRUDMessageLog.user_logs user_id (Session.view s) = [] ->
  exists st,
    CRUDMessageLog.get_user_stats_in ("case" :: CRUDMessageLog.module_globals)
      user_id now s = (Ok st, s)
    /\ (CRUDMessageLog.success_rate st == 100)%Q
    /\ (CRUDMessageLog.average_processing_time_ms st == 0)%Q.
Proof.
  intros Hnone. eexists. split.
  - unfold CRUDMessageLog.get_user_stats_in, CRUDMessageLog.load_name.
    rewrite !bind_query, Hnone.
    rewrite bool_decide_eq_true_2 by apply list_elem_of_here.
    rewrite bind_ret, bind_query, Hnone. cbn [length Z.of_nat Z.ltb Z.compare].
    rewrite bind_query, Hnone. reflexivity.
  - split; reflexivity.
Qed.

(** ** Forwarding rules *)

Section Rules.
Import Models Session.

Lemma create_rule_free_cap (s : t) (user_id rid : string)
    (obj_in : Schemas.ForwardingRuleCreate) (u : User) :
  users (view s) !! user_id = Some u ->
  subscription_tier u = Some "free" ->
  3 <= CRUDForwardingRule.count_rules user_id (view s) ->
  CRUDForwardingRule.create user_id obj_in rid s
  = (Raise (ValueError "Free tier limited to 3 forwarding rules"), s).
Proof.
  intros Hu Ht Hn.
  unfold CRUDForwardingRule.create, bind, CRUDUser.get, query.
  rewrite Hu, Ht. rewrite bool_decide_eq_true_2 by reflexivity.
  apply Z.leb_le in Hn. now rewrite Hn.
Qed.

Lemma create_rule_pro_cap (s : t) (user_id rid : string)
    (obj_in : Schemas.ForwardingRuleCreate) (u : User) :
  users (view s) !! user_id = Some u ->
  subscription_tier u = Some "pro" ->
  20 <= CRUDForwardingRule.count_rules user_id (view s) ->
  CRUDForwardingRule.create user_id obj_in rid s
  = (Raise (ValueError "Pro tier limited to 20 forwarding rules"), s).
Proof.
  intros Hu Ht Hn.
  unfold CRUDForwardingRule.create, bind, CRUDUser.get, query.
  rewrite Hu, Ht. rewrite bool_decide_eq_false_2 by discriminate.
  rewrite bool_decide_eq_true_2 by reflexivity.
  apply Z.leb_le in Hn. now rewrite Hn.
Qed.

Lemma create_rule_below_cap (s : t) (user_id rid : string)
    (obj_in : Schemas.ForwardingRuleCreate) (u : User) :
  users (view s) !! user_id = Some u ->
  uncapped u (CRUDForwardingRule.count_rules user_id (view s)) ->
  let r := {| rule_id := rid; rule_user_id := user_id;
              rule_fields := obj_in |} in
  CRUDForwardingRule.create user_id obj_in rid s
  = (Ok r, saved (RRule r) s).
Proof.
  intros Hu [Hfree Hpro] r.
  unfold CRUDForwardingRule.create, CRUDUser.get.
  rewrite !bind_query, Hu.
  replace (bool_decide (subscription_tier u = Some "free")
           && (3 <=? CRUDForwardingRule.count_rules user_id (view s))%Z)
    with false.
  2:{ symmetry. apply andb_false_iff.
      destruct (decide (subscription_tier u = Some "free")) as [Ht|Ht].
      - right. apply Z.leb_gt, Z.nle_gt. tauto.
      - left. now apply bool_decide_eq_false_2. }
  replace (bool_decide (subscription_tier u = Some "pro")
           && (20 <=? CRUDForwardingRule.count_rules user_id (view s))%Z)
    with false.
  2:{ symmetry. apply andb_false_iff.
      destruct (decide (subscription_tier u = Some "pro")) as [Ht|Ht].
      - right. apply Z.leb_gt, Z.nle_gt. tauto.
      - left. now apply bool_decide_eq_false_2. }
  fold r. rewrite bind_add_commit.
  unfold CRUDForwardingRule.refresh.
  rewrite bind_bind, bind_query, view_saved.
  cbn [write forwarding_rules rule_id r].
  rewrite lookup_insert_eq. reflexivity.
Qed.

Lemma count_rules_saved (s : t) (user_id rid : string)
    (obj_in : Schemas.ForwardingRuleCreate) :
  forwarding_rules (view s) !! rid = None ->
  let r := {| rule_id := rid; rule_user_id := user_id;
              rule_fields := obj_in |} in
  CRUDForwardingRule.count_rules user_id (store (saved (RRule r) s))
  = CRUDForwardingRule.count_rules user_id (view s) + 1.
Proof.
  intros Hfresh r.
  unfold CRUDForwardingRule.count_rules, CRUDForwardingRule.rules_of.
  cbn [saved store write forwarding_rules rule_id r].
  rewrite map_filter_insert_True by reflexivity.
  rewrite map_size_insert_None; [lia|].
  apply map_lookup_filter_None_2. now left.
Qed.

End Rules.

(** C2: for a stored user with [n] rules, [create] raises the free-tier
    error when the tier is [free] and [n >= 3], raises the pro-tier error
    when the tier is [pro] and [n >= 20], in both cases leaving the
    session as it was; on the [enterprise] tier it succeeds whatever [n]
    is; and below the cap of their tier a free or pro user's rule is
    stored, which raises the count by one. *)
Theorem rule_cap (s : Session.t) (user_id rid : string)
    (obj_in : Schemas.ForwardingRuleCreate) (u : Models.User) :
  Models.users (Session.view s) !! user_id = Some u ->
  let n := CRUDForwardingRule.count_rules user_id (Session.view s) in
  let r := {| Models.rule_id := rid; Models.rule_user_id := user_id;
              Models.rule_fields := obj_in |} in
  (Models.subscription_tier u = Some "free" -> 3 <= n ->
   CRUDForwardingRule.create user_id obj_in rid s
   = (Raise (ValueError "Free tier limited to 3 forwarding rules"), s))
  /\ (Models.subscription_tier u = Some "pro" -> 20 <= n ->
      CRUDForwardingRule.create user_id obj_in rid s
      = (Raise (ValueError "Pro tier limited to 20 forwarding rules"), s))
  /\ (Models.subscription_tier u = Some "enterprise" ->
      CRUDForwardingRule.create user_id obj_in rid s
      = (Ok r, Session.saved (Models.RRule r) s))
  /\ (Models.subscription_tier u = Some "pro" -> n < 20 ->
      CRUDForwardingRule.create user_id obj_in rid s
      = (Ok r, Session.saved (Models.RRule r) s))
  /\ (Models.subscription_tier u = Some "free" -> n < 3 ->
      CRUDForwardingRule.create user_id obj_in rid s
      = (Ok r, Session.saved (Models.RRule r) s))
  /\ (Models.forwarding_rules (Session.view s) !! rid = None ->
      CRUDForwardingRule.count_rules user_id
        (Session.store (Session.saved (Models.RRule r) s)) = n + 1).
Proof.
  intros Hu n r. repeat split.
  - intros Ht Hn. now apply create_rule_free_cap with u.
  - intros Ht Hn. now apply create_rule_pro_cap with u.
  - intros Ht. apply create_rule_below_cap with u; [exact Hu|].
    split; intros [Ht' _]; congruence.
  - intros Ht Hn. apply create_rule_below_cap with u; [exact Hu|].
    split; [intros [Ht' _]; congruence | intros [_ Hn']; fold n in Hn'; lia].
  - intros Ht Hn. apply create_rule_below_cap with u; [exact Hu|].
    split; [intros [_ Hn']; fold n in Hn'; lia | intros [Ht' _]; congruence].
  - intros Hfresh. now apply count_rules_saved.
Qed.

(** A free-tier user with three rules asks for a fourth. *)
Lemma rule_cap_witness :
  CRUDForwardingRule.create "u-1" (StandIn.rule "fourth") "r-4"
    (StandIn.account "free" 3)
  = (Raise (ValueError "Free tier limited to 3 forwarding rules"),
     StandIn.account "free" 3).
Proof.
  destruct (rule_cap (StandIn.account "free" 3) "u-1" "r-4"
              (StandIn.rule "fourth") (StandIn.with_tier "free" StandIn.alice_row))
    as (Hfree & _).
  - vm_compute. reflexivity.
  - apply Hfree; [reflexivity | vm_compute; discriminate].
Defined.

(** The same user with three rules, once on the pro tier, can add rules up
    to the twentieth; the twenty-first is refused. *)
Example rule_cap_after_upgrade :
  returns_normally
    (CRUDForwardingRule.create "u-1" (StandIn.rule "fourth") "r-4"
       (StandIn.account "pro" 3)).1
  /\ returns_normally
       (CRUDForwardingRule.create "u-1" (StandIn.rule "twentieth") "r-20"
          (StandIn.account "pro" 19)).1
  /\ (CRUDForwardingRule.create "u-1" (StandIn.rule "one more") "r-21"
        (StandIn.account "pro" 20)).1
     = Raise (ValueError "Pro tier limited to 20 forwarding rules").
Proof. vm_compute. repeat split. Qed.

(** ** Users *)

Section Users.
Context {R : Runtime}.
Import Config Models Session.

Lemma get_by_email_none (e : string) (s : t) :
  CRUDUser.with_email e (view s) = ∅ ->
  CRUDUser.get_by_email e s = (Ok None, s).
Proof.
  intros H. unfold CRUDUser.get_by_email.
  rewrite bind_query, H, map_to_list_empty. reflexivity.
Qed.

Lemma get_by_email_single (e k : string) (u : User) (s : t) :
  CRUDUser.with_email e (view s) = {[k := u]} ->
  CRUDUser.get_by_email e s = (Ok (Some u), s).
Proof.
  intros H. unfold CRUDUser.get_by_email.
  rewrite bind_query, H, map_to_list_singleton. reflexivity.
Qed.

Lemma with_email_saved_new (e : string) (u : User) (s : t) :
  email u = e ->
  CRUDUser.with_email e (view s) = ∅ ->
  CRUDUser.with_email e (write (view s) (RUser u)) = {[id u := u]}.
Proof.
  intros He H. unfold CRUDUser.with_email in *. cbn [write users].
  rewrite map_filter_insert_True by exact He.
  rewrite H. apply insert_empty.
Qed.

Lemma with_email_saved_update (e : string) (u v : User) (db : DB) :
  email v = e -> id v = id u ->
  CRUDUser.with_email e db = {[id u := u]} ->
  CRUDUser.with_email e (write db (RUser v)) = {[id u := v]}.
Proof.
  intros He Hid H. unfold CRUDUser.with_email in *. cbn [write users].
  rewrite map_filter_insert_True by exact He.
  rewrite H, Hid. apply insert_singleton_eq.
Qed.

Lemma with_email_profile (e : string) (p : UserProfile) (db : DB) :
  CRUDUser.with_email e (write db (RProfile p)) = CRUDUser.with_email e db.
Proof. reflexivity. Qed.

(** The owner of the only row with an address is stored under its own
    key and carries that address. *)
Lemma with_email_single_row (e : string) (u : User) (db : DB) :
  CRUDUser.with_email e db = {[id u := u]} ->
  users db !! id u = Some u /\ email u = e.
Proof.
  intros H.
  assert (Hl : CRUDUser.with_email e db !! id u = Some u)
    by (rewrite H; apply lookup_singleton_eq).
  unfold CRUDUser.with_email in Hl.
  apply map_lookup_filter_Some in Hl as [Hl He]. auto.
Qed.

Lemma verification_token_valid (settings : Settings) (t0 now : Z)
    (e : string) :
  now <= t0 + 24 * 3600 ->
  Security.verify_verification_token settings now
    (Security.create_verification_token settings t0 e)
  = Some (JStr e).
Proof.
  intros Hle.
  unfold Security.verify_verification_token,
    Security.create_verification_token.
  rewrite decode_encode.
  erewrite validate_exp_not_passed; [| apply lookup_insert_eq | exact Hle].
  unfold Jose.validate_sub.
  rewrite !lookup_insert_ne, lookup_empty by done.
  rewrite lookup_insert_ne, lookup_insert_ne, lookup_insert_eq by done.
  rewrite bool_decide_eq_true_2 by reflexivity. cbn [negb].
  rewrite lookup_insert_ne by done. apply lookup_insert_eq.
Qed.

Lemma verification_token_expired (settings : Settings) (t0 now : Z)
    (e : string) :
  t0 + 24 * 3600 < now ->
  Security.verify_verification_token settings now
    (Security.create_verification_token settings t0 e)
  = None.
Proof.
  intros Hlt.
  unfold Security.verify_verification_token,
    Security.create_verification_token.
  rewrite decode_encode. unfold Jose.validate_exp.
  rewrite lookup_insert_eq.
  destruct (Z.ltb_spec (t0 + 24 * 3600) now); [reflexivity | lia].
Qed.

(** One run of [verify_email] on a valid token whose address belongs to
    exactly one stored user. *)
Lemma verify_email_runs (settings : Settings) (now : Z) (tok : Jose.token)
    (u : User) (s : t) :
  Security.verify_verification_token settings now tok
  = Some (JStr (email u)) ->
  email u <> "" ->
  CRUDUser.with_email (email u) (view s) = {[id u := u]} ->
  CRUDUser.verify_email settings now tok s
  = (Ok (Some (CRUDUser.mark_verified u)),
     saved (RUser (CRUDUser.mark_verified u)) s).
Proof.
  intros Htok Hne Hone. unfold CRUDUser.verify_email. rewrite Htok.
  apply String.eqb_neq in Hne. rewrite Hne.
  unfold bind at 1. rewrite (get_by_email_single _ _ _ _ Hone).
  rewrite bind_add_commit. unfold CRUDUser.refresh.
  rewrite bind_bind, bind_query, view_saved.
  cbn [write users id CRUDUser.mark_verified].
  rewrite lookup_insert_eq. reflexivity.
Qed.

End Users.

(** C1, as stated, fails: Alice verifies her address with the token made
    at registration, and a second call with the same token does not
    return the absent result. *)
Lemma verification_token_replays :
  ~ single_use (R := StandIn.runtime) StandIn.settings
      (Security.create_verification_token (R := StandIn.runtime)
         StandIn.settings 1000 "alice@example.com")
      2000 3000 StandIn.registered.
Proof.
  intros (u & s1 & s2 & H1 & _ & _ & _ & H2).
  assert (Hone : CRUDUser.with_email "alice@example.com"
                   (Session.view StandIn.registered)
                 = {["u-1" := StandIn.alice_row]})
    by (vm_compute; reflexivity).
  rewrite (verify_email_runs StandIn.settings 2000 _ StandIn.alice_row) in H1.
  - injection H1 as <- <-.
    rewrite (verify_email_runs StandIn.settings 3000 _
               (CRUDUser.mark_verified StandIn.alice_row)) in H2.
    + discriminate H2.
    + apply (verification_token_valid StandIn.settings 1000 3000). lia.
    + discriminate.
    + rewrite view_saved.
      now apply (with_email_saved_update _ StandIn.alice_row).
  - apply (verification_token_valid StandIn.settings 1000 2000). lia.
  - discriminate.
  - exact Hone.
Qed.

(** C1, amended: for a user who is the only one with their address, a
    call with a verification token made for that address, within 24 hours
    of its creation, returns the user with [is_verified] set and token and
    expiry cleared, and stores that row; a second call with the same
    token within the 24 hours returns the same user again and leaves the
    store as it is; after the 24 hours the call returns the absent
    result. *)
Theorem verify_email_replayable (R : Runtime) (settings : Config.Settings)
    (t0 now1 now2 : Z) (u : Models.User) (s : Session.t) :
  Models.email u <> "" ->
  CRUDUser.with_email (Models.email u) (Session.view s)
  = {[Models.id u := u]} ->
  now1 <= t0 + 24 * 3600 ->
  now2 <= t0 + 24 * 3600 ->
  let tok := Security.create_verification_token settings t0 (Models.email u) in
  let v := CRUDUser.mark_verified u in
  let s1 := Session.saved (Models.RUser v) s in
  CRUDUser.verify_email settings now1 tok s = (Ok (Some v), s1)
  /\ Models.is_verified v = true
  /\ Models.verification_token v = None
  /\ Models.verification_expires v = None
  /\ Models.users (Session.store s1) !! Models.id u = Some v
  /\ CRUDUser.verify_email settings now2 tok s1
     = (Ok (Some v), Session.saved (Models.RUser v) s1)
  /\ Session.store (Session.saved (Models.RUser v) s1) = Session.store s1
  /\ (forall now3, t0 + 24 * 3600 < now3 ->
        CRUDUser.verify_email settings now3 tok s1 = (Ok None, s1)).
Proof.
  intros Hne Hone H1 H2 tok v s1.
  assert (Hone1 : CRUDUser.with_email (Models.email v) (Session.view s1)
                  = {[Models.id v := v]}).
  { subst s1. rewrite view_saved.
    now apply (with_email_saved_update _ u). }
  split.
  { apply verify_email_runs; auto.
    now apply verification_token_valid. }
  repeat (split; [reflexivity|]).
  split; [apply lookup_insert_eq|].
  split.
  { apply (verify_email_runs settings now2 tok v s1); auto.
    now apply verification_token_valid. }
  split.
  { subst s1. unfold Session.saved, Session.view.
    cbn [Session.store Session.pending fold_left Models.write Models.users
         Models.user_profiles Models.forwarding_rules Models.message_logs].
    now rewrite insert_insert_eq. }
  intros now3 H3. unfold CRUDUser.verify_email. subst tok.
  now rewrite verification_token_expired.
Qed.

(** Alice verifies twice within the day; the second call answers as the
    first did. *)
Lemma verify_email_replayable_witness :
  let tok :=
    Security.create_verification_token (R := StandIn.runtime)
      StandIn.settings 1000 "alice@example.com" in
  let v := CRUDUser.mark_verified StandIn.alice_row in
  let s1 := Session.saved (Models.RUser v) StandIn.registered in
  CRUDUser.verify_email (R := StandIn.runtime) StandIn.settings 2000 tok
    StandIn.registered = (Ok (Some v), s1)
  /\ CRUDUser.verify_email (R := StandIn.runtime) StandIn.settings 3000 tok s1
     = (Ok (Some v), Session.saved (Models.RUser v) s1).
Proof.
  destruct (verify_email_replayable StandIn.runtime StandIn.settings
              1000 2000 3000 StandIn.alice_row StandIn.registered)
    as (H1 & _ & _ & _ & _ & H2 & _).
  - discriminate.
  - vm_compute. reflexivity.
  - lia.
  - lia.
  - split; [exact H1 | exact H2].
Defined.

Section Registration.
Context {R : Runtime}.
Import Config Models Session.

(** One run of [create] for an address that no stored user has: the
    user row is committed first, the profile row in a second commit. *)
Lemma create_user_runs (settings : Settings) (obj_in : Schemas.UserCreate)
    (now : Z) (salt uid pid : string) (s : t) :
  CRUDUser.with_email (Schemas.uc_email obj_in) (view s) = ∅ ->
  exists u,
    CRUDUser.create settings obj_in now salt uid pid s
    = (Ok u, saved (RProfile {| profile_id := pid; profile_user_id := uid |})
               (saved (RUser u) s))
    /\ id u = uid
    /\ email u = Schemas.uc_email obj_in
    /\ is_verified u = false
    /\ verification_token u
       = Some (Security.create_verification_token settings now
                 (Schemas.uc_email obj_in))
    /\ verification_expires u = Some (now + 24 * 3600).
Proof.
  intros Hnone. eexists. split.
  - unfold CRUDUser.create. unfold bind at 1.
    rewrite (get_by_email_none _ _ Hnone).
    rewrite bind_add_commit. unfold CRUDUser.refresh.
    rewrite bind_bind, bind_query, view_saved.
    cbn [write users id]. rewrite lookup_insert_eq.
    rewrite bind_ret. cbn [id]. rewrite bind_add_commit. reflexivity.
  - repeat split.
Qed.

Lemma create_user_duplicate (settings : Settings)
    (obj_in : Schemas.UserCreate) (now : Z) (salt uid pid k : string)
    (u : User) (s : t) :
  CRUDUser.with_email (Schemas.uc_email obj_in) (view s) = {[k := u]} ->
  CRUDUser.create settings obj_in now salt uid pid s
  = (Raise (ValueError "User with this email already exists"), s).
Proof.
  intros Hone. unfold CRUDUser.create. unfold bind at 1.
  now rewrite (get_by_email_single _ _ _ _ Hone).
Qed.

Lemma profiles_of_saved (uid pid : string) (db : DB) :
  profiles_of uid db = ∅ ->
  profiles_of uid
    (write db (RProfile {| profile_id := pid; profile_user_id := uid |}))
  = {[pid := {| profile_id := pid; profile_user_id := uid |}]}.
Proof.
  intros H. unfold profiles_of in *. cbn [write user_profiles profile_id].
  rewrite map_filter_insert_True by reflexivity.
  rewrite H. apply insert_empty.
Qed.

Lemma profiles_of_user (uid : string) (u : User) (db : DB) :
  profiles_of uid (write db (RUser u)) = profiles_of uid db.
Proof. reflexivity. Qed.

End Registration.

(** C8, as stated, fails: Alice's registration on an empty database makes
    two commits, and the state made durable by the first holds her user
    row without a profile row. *)
Lemma registration_commits_twice :
  ~ rejects_duplicate_atomically (R := StandIn.runtime) StandIn.settings
      StandIn.alice 1000 "salt" "u-1" "p-1" (Session.fresh Models.empty_db).
Proof.
  intros (u & s1 & Hc & _ & _ & _ & Hat).
  destruct (create_user_runs (R := StandIn.runtime) StandIn.settings
              StandIn.alice 1000 "salt" "u-1" "p-1"
              (Session.fresh Models.empty_db)) as (u0 & Hrun & Hid & _).
  { reflexivity. }
  rewrite Hrun in Hc. injection Hc as <- <-.
  cbn [Session.saved Session.history Session.fresh length app drop] in Hat.
  apply (Hat (Models.write (Session.view (Session.fresh Models.empty_db))
                (Models.RUser u0))).
  - apply list_elem_of_here.
  - cbn [Models.write Models.users]. rewrite Hid, lookup_insert_eq. eauto.
  - reflexivity.
Qed.

(** C8, amended: when no stored user has the address, [create] succeeds;
    it commits the user row and then, in a second commit, the profile row
    that refers to it; afterwards any [create] for the same address raises
    the "already exists" error and changes nothing, and the store holds
    exactly one user row with the address and exactly one profile row of
    that user. *)
Theorem create_user_rejects_duplicate (R : Runtime)
    (settings : Config.Settings) (obj_in again : Schemas.UserCreate)
    (now now' : Z) (salt salt' uid uid' pid pid' : string) (s : Session.t) :
  CRUDUser.with_email (Schemas.uc_email obj_in) (Session.view s) = ∅ ->
  profiles_of uid (Session.view s) = ∅ ->
  Schemas.uc_email again = Schemas.uc_email obj_in ->
  exists u,
    let p := {| Models.profile_id := pid; Models.profile_user_id := uid |} in
    let d1 := Models.write (Session.view s) (Models.RUser u) in
    let d2 := Models.write d1 (Models.RProfile p) in
    let s1 := Session.saved (Models.RProfile p)
                (Session.saved (Models.RUser u) s) in
    CRUDUser.create settings obj_in now salt uid pid s = (Ok u, s1)
    /\ Models.id u = uid
    /\ Models.email u = Schemas.uc_email obj_in
    /\ CRUDUser.create settings again now' salt' uid' pid' s1
       = (Raise (ValueError "User with this email already exists"), s1)
    /\ size (CRUDUser.with_email (Schemas.uc_email obj_in) (Session.store s1))
       = 1%nat
    /\ size (profiles_of uid (Session.store s1)) = 1%nat
    /\ Session.store s1 = d2
    /\ Session.history s1 = (Session.history s ++ [d1; d2])%list
    /\ profiles_of uid d1 = ∅.
Proof.
  intros Hnone Hprof Hsame.
  destruct (create_user_runs settings obj_in now salt uid pid s Hnone)
    as (u & Hrun & Hid & Hemail & _).
  exists u. intros p d1 d2 s1.
  assert (Hone : CRUDUser.with_email (Schemas.uc_email obj_in)
                   (Session.view s1) = {[Models.id u := u]}).
  { subst s1. rewrite view_saved, with_email_profile, view_saved.
    now apply with_email_saved_new. }
  split; [exact Hrun|]. split; [exact Hid|]. split; [exact Hemail|].
  split.
  { apply create_user_duplicate with (Models.id u) u. now rewrite Hsame. }
  split.
  { change (Session.store s1) with (Session.view s1).
    rewrite Hone. apply map_size_singleton. }
  split.
  { change (Session.store s1) with d2. subst d2 p.
    rewrite profiles_of_saved; [apply map_size_singleton|].
    subst d1. now rewrite profiles_of_user. }
  split; [reflexivity|]. split.
  { subst s1. cbn [Session.saved Session.history].
    now rewrite <- app_assoc. }
  subst d1. now rewrite profiles_of_user.
Qed.

(** Alice registers on an empty database; a second registration with her
    address is refused. *)
Lemma create_user_rejects_duplicate_witness :
  exists u s1,
    CRUDUser.create (R := StandIn.runtime) StandIn.settings StandIn.alice
      1000 "salt" "u-1" "p-1" (Session.fresh Models.empty_db) = (Ok u, s1)
    /\ CRUDUser.create (R := StandIn.runtime) StandIn.settings StandIn.alice
         1500 "pepper" "u-2" "p-2" s1
       = (Raise (ValueError "User with this email already exists"), s1).
Proof.
  destruct (create_user_rejects_duplicate StandIn.runtime StandIn.settings
              StandIn.alice StandIn.alice 1000 1500 "salt" "pepper"
              "u-1" "u-2" "p-1" "p-2" (Session.fresh Models.empty_db))
    as (u & H1 & _ & _ & H2 & _).
  - reflexivity.
  - reflexivity.
  - reflexivity.
  - exists u. eexists. split; [exact H1 | exact H2].
Defined.

(** * Further properties *)

(** ** Token kinds and lifetimes *)

Section TypedTokens.
Context {R : Runtime}.
Import Config.

(** The payload of the two e-mail tokens. *)
Lemma mail_claims_lookup (x : Z) (e k : string) :
  let c : gmap string jval :=
    <["exp" := JInt x]> (<["email" := JStr e]> (<["type" := JStr k]> ∅)) in
  c !! "exp" = Some (JInt x) /\ c !! "email" = Some (JStr e)
  /\ c !! "type" = Some (JStr k) /\ c !! "sub" = None.
Proof.
  intros c. subst c.
  split; [apply lookup_insert_eq|].
  split; [rewrite lookup_insert_ne by done; apply lookup_insert_eq|].
  split; [rewrite !lookup_insert_ne by done; apply lookup_insert_eq|].
  rewrite !lookup_insert_ne by done. apply lookup_empty.
Qed.

Lemma decode_mail_claims (settings : Settings) (now x : Z) (e k : string) :
  let c : gmap string jval :=
    <["exp" := JInt x]> (<["email" := JStr e]> (<["type" := JStr k]> ∅)) in
  Jose.decode now (Jose.encode c (SECRET_KEY settings) (ALGORITHM settings))
    (SECRET_KEY settings) [ALGORITHM settings]
  = if (x <? now)%Z then inl Jose.ExpiredSignatureError else inr c.
Proof.
  intros c. destruct (mail_claims_lookup x e k) as (Hexp & _ & _ & Hsub).
  fold c in Hexp, Hsub.
  rewrite decode_encode. unfold Jose.validate_exp, Jose.validate_sub.
  rewrite Hexp, Hsub. now destruct (x <? now)%Z.
Qed.

(** The payload of the two session tokens has no [email]. *)
Lemma decode_session_claims (settings : Settings) (now : Z)
    (c : gmap string jval) :
  c !! "email" = None ->
  forall payload,
    Jose.decode now (Jose.encode c (SECRET_KEY settings) (ALGORITHM settings))
      (SECRET_KEY settings) [ALGORITHM settings] = inr payload ->
    payload !! "email" = None.
Proof.
  intros Hc payload. rewrite decode_encode.
  destruct (Jose.validate_exp now c); [discriminate|].
  destruct (Jose.validate_sub c); [discriminate|].
  now intros [= <-].
Qed.

Lemma access_claims_no_email (x : Z) (s : string) :
  (<["exp" := JInt x]> (<["sub" := JStr s]> (∅ : gmap string jval)))
    !! "email" = None.
Proof. rewrite !lookup_insert_ne by done. apply lookup_empty. Qed.

Lemma refresh_claims_no_email (x : Z) (s : string) :
  (<["exp" := JInt x]>
     (<["sub" := JStr s]> (<["type" := JStr "refresh"]>
        (∅ : gmap string jval)))) !! "email" = None.
Proof. rewrite !lookup_insert_ne by done. apply lookup_empty. Qed.

(** A typed verifier answers with the [email] claim or not at all. *)
Lemma verification_verifier_email (settings : Settings) (now : Z)
    (tok : Jose.token) (v : jval) :
  Security.verify_verification_token settings now tok = Some v ->
  exists payload,
    Jose.decode now tok (SECRET_KEY settings) [ALGORITHM settings]
    = inr payload
    /\ payload !! "type" = Some (JStr "verification")
    /\ payload !! "email" = Some v.
Proof.
  unfold Security.verify_verification_token.
  destruct (Jose.decode _ _ _ _) as [?|payload]; [discriminate|].
  case_bool_decide; cbn [negb]; [|discriminate]. eauto.
Qed.

Lemma reset_verifier_email (settings : Settings) (now : Z)
    (tok : Jose.token) (v : jval) :
  PasswordReset.verify_password_reset_token settings now tok = Some v ->
  exists payload,
    Jose.decode now tok (SECRET_KEY settings) [ALGORITHM settings]
    = inr payload
    /\ payload !! "type" = Some (JStr "reset")
    /\ payload !! "email" = Some v.
Proof.
  unfold PasswordReset.verify_password_reset_token.
  destruct (Jose.decode _ _ _ _) as [?|payload]; [discriminate|].
  case_bool_decide; cbn [negb]; [|discriminate]. eauto.
Qed.

End TypedTokens.

(** X1: an e-mail verification token is accepted, and yields the address
    it was made for, at every time up to and including 24 hours after its
    creation, and at no later time. *)
Theorem verification_token_lifetime (R : Runtime)
    (settings : Config.Settings) (t0 now : Z) (e : string) :
  Security.verify_verification_token settings now
    (Security.create_verification_token settings t0 e)
  = if (now <=? t0 + 86400)%Z then Some (JStr e) else None.
Proof.
  unfold Security.verify_verification_token,
    Security.create_verification_token.
  rewrite decode_mail_claims.
  destruct (mail_claims_lookup (t0 + 24 * 3600) e "verification")
    as (_ & Hemail & Htype & _).
  destruct (Z.ltb_spec (t0 + 24 * 3600) now), (Z.leb_spec now (t0 + 86400));
    try lia; [reflexivity|].
  rewrite Htype, bool_decide_eq_true_2 by reflexivity. exact Hemail.
Qed.

(** X2: a password-reset token is accepted, and yields the address it was
    made for, at every time up to and including one hour after its
    creation, and at no later time. *)
Theorem reset_token_lifetime (R : Runtime)
    (settings : Config.Settings) (t0 now : Z) (e : string) :
  PasswordReset.verify_password_reset_token settings now
    (PasswordReset.create_password_reset_token settings t0 e)
  = if (now <=? t0 + 3600)%Z then Some (JStr e) else None.
Proof.
  unfold PasswordReset.verify_password_reset_token,
    PasswordReset.create_password_reset_token.
  rewrite decode_mail_claims.
  destruct (mail_claims_lookup (t0 + 1 * 3600) e "reset")
    as (_ & Hemail & Htype & _).
  destruct (Z.ltb_spec (t0 + 1 * 3600) now), (Z.leb_spec now (t0 + 3600));
    try lia; [reflexivity|].
  rewrite Htype, bool_decide_eq_true_2 by reflexivity. exact Hemail.
Qed.

(** X3: the typed verifiers keep the token kinds apart.  At every time,
    the verification verifier rejects reset, access and refresh tokens,
    and the reset verifier rejects verification, access and refresh
    tokens, all signed with the application's own key. *)
Theorem typed_verifiers_reject_other_kinds (R : Runtime)
    (settings : Config.Settings) (t0 now : Z) (e subject : string)
    (expires_delta : option Z) :
  Security.verify_verification_token settings now
    (PasswordReset.create_password_reset_token settings t0 e) = None
  /\ PasswordReset.verify_password_reset_token settings now
       (Security.create_verification_token settings t0 e) = None
  /\ Security.verify_verification_token settings now
       (Security.create_access_token settings t0 subject expires_delta) = None
  /\ Security.verify_verification_token settings now
       (Security.create_refresh_token settings t0 subject expires_delta) = None
  /\ PasswordReset.verify_password_reset_token settings now
       (Security.create_access_token settings t0 subject expires_delta) = None
  /\ PasswordReset.verify_password_reset_token settings now
       (Security.create_refresh_token settings t0 subject expires_delta) = None.
Proof.
  repeat split.
  - unfold Security.verify_verification_token,
      PasswordReset.create_password_reset_token.
    rewrite decode_mail_claims.
    destruct (mail_claims_lookup (t0 + 1 * 3600) e "reset")
      as (_ & _ & Htype & _).
    destruct (_ <? _)%Z; [reflexivity|].
    rewrite Htype. now rewrite bool_decide_eq_false_2 by discriminate.
  - unfold PasswordReset.verify_password_reset_token,
      Security.create_verification_token.
    rewrite decode_mail_claims.
    destruct (mail_claims_lookup (t0 + 24 * 3600) e "verification")
      as (_ & _ & Htype & _).
    destruct (_ <? _)%Z; [reflexivity|].
    rewrite Htype. now rewrite bool_decide_eq_false_2 by discriminate.
  - destruct (Security.verify_verification_token _ _ _) as [v|] eqn:H;
      [|reflexivity].
    apply verification_verifier_email in H as (payload & Hdec & _ & Hmail).
    apply decode_session_claims in Hdec;
      [congruence | apply access_claims_no_email].
  - destruct (Security.verify_verification_token _ _ _) as [v|] eqn:H;
      [|reflexivity].
    apply verification_verifier_email in H as (payload & Hdec & _ & Hmail).
    apply decode_session_claims in Hdec;
      [congruence | apply refresh_claims_no_email].
  - destruct (PasswordReset.verify_password_reset_token _ _ _) as [v|] eqn:H;
      [|reflexivity].
    apply reset_verifier_email in H as (payload & Hdec & _ & Hmail).
    apply decode_session_claims in Hdec;
      [congruence | apply access_claims_no_email].
  - destruct (PasswordReset.verify_password_reset_token _ _ _) as [v|] eqn:H;
      [|reflexivity].
    apply reset_verifier_email in H as (payload & Hdec & _ & Hmail).
    apply decode_session_claims in Hdec;
      [congruence | apply refresh_claims_no_email].
Qed.

Section SessionTokens.
Context {R : Runtime}.
Import Config.

Lemma verify_signed_lifetime (settings : Settings) (now x : Z)
    (c : gmap string jval) (s : string) :
  c !! "exp" = Some (JInt x) ->
  c !! "sub" = Some (JStr s) ->
  Security.verify_token settings now
    (Jose.encode c (SECRET_KEY settings) (ALGORITHM settings))
  = if (now <=? x)%Z then Some (JStr s) else None.
Proof.
  intros Hexp Hsub. rewrite verify_token_decode, decode_encode.
  unfold Jose.validate_exp, Jose.validate_sub. rewrite Hexp, Hsub.
  destruct (Z.ltb_spec x now), (Z.leb_spec now x); try lia; auto.
Qed.

End SessionTokens.

(** X4: an access token and a refresh token verify to their subject at
    every time up to and including their expiry, and to the absent result
    at every later time; the expiry is the issue time plus the given
    duration, or plus the configured lifetime when no duration or a zero
    duration is given. *)
Theorem session_token_lifetime (R : Runtime) (settings : Config.Settings)
    (t0 now : Z) (subject : string) (expires_delta : option Z) :
  let lifetime default :=
    match expires_delta with
    | Some d => if (d =? 0)%Z then default else d
    | None => default
    end in
  Security.verify_token settings now
    (Security.create_access_token settings t0 subject expires_delta)
  = (if (now <=? t0 + lifetime (Config.ACCESS_TOKEN_EXPIRE_MINUTES settings * 60))%Z
     then Some (JStr subject) else None)
  /\ Security.verify_token settings now
       (Security.create_refresh_token settings t0 subject expires_delta)
     = (if (now <=? t0 + lifetime (Config.REFRESH_TOKEN_EXPIRE_DAYS settings * 86400))%Z
        then Some (JStr subject) else None).
Proof.
  intros lifetime.
  assert (Hexp : forall default,
             Security.expiry t0 expires_delta default = t0 + lifetime default).
  { intros default. unfold Security.expiry, lifetime.
    destruct expires_delta as [d|]; [destruct (d =? 0)%Z|]; reflexivity. }
  split.
  - unfold Security.create_access_token.
    erewrite verify_signed_lifetime;
      [| apply lookup_insert_eq
       | rewrite lookup_insert_ne by done; apply lookup_insert_eq].
    now rewrite Hexp.
  - unfold Security.create_refresh_token.
    erewrite verify_signed_lifetime;
      [| apply lookup_insert_eq
       | rewrite lookup_insert_ne by done; apply lookup_insert_eq].
    now rewrite Hexp.
Qed.

(** X5: a negative duration gives an access token that is rejected from
    the moment it is issued, while a zero duration does not: such a token
    is accepted during the whole configured lifetime. *)
Theorem token_duration_edges (R : Runtime) (settings : Config.Settings)
    (t0 now d : Z) (subject : string) :
  (d < 0 -> t0 <= now ->
   Security.verify_token settings now
     (Security.create_access_token settings t0 subject (Some d)) = None)
  /\ (t0 <= now <= t0 + Config.ACCESS_TOKEN_EXPIRE_MINUTES settings * 60 ->
      Security.verify_token settings now
        (Security.create_access_token settings t0 subject (Some 0))
      = Some (JStr subject)).
Proof.
  split.
  - intros Hd Hnow.
    unfold Security.create_access_token.
    erewrite verify_signed_lifetime;
      [| apply lookup_insert_eq
       | rewrite lookup_insert_ne by done; apply lookup_insert_eq].
    unfold Security.expiry.
    destruct (Z.eqb_spec d 0); [lia|].
    destruct (Z.leb_spec now (t0 + d)); [lia | reflexivity].
  - intros Hnow.
    unfold Security.create_access_token.
    erewrite verify_signed_lifetime;
      [| apply lookup_insert_eq
       | rewrite lookup_insert_ne by done; apply lookup_insert_eq].
    unfold Security.expiry. cbn [Z.eqb].
    destruct (Z.leb_spec now
                (t0 + Config.ACCESS_TOKEN_EXPIRE_MINUTES settings * 60));
      [reflexivity | lia].
Qed.

(** A token issued with a duration of minus one minute is dead on
    arrival; one issued with a zero duration still verifies a week
    later. *)
Lemma token_duration_edges_witness :
  Security.verify_token (R := StandIn.runtime) StandIn.settings 1000
    (Security.create_access_token (R := StandIn.runtime)
       StandIn.settings 1000 "u-1" (Some (-60))) = None
  /\ Security.verify_token (R := StandIn.runtime) StandIn.settings 605800
       (Security.create_access_token (R := StandIn.runtime)
          StandIn.settings 1000 "u-1" (Some 0)) = Some (JStr "u-1").
Proof.
  split.
  - apply (proj1 (token_duration_edges StandIn.runtime StandIn.settings
                    1000 1000 (-60) "u-1")); lia.
  - apply (proj2 (token_duration_edges StandIn.runtime StandIn.settings
                    1000 605800 0 "u-1")). cbn. lia.
Defined.

(** ** The cipher *)

Section Cipher.
Context {R : Runtime}.
Import Config DataEncryption.

Lemma get_fernet_built (settings settings' : Settings) (st : cache) :
  _get_fernet settings' (_get_fernet settings st).2
  = ((_get_fernet settings st).1, (_get_fernet settings st).2).
Proof. now destruct st. Qed.

Lemma decrypt_field_run (settings : Settings) (st : cache)
    (d : gmap string string) (k : string) :
  decrypt_field settings st d k
  = match d !! k with
    | None => (Raise (KeyError k), st)
    | Some c =>
        match fernet_decrypt (fernet_key (_get_fernet settings st).1) c with
        | Some p => (Ok p, (_get_fernet settings st).2)
        | None => (Raise InvalidToken, (_get_fernet settings st).2)
        end
    end.
Proof.
  unfold decrypt_field, getitem, decrypt_data.
  destruct (d !! k) as [c|]; [|reflexivity].
  destruct st as [f|]; cbn; now destruct (fernet_decrypt _ c).
Qed.

End Cipher.

(** X6: the cipher is built once.  After a first encryption the cache is
    filled; from then on decryption uses the cached cipher whatever the
    settings passed later, so it still returns the plaintext after
    [SECRET_KEY] has changed; and in a process that starts without a
    cipher the cached key is the one derived from the [SECRET_KEY] of the
    first call. *)
Theorem cipher_built_once (R : Runtime) (L : FernetLaws R)
    (settings settings' : Config.Settings) (st : DataEncryption.cache)
    (iv data : string) :
  let enc := DataEncryption.encrypt_data settings st iv data in
  DataEncryption.decrypt_data settings' enc.2 enc.1 = (Ok data, enc.2)
  /\ is_Some enc.2
  /\ (st = None ->
      DataEncryption._get_fernet settings' enc.2
      = ({| DataEncryption.fernet_key := DataEncryption.derived_key settings |},
         enc.2)).
Proof.
  intros enc. subst enc.
  unfold DataEncryption.encrypt_data, DataEncryption.decrypt_data.
  destruct st as [f|]; cbn; rewrite fernet_roundtrip; repeat split; eauto.
  discriminate.
Qed.

(** A secret is encrypted, the key is rotated, and the running process
    still decrypts it. *)
Lemma cipher_built_once_witness :
  let enc :=
    DataEncryption.encrypt_data (R := StandIn.runtime) StandIn.settings None
      "iv-1" "session blob" in
  DataEncryption.decrypt_data (R := StandIn.runtime)
    (Config.load "ffffffffffffffffffffffffffffffff" None) enc.2 enc.1
  = (Ok "session blob", enc.2).
Proof.
  exact (proj1 (cipher_built_once StandIn.runtime standin_fernet_laws
                  StandIn.settings
                  (Config.load "ffffffffffffffffffffffffffffffff" None)
                  None "iv-1" "session blob")).
Defined.

(** X7: [decrypt_telegram_credentials] reads the fields in the order
    [api_id], [api_hash], [phone_number] and stops at the first that
    fails: a missing key raises [KeyError] with that key, a value that is
    not a token of the cipher raises [InvalidToken]; when the three
    decrypt, the result holds exactly the three plaintexts, any other key
    of the input being ignored. *)
Theorem decrypt_credentials_errors (R : Runtime)
    (settings : Config.Settings) (st : DataEncryption.cache)
    (d : gmap string string) :
  let key :=
    DataEncryption.fernet_key (DataEncryption._get_fernet settings st).1 in
  let field k := match d !! k with
                 | None => None
                 | Some c => Some (fernet_decrypt key c)
                 end in
  let result := (DataEncryption.decrypt_telegram_credentials settings st d).1 in
  (field "api_id" = None -> result = Raise (KeyError "api_id"))
  /\ (field "api_id" = Some None -> result = Raise InvalidToken)
  /\ (forall p1, field "api_id" = Some (Some p1) ->
        (field "api_hash" = None -> result = Raise (KeyError "api_hash"))
        /\ (field "api_hash" = Some None -> result = Raise InvalidToken)
        /\ (forall p2, field "api_hash" = Some (Some p2) ->
              (field "phone_number" = None ->
               result = Raise (KeyError "phone_number"))
              /\ (field "phone_number" = Some None ->
                  result = Raise InvalidToken)
              /\ (forall p3, field "phone_number" = Some (Some p3) ->
                    result
                    = Ok (<["api_id" := p1]>
                            (<["api_hash" := p2]>
                               (<["phone_number" := p3]> ∅)))))).
Proof.
  intros key field result. subst result.
  unfold DataEncryption.decrypt_telegram_credentials.
  rewrite (decrypt_field_run settings st d "api_id"). fold key.
  subst field. cbn beta.
  destruct (d !! "api_id") as [c1|]; [|repeat split; intros; congruence].
  destruct (fernet_decrypt key c1) as [p1|];
    [|repeat split; intros; congruence].
  split; [discriminate|]. split; [discriminate|]. intros ? [= <-].
  rewrite (decrypt_field_run settings _ d "api_hash").
  rewrite get_fernet_idem. cbn [fst snd]. fold key.
  destruct (d !! "api_hash") as [c2|]; [|repeat split; intros; congruence].
  destruct (fernet_decrypt key c2) as [p2|];
    [|repeat split; intros; congruence].
  split; [discriminate|]. split; [discriminate|]. intros ? [= <-].
  rewrite (decrypt_field_run settings _ d "phone_number").
  rewrite get_fernet_idem. cbn [fst snd]. fold key.
  destruct (d !! "phone_number") as [c3|]; [|repeat split; intros; congruence].
  destruct (fernet_decrypt key c3) as [p3|];
    [|repeat split; intros; congruence].
  split; [discriminate|]. split; [discriminate|]. now intros ? [= <-].
Qed.

(** A stored record that lost its [api_hash]. *)
Lemma decrypt_credentials_errors_witness :
  (DataEncryption.decrypt_telegram_credentials (R := StandIn.runtime)
     StandIn.settings None
     (<["api_id" := "F1234567"]> (<["phone_number" := "F+15550100"]> ∅))).1
  = Raise (KeyError "api_hash").
Proof.
  destruct (decrypt_credentials_errors StandIn.runtime StandIn.settings None
              (<["api_id" := "F1234567"]>
                 (<["phone_number" := "F+15550100"]> ∅)))
    as (_ & _ & H).
  destruct (H "1234567" eq_refl) as (Hmissing & _).
  apply Hmissing. reflexivity.
Defined.

(** ** Connection strings *)

Lemma prefix_split (p s : string) :
  String.prefix p s = true -> s = p +:+ PyStr.drop (String.length p) s.
Proof.
  revert s. induction p as [|a p IH]; intros s H; [reflexivity|].
  destruct s as [|b s]; [discriminate|]. simpl in H.
  destruct (Ascii.ascii_dec a b) as [->|]; [|discriminate].
  change (String b s = String b (p +:+ PyStr.drop (String.length p) s)).
  f_equal. now apply IH.
Qed.

Lemma driver_not_legacy (rest : string) :
  String.prefix "postgres://" ("postgresql+psycopg2://" +:+ rest) = false
  /\ String.prefix "postgresql://" ("postgresql+psycopg2://" +:+ rest) = false
  /\ PyStr.truthy (Some ("postgresql+psycopg2://" +:+ rest)) = true.
Proof. repeat split. Qed.

Lemma fix_legacy (rest : string) :
  Config.fix_postgres_url (Some ("postgres://" +:+ rest))
  = Some ("postgresql://" +:+ rest).
Proof.
  unfold Config.fix_postgres_url, PyStr.startswith.
  rewrite truthy_scheme, prefix_append. cbn [andb].
  now rewrite replace_first_scheme.
Qed.

Lemma fix_other (s : string) :
  String.prefix "postgres://" s = false ->
  Config.fix_postgres_url (Some s) = Some s.
Proof.
  intros H. unfold Config.fix_postgres_url, PyStr.startswith.
  rewrite H. now rewrite andb_false_r.
Qed.

(** X8: the validator of [DATABASE_URL] changes only strings that start
    with [postgres://]; its result never starts with [postgres://]; and
    applying it twice is the same as applying it once.  An unset and an
    empty value pass through. *)
Theorem fix_postgres_url_normalises (v : option string) :
  Config.fix_postgres_url (Config.fix_postgres_url v)
  = Config.fix_postgres_url v
  /\ (forall s, v = Some s -> PyStr.startswith s "postgres://" = false ->
        Config.fix_postgres_url v = v)
  /\ (forall s, Config.fix_postgres_url v = Some s ->
        PyStr.startswith s "postgres://" = false)
  /\ Config.fix_postgres_url None = None
  /\ Config.fix_postgres_url (Some "") = Some "".
Proof.
  assert (Hcases : forall s,
             (exists rest, s = "postgres://" +:+ rest)
             \/ String.prefix "postgres://" s = false).
  { intros s. destruct (String.prefix "postgres://" s) eqn:H; [left|now right].
    eexists. now apply prefix_split. }
  split; [|split; [|split; [|split; reflexivity]]].
  - destruct v as [s|]; [|reflexivity].
    destruct (Hcases s) as [[rest ->]|H].
    + rewrite fix_legacy. apply fix_other, canonical_not_legacy.
    + now rewrite !fix_other.
  - intros s -> H. now apply fix_other.
  - intros s. destruct v as [s0|]; [|discriminate].
    destruct (Hcases s0) as [[rest ->]|H].
    + rewrite fix_legacy. intros [= <-]. apply canonical_not_legacy.
    + rewrite fix_other by exact H. now intros [= <-].
Qed.

(** A URL of another database passes through unchanged. *)
Lemma fix_postgres_url_normalises_witness :
  Config.fix_postgres_url (Some "sqlite:///./dev.db")
  = Some "sqlite:///./dev.db".
Proof.
  destruct (fix_postgres_url_normalises (Some "sqlite:///./dev.db"))
    as (_ & H & _).
  apply (H "sqlite:///./dev.db"); reflexivity.
Defined.

(** X9: [get_database_url] raises [ValueError] with the message
    [DATABASE_URL not set] exactly when the setting is unset or empty, and
    returns normally otherwise. *)
Theorem database_url_required (settings : Config.Settings) :
  (Database.get_database_url settings
   = Raise (ValueError "DATABASE_URL not set")
   <-> Config.DATABASE_URL settings = None
       \/ Config.DATABASE_URL settings = Some "")
  /\ (returns_normally (Database.get_database_url settings)
      <-> exists url, Config.DATABASE_URL settings = Some url /\ url <> "").
Proof.
  unfold Database.get_database_url.
  destruct (Config.DATABASE_URL settings) as [url|]; cbn.
  2:{ split; split; auto; [tauto | intros (? & ? & _); discriminate]. }
  destruct (String.eqb_spec url "") as [->|Hne]; cbn.
  { split; split; auto; [tauto | intros (? & [= <-] & ?); congruence]. }
  assert (Hok : forall r : py_result string,
             (exists out, r = Ok out) ->
             (r = Raise (ValueError "DATABASE_URL not set")
              <-> Some url = None \/ Some url = Some "")
             /\ (returns_normally r
                 <-> exists u, Some url = Some u /\ u <> "")).
  { intros r [out ->]. split; split; cbn; eauto;
      [discriminate | intros [|[= ->]]; congruence]. }
  apply Hok.
  destruct (PyStr.startswith url "postgres://"); [eauto|].
  destruct (PyStr.startswith url "postgresql://"); eauto.
Qed.

(** X10: for a non-empty setting, [get_database_url] rewrites the scheme
    [postgresql://] to [postgresql+psycopg2://] and keeps the rest,
    returns a URL of any other non-legacy scheme unchanged, never returns
    a URL that starts with [postgres://] or [postgresql://], and maps its
    own result to itself. *)
Theorem database_url_normal_form (settings : Config.Settings)
    (secret_key url : string) :
  Config.DATABASE_URL settings = Some url -> url <> "" ->
  exists out,
    Database.get_database_url settings = Ok out
    /\ (forall rest, url = "postgresql://" +:+ rest ->
          out = "postgresql+psycopg2://" +:+ rest)
    /\ (PyStr.startswith url "postgres://" = false ->
        PyStr.startswith url "postgresql://" = false -> out = url)
    /\ PyStr.startswith out "postgres://" = false
    /\ PyStr.startswith out "postgresql://" = false
    /\ Database.rewrite_raw secret_key (Some out) = Ok out.
Proof.
  intros Hurl Hne. unfold Database.get_database_url. rewrite Hurl.
  assert (Htruthy : PyStr.truthy (Some url) = true).
  { cbn. now destruct (String.eqb_spec url ""). }
  rewrite Htruthy. cbn [negb]. unfold PyStr.startswith.
  destruct (String.prefix "postgres://" url) eqn:Hlegacy.
  { rewrite replace_first_at_start by exact Hlegacy.
    destruct (driver_not_legacy (PyStr.drop (String.length "postgres://") url))
      as (H1 & H2 & H3).
    eexists. split; [reflexivity|].
    split.
    { intros rest ->. discriminate Hlegacy. }
    split; [discriminate|]. split; [exact H1|]. split; [exact H2|].
    unfold Database.rewrite_raw, Database.get_database_url, PyStr.startswith.
    cbn [Config.DATABASE_URL]. now rewrite H3, H1, H2. }
  destruct (String.prefix "postgresql://" url) eqn:Hcanon.
  { rewrite replace_first_at_start by exact Hcanon.
    destruct (driver_not_legacy
                (PyStr.drop (String.length "postgresql://") url))
      as (H1 & H2 & H3).
    eexists. split; [reflexivity|].
    split.
    { intros rest ->. now rewrite drop_append. }
    split; [discriminate|]. split; [exact H1|]. split; [exact H2|].
    unfold Database.rewrite_raw, Database.get_database_url, PyStr.startswith.
    cbn [Config.DATABASE_URL]. now rewrite H3, H1, H2. }
  exists url. split; [reflexivity|].
  split.
  { intros rest ->. now rewrite prefix_append in Hcanon. }
  split; [reflexivity|]. split; [exact Hlegacy|]. split; [exact Hcanon|].
  unfold Database.rewrite_raw, Database.get_database_url, PyStr.startswith.
  cbn [Config.DATABASE_URL]. now rewrite Htruthy, Hlegacy, Hcanon.
Qed.

(** The connection string of the stand-in settings, after the validator
    and the session factory. *)
Lemma database_url_normal_form_witness :
  Database.get_database_url StandIn.settings
  = Ok "postgresql+psycopg2://app:pw@db.internal:5432/forwarder".
Proof.
  destruct (database_url_normal_form StandIn.settings "k"
              "postgresql://app:pw@db.internal:5432/forwarder")
    as (out & Hout & Hrest & _).
  - reflexivity.
  - discriminate.
  - rewrite Hout. f_equal.
    apply (Hrest "app:pw@db.internal:5432/forwarder"). reflexivity.
Defined.

(** ** Scoped sessions *)

(** X11: the two session scopes.  Both hand on the outcome of the code
    they wrap and leave nothing pending.  The scope of app/database.py
    makes the uncommitted work of that code durable when it returns and
    drops it when it raises; the scope of app/dependencies.py never
    commits, so that work added without a commit is dropped even when the
    code returns. *)
Theorem scoped_session_contract {A : Type} (handler : Session.M A)
    (s : Session.t) :
  let r := (handler s).1 in
  let s1 := (handler s).2 in
  let db := DatabaseSession.get_db handler s in
  let dep := Dependencies.get_db handler s in
  db.1 = r /\ dep.1 = r
  /\ Session.pending db.2 = [] /\ Session.pending dep.2 = []
  /\ (returns_normally r ->
      Session.store db.2 = Session.view s1
      /\ Session.history db.2 = (Session.history s1 ++ [Session.view s1])%list)
  /\ (~ returns_normally r ->
      Session.store db.2 = Session.store s1
      /\ Session.history db.2 = Session.history s1)
  /\ Session.store dep.2 = Session.store s1
  /\ Session.history dep.2 = Session.history s1.
Proof.
  intros r s1 db dep. subst r s1 db dep.
  unfold DatabaseSession.get_db, Dependencies.get_db.
  destruct (handler s) as [[a|e] s1]; cbn.
  - repeat split; tauto.
  - destruct (is_Exception e); cbn; repeat split; tauto.
Qed.

(** A row added without a commit: durable after the scope of
    app/database.py. *)
Lemma scoped_session_contract_witness :
  Models.users
    (Session.store
       (DatabaseSession.get_db
          (Session.add (Models.RUser StandIn.alice_row))
          (Session.fresh Models.empty_db)).2) !! "u-1"
  = Some StandIn.alice_row.
Proof.
  destruct (scoped_session_contract
              (Session.add (Models.RUser StandIn.alice_row))
              (Session.fresh Models.empty_db))
    as (_ & _ & _ & _ & H & _).
  destruct H as [H _]; [exact I|].
  rewrite H. reflexivity.
Defined.

(** The same row is lost in the scope of app/dependencies.py. *)
Example uncommitted_row_is_dropped :
  Session.store
    (Dependencies.get_db (Session.add (Models.RUser StandIn.alice_row))
       (Session.fresh Models.empty_db)).2
  = Models.empty_db.
Proof. reflexivity. Qed.

(** ** Rules by key *)

Section RuleKeys.
Import Models Session.

Lemma count_rules_saved_le (user_id : string) (r : ForwardingRule) (db : DB) :
  CRUDForwardingRule.count_rules user_id (write db (RRule r))
  <= CRUDForwardingRule.count_rules user_id db + 1.
Proof.
  unfold CRUDForwardingRule.count_rules, CRUDForwardingRule.rules_of.
  cbn [write forwarding_rules].
  destruct (decide (rule_user_id r = user_id)) as [Hu|Hu].
  - rewrite map_filter_insert_True by exact Hu.
    rewrite map_size_insert. destruct (_ !! rule_id r); cbn; lia.
  - rewrite map_filter_insert_False by exact Hu.
    rewrite map_filter_delete, map_size_delete. destruct (_ !! rule_id r); cbn; lia.
Qed.

Lemma count_rules_deleted (user_id rid : string) (r : ForwardingRule)
    (db : DB) :
  forwarding_rules db !! rid = Some r ->
  rule_user_id r = user_id ->
  CRUDForwardingRule.count_rules user_id (RuleOps.delete_rule rid db)
  = CRUDForwardingRule.count_rules user_id db - 1.
Proof.
  intros Hr Hu.
  unfold CRUDForwardingRule.count_rules, CRUDForwardingRule.rules_of.
  cbn [RuleOps.delete_rule forwarding_rules].
  rewrite map_filter_delete, map_size_delete.
  assert (Hin : filter (fun kv => rule_user_id kv.2 = user_id)
                  (forwarding_rules db) !! rid = Some r)
    by (apply map_lookup_filter_Some; auto).
  rewrite Hin.
  assert (size (filter (fun kv => rule_user_id kv.2 = user_id)
                  (forwarding_rules db)) <> 0)%nat.
  { apply map_size_ne_0_lookup. eauto. }
  lia.
Qed.

Lemma delete_rule_users (rid : string) (db : DB) :
  users (RuleOps.delete_rule rid db) = users db.
Proof. reflexivity. Qed.

Lemma delete_run (rid : string) (s : t) :
  (RuleOps.delete rid s).2
  = {| store := RuleOps.delete_rule rid (view s);
       pending := [];
       history := history s ++ [RuleOps.delete_rule rid (view s)] |}.
Proof.
  unfold RuleOps.delete. now destruct (rule_id <$> _).
Qed.

End RuleKeys.



(** X13: [delete] answers whether the key held a rule.  Afterwards the key
    holds none, every other rule is as before, users and profiles are
    untouched, no message log is removed, and no log refers to the deleted
    key any more. *)
Theorem rule_delete (s : Session.t) (rid : string) :
  let out := RuleOps.delete rid s in
  out.1 = Ok (bool_decide
                (is_Some (Models.forwarding_rules (Session.view s) !! rid)))
  /\ RuleOps.get_by_id rid out.2 = (Ok None, out.2)
  /\ (forall rid', rid' <> rid ->
        (RuleOps.get_by_id rid' out.2).1 = (RuleOps.get_by_id rid' s).1)
  /\ Models.users (Session.store out.2) = Models.users (Session.view s)
  /\ Models.user_profiles (Session.store out.2)
     = Models.user_profiles (Session.view s)
  /\ dom (Models.message_logs (Session.store out.2))
     = dom (Models.message_logs (Session.view s))
  /\ (forall k l, Models.message_logs (Session.store out.2) !! k = Some l ->
        Models.log_rule_id l <> Some rid)
  /\ Session.pending out.2 = [].
Proof.
  intros out. subst out. rewrite delete_run.
  split.
  { unfold RuleOps.delete.
    destruct (Models.forwarding_rules (Session.view s) !! rid) as [r|];
      reflexivity. }
  unfold RuleOps.get_by_id, Session.query, Session.view.
  cbn [Session.store Session.pending fold_left RuleOps.delete_rule
       Models.forwarding_rules Models.users Models.user_profiles
       Models.message_logs fst snd].
  split; [now rewrite lookup_delete_eq|].
  split; [intros rid' Hne; now rewrite lookup_delete_ne|].
  split; [reflexivity|]. split; [reflexivity|].
  split; [apply dom_fmap_L|]. split; [|reflexivity].
  intros k l Hl. apply lookup_fmap_Some in Hl as (l0 & <- & _).
  unfold RuleOps.detach. case_bool_decide; cbn; [discriminate | assumption].
Qed.

(** X14: deleting a rule of a user lowers that user's rule count by one,
    so that a free-tier user stopped at three rules can create a rule
    again after deleting one. *)
Theorem delete_frees_slot (s : Session.t) (user_id rid rid' : string)
    (obj_in : Schemas.ForwardingRuleCreate) (u : Models.User)
    (r : Models.ForwardingRule) :
  Models.users (Session.view s) !! user_id = Some u ->
  Models.forwarding_rules (Session.view s) !! rid = Some r ->
  Models.rule_user_id r = user_id ->
  let n := CRUDForwardingRule.count_rules user_id (Session.view s) in
  let s1 := (RuleOps.delete rid s).2 in
  CRUDForwardingRule.count_rules user_id (Session.view s1) = n - 1
  /\ (Models.subscription_tier u = Some "free" -> n = 3 ->
      (CRUDForwardingRule.create user_id obj_in rid' s).1
      = Raise (ValueError "Free tier limited to 3 forwarding rules")
      /\ returns_normally (CRUDForwardingRule.create user_id obj_in rid' s1).1).
Proof.
  intros Hu Hr Howner n s1.
  assert (Hcount : CRUDForwardingRule.count_rules user_id (Session.view s1)
                   = n - 1).
  { subst s1. rewrite delete_run. unfold Session.view at 1.
    cbn [Session.store Session.pending fold_left].
    now apply count_rules_deleted with r. }
  split; [exact Hcount|]. intros Ht Hn. split.
  - rewrite (create_rule_free_cap s user_id rid' obj_in u Hu Ht); [reflexivity|].
    fold n. lia.
  - assert (Hu1 : Models.users (Session.view s1) !! user_id = Some u).
    { subst s1. rewrite delete_run. exact Hu. }
    rewrite (create_rule_below_cap s1 user_id rid' obj_in u Hu1); [exact I|].
    rewrite Hcount. split; intros [Ht' Hn']; [lia | congruence].
Qed.

(** The free account at its cap deletes its second rule and creates
    again. *)
Lemma delete_frees_slot_witness :
  returns_normally
    (CRUDForwardingRule.create "u-1" (StandIn.rule "again") "r-4"
       (RuleOps.delete (StandIn.rule_key 2) (StandIn.account "free" 3)).2).1.
Proof.
  destruct (delete_frees_slot (StandIn.account "free" 3) "u-1"
              (StandIn.rule_key 2) "r-4" (StandIn.rule "again")
              (StandIn.with_tier "free" StandIn.alice_row)
              {| Models.rule_id := StandIn.rule_key 2;
                 Models.rule_user_id := "u-1";
                 Models.rule_fields := StandIn.rule (StandIn.rule_key 2) |})
    as (_ & H).
  - vm_compute. reflexivity.
  - vm_compute. reflexivity.
  - reflexivity.
  - apply H; [reflexivity | vm_compute; reflexivity].
Defined.

(** X15: [create] keeps the caps.  If a free-tier user has at most three
    rules before the call, they have at most three after it, whether it
    succeeded or raised and whatever key the new rule got; likewise with
    twenty for the pro tier. *)
Theorem rule_cap_invariant (s : Session.t) (user_id rid : string)
    (obj_in : Schemas.ForwardingRuleCreate) (u : Models.User) :
  Models.users (Session.view s) !! user_id = Some u ->
  let n := CRUDForwardingRule.count_rules user_id (Session.view s) in
  let s1 := (CRUDForwardingRule.create user_id obj_in rid s).2 in
  let n1 := CRUDForwardingRule.count_rules user_id (Session.view s1) in
  (Models.subscription_tier u = Some "free" -> n <= 3 -> n1 <= 3)
  /\ (Models.subscription_tier u = Some "pro" -> n <= 20 -> n1 <= 20).
Proof.
  intros Hu n s1 n1.
  assert (Hstep : forall tier cap msg,
             Models.subscription_tier u = Some tier ->
             (cap <= n ->
              CRUDForwardingRule.create user_id obj_in rid s
              = (Raise (ValueError msg), s)) ->
             (n < cap -> uncapped u n) ->
             n <= cap -> n1 <= cap).
  { intros tier cap msg Ht Hfull Hfree Hle.
    destruct (Z.lt_ge_cases n cap) as [Hlt|Hge].
    - subst n1 s1.
      rewrite (create_rule_below_cap s user_id rid obj_in u Hu (Hfree Hlt)).
      cbn [snd]. rewrite view_saved.
      pose proof (count_rules_saved_le user_id
                    {| Models.rule_id := rid; Models.rule_user_id := user_id;
                       Models.rule_fields := obj_in |} (Session.view s)).
      fold n in H. lia.
    - subst n1 s1. rewrite (Hfull Hge). cbn [snd]. fold n. lia. }
  split; intros Ht Hle.
  - apply (Hstep "free" 3 "Free tier limited to 3 forwarding rules");
      auto.
    + intros Hge. now apply create_rule_free_cap with u.
    + intros Hlt. split; intros [Ht' Hn']; [lia | congruence].
  - apply (Hstep "pro" 20 "Pro tier limited to 20 forwarding rules");
      auto.
    + intros Hge. now apply create_rule_pro_cap with u.
    + intros Hlt. split; intros [Ht' Hn']; [congruence | lia].
Qed.

(** The free account with three rules is still at three after a refused
    fourth. *)
Lemma rule_cap_invariant_witness :
  CRUDForwardingRule.count_rules "u-1"
    (Session.view
       (CRUDForwardingRule.create "u-1" (StandIn.rule "fourth") "r-4"
          (StandIn.account "free" 3)).2) <= 3.
Proof.
  destruct (rule_cap_invariant (StandIn.account "free" 3) "u-1" "r-4"
              (StandIn.rule "fourth")
              (StandIn.with_tier "free" StandIn.alice_row)) as (H & _).
  - vm_compute. reflexivity.
  - apply H; [reflexivity | vm_compute; discriminate].
Defined.

(** ** Registration and verification *)

Section RegistrationFlow.
Context {R : Runtime}.
Import Config Models Session.

(** When some stored user has the address, [create] raises and leaves
    the session as it was. *)
Lemma create_user_taken (settings : Settings) (obj_in : Schemas.UserCreate)
    (now : Z) (salt uid pid : string) (s : t) :
  CRUDUser.with_email (Schemas.uc_email obj_in) (view s) <> ∅ ->
  exists e, CRUDUser.create settings obj_in now salt uid pid s = (Raise e, s).
Proof.
  intros Hne. unfold CRUDUser.create, CRUDUser.get_by_email.
  rewrite bind_bind, bind_query.
  destruct (map_to_list (CRUDUser.with_email (Schemas.uc_email obj_in) (view s)))
    as [|[k u] [|? ?]] eqn:Hl.
  - apply map_to_list_empty_iff in Hl. contradiction.
  - cbn. eauto.
  - cbn. eauto.
Qed.

Lemma with_email_other_saved (e : string) (u : User) (db : DB) :
  email u <> e ->
  (size (CRUDUser.with_email e (write db (RUser u)))
   <= size (CRUDUser.with_email e db))%nat.
Proof.
  intros Hne. unfold CRUDUser.with_email. cbn [write users].
  rewrite map_filter_insert_False by exact Hne.
  rewrite map_filter_delete, map_size_delete.
  destruct (_ !! id u); cbn; lia.
Qed.

End RegistrationFlow.

(** X16: [create] keeps e-mail addresses unique.  If no address is held
    by more than one stored user before the call, none is afterwards,
    whether the call succeeded or raised and whatever keys were drawn. *)
Theorem email_stays_unique (R : Runtime) (settings : Config.Settings)
    (obj_in : Schemas.UserCreate) (now : Z) (salt uid pid : string)
    (s : Session.t) :
  (forall e, (size (CRUDUser.with_email e (Session.view s)) <= 1)%nat) ->
  forall e,
    (size (CRUDUser.with_email e
             (Session.view
                (CRUDUser.create settings obj_in now salt uid pid s).2))
     <= 1)%nat.
Proof.
  intros Huniq e.
  destruct (decide (CRUDUser.with_email (Schemas.uc_email obj_in)
                      (Session.view s) = ∅)) as [Hnone|Hsome].
  - destruct (create_user_runs settings obj_in now salt uid pid s Hnone)
      as (u & -> & Hid & Hemail & _).
    cbn [snd]. rewrite view_saved, with_email_profile, view_saved.
    destruct (decide (Models.email u = e)) as [He|He].
    + rewrite <- He, Hemail.
      rewrite (with_email_saved_new _ u s Hemail Hnone).
      now rewrite map_size_singleton.
    + etransitivity; [now apply with_email_other_saved | apply Huniq].
  - destruct (create_user_taken settings obj_in now salt uid pid s Hsome)
      as (err & ->).
    apply Huniq.
Qed.

(** After Alice's registration, a second one with her address leaves one
    row per address. *)
Lemma email_stays_unique_witness :
  (size (CRUDUser.with_email "alice@example.com"
           (Session.view
              (CRUDUser.create (R := StandIn.runtime) StandIn.settings
                 StandIn.alice 1500 "pepper" "u-2" "p-2"
                 StandIn.registered).2)) <= 1)%nat.
Proof.
  apply (email_stays_unique StandIn.runtime StandIn.settings StandIn.alice
           1500 "pepper" "u-2" "p-2" StandIn.registered).
  intros e.
  change (Session.view StandIn.registered)
    with (Models.write
            (Models.write Models.empty_db (Models.RUser StandIn.alice_row))
            (Models.RProfile {| Models.profile_id := "p-1";
                                Models.profile_user_id := "u-1" |})).
  unfold CRUDUser.with_email.
  cbn [Models.write Models.users Models.empty_db].
  etransitivity; [apply map_subseteq_size, map_filter_subseteq|].
  now rewrite insert_empty, map_size_singleton.
Defined.

(** X17: [verify_email] returns the absent result and leaves the session
    as it was for a string that is no token, for a verification token
    older than 24 hours, for a password-reset token, for any token the
    typed verifier rejects, and for a valid token whose address no stored
    user has. *)
Theorem verify_email_rejects (R : Runtime) (settings : Config.Settings)
    (t0 now : Z) (e raw : string) (tok : Jose.token) (s : Session.t) :
  CRUDUser.verify_email settings now (Jose.Garbled raw) s = (Ok None, s)
  /\ (t0 + 86400 < now ->
      CRUDUser.verify_email settings now
        (Security.create_verification_token settings t0 e) s = (Ok None, s))
  /\ CRUDUser.verify_email settings now
       (PasswordReset.create_password_reset_token settings t0 e) s
     = (Ok None, s)
  /\ (Security.verify_verification_token settings now tok = None ->
      CRUDUser.verify_email settings now tok s = (Ok None, s))
  /\ (Security.verify_verification_token settings now tok = Some (JStr e) ->
      CRUDUser.with_email e (Session.view s) = ∅ ->
      CRUDUser.verify_email settings now tok s = (Ok None, s)).
Proof.
  assert (Hnone : forall tk,
             Security.verify_verification_token settings now tk = None ->
             CRUDUser.verify_email settings now tk s = (Ok None, s)).
  { intros tk H. unfold CRUDUser.verify_email. now rewrite H. }
  split; [now apply Hnone|].
  split.
  { intros Hlate. apply Hnone, verification_token_expired. lia. }
  split.
  { apply Hnone.
    unfold Security.verify_verification_token,
      PasswordReset.create_password_reset_token.
    rewrite decode_mail_claims.
    destruct (mail_claims_lookup (t0 + 1 * 3600) e "reset")
      as (_ & _ & Htype & _).
    destruct (_ <? _)%Z; [reflexivity|].
    rewrite Htype. now rewrite bool_decide_eq_false_2 by discriminate. }
  split; [apply Hnone|].
  intros Htok Hunknown. unfold CRUDUser.verify_email. rewrite Htok.
  destruct (String.eqb e ""); [reflexivity|].
  unfold Session.bind at 1. now rewrite (get_by_email_none _ _ Hunknown).
Qed.

(** Alice's verification link, opened two days late. *)
Lemma verify_email_rejects_witness :
  CRUDUser.verify_email (R := StandIn.runtime) StandIn.settings 173800
    (Security.create_verification_token (R := StandIn.runtime)
       StandIn.settings 1000 "alice@example.com") StandIn.registered
  = (Ok None, StandIn.registered).
Proof.
  destruct (verify_email_rejects StandIn.runtime StandIn.settings 1000 173800
              "alice@example.com" "" (Jose.Garbled "") StandIn.registered)
    as (_ & H & _).
  apply H. lia.
Defined.

(** X18: registration followed by verification.  When no stored user has
    the address and the address is not empty, the token that [create]
    stores on the new user, presented to [verify_email] within 24 hours,
    verifies that user: the stored row has [is_verified] set, token and
    expiry cleared, and keeps its key, address and password hash. *)
Theorem register_then_verify (R : Runtime) (settings : Config.Settings)
    (obj_in : Schemas.UserCreate) (t0 now : Z) (salt uid pid : string)
    (s : Session.t) :
  CRUDUser.with_email (Schemas.uc_email obj_in) (Session.view s) = ∅ ->
  Schemas.uc_email obj_in <> "" ->
  now <= t0 + 24 * 3600 ->
  exists u s1 tok v s2,
    CRUDUser.create settings obj_in t0 salt uid pid s = (Ok u, s1)
    /\ Models.verification_token u = Some tok
    /\ Models.is_verified u = false
    /\ CRUDUser.verify_email settings now tok s1 = (Ok (Some v), s2)
    /\ Models.users (Session.store s2) !! uid = Some v
    /\ Models.is_verified v = true
    /\ Models.verification_token v = None
    /\ Models.verification_expires v = None
    /\ Models.id v = uid
    /\ Models.email v = Schemas.uc_email obj_in
    /\ Models.password_hash v = Models.password_hash u.
Proof.
  intros Hnone Hne Hnow.
  destruct (create_user_runs settings obj_in t0 salt uid pid s Hnone)
    as (u & Hrun & Hid & Hemail & Hunverified & Htok & _).
  assert (Hone : CRUDUser.with_email (Models.email u)
                   (Session.view
                      (Session.saved
                         (Models.RProfile {| Models.profile_id := pid;
                                             Models.profile_user_id := uid |})
                         (Session.saved (Models.RUser u) s)))
                 = {[Models.id u := u]}).
  { rewrite view_saved, with_email_profile, view_saved, Hemail.
    now apply with_email_saved_new. }
  exists u. eexists. eexists. exists (CRUDUser.mark_verified u). eexists.
  split; [exact Hrun|]. split; [exact Htok|]. split; [exact Hunverified|].
  split.
  { apply verify_email_runs; [|congruence|exact Hone].
    rewrite Hemail. now apply verification_token_valid. }
  split.
  { cbn [Session.saved Session.store Models.write Models.users
         CRUDUser.mark_verified Models.id].
    rewrite Hid. apply lookup_insert_eq. }
  repeat (split; [reflexivity || assumption|]). reflexivity.
Qed.

(** Alice registers at time 1000 and opens her link at time 2000. *)
Lemma register_then_verify_witness :
  exists u s1 tok v s2,
    CRUDUser.create (R := StandIn.runtime) StandIn.settings StandIn.alice
      1000 "salt" "u-1" "p-1" (Session.fresh Models.empty_db) = (Ok u, s1)
    /\ Models.verification_token u = Some tok
    /\ CRUDUser.verify_email (R := StandIn.runtime) StandIn.settings 2000
         tok s1 = (Ok (Some v), s2)
    /\ Models.is_verified v = true.
Proof.
  destruct (register_then_verify StandIn.runtime StandIn.settings
              StandIn.alice 1000 2000 "salt" "u-1" "p-1"
              (Session.fresh Models.empty_db))
    as (u & s1 & tok & v & s2 & H1 & H2 & _ & H3 & _ & H4 & _).
  - reflexivity.
  - discriminate.
  - lia.
  - exists u, s1, tok, v, s2. repeat split; assumption.
Defined.

(** ** Account routes *)

Lemma at_most_one {A} (m : gmap string A) :
  (size m <= 1)%nat -> m = ∅ \/ exists k x, m = {[k := x]}.
Proof.
  intros Hsize. rewrite <- length_map_to_list in Hsize.
  destruct (map_to_list m) as [|[k x] [|? ?]] eqn:Hl; cbn in Hsize; [| |lia].
  - left. now apply map_to_list_empty_iff.
  - right. exists k, x. rewrite <- (list_to_map_to_list m), Hl.
    cbn. apply insert_empty.
Qed.

Lemma datetime_is_unbound :
  bool_decide ("datetime" ∈ (AuthRoutes.module_globals
                              ++ CRUDMessageLog.builtins)%list) = false.
Proof. vm_compute. reflexivity. Qed.

(** X19: the registration route.  For an address that no stored user has
    it answers with the new user and schedules one verification e-mail,
    addressed to that user and carrying the token stored on the row; for
    an address that a stored user has it answers 400 with the message of
    the repository, schedules nothing and leaves the session as it was. *)
Theorem register_route (R : Runtime) (settings : Config.Settings)
    (user_in : Schemas.UserCreate) (now : Z) (salt uid pid : string)
    (s : Session.t) :
  let e := Schemas.uc_email user_in in
  (CRUDUser.with_email e (Session.view s) = ∅ ->
   exists u s1,
     AuthRoutes.register settings user_in now salt uid pid s
     = (Ok (AuthRoutes.UserResponse u,
            [AuthRoutes.send_verification_email e (AuthRoutes.display_name u)
               (Models.verification_token u)]), s1)
     /\ Models.users (Session.store s1) !! uid = Some u
     /\ Models.verification_token u
        = Some (Security.create_verification_token settings now e))
  /\ (forall k u0,
        CRUDUser.with_email e (Session.view s) = {[k := u0]} ->
        AuthRoutes.register settings user_in now salt uid pid s
        = (Ok (AuthRoutes.HTTPException 400
                 "User with this email already exists" [], []), s)).
Proof.
  intros e. split.
  - intros Hnone.
    destruct (create_user_runs settings user_in now salt uid pid s Hnone)
      as (u & Hrun & Hid & Hemail & _ & Htok & _).
    exists u. eexists. unfold AuthRoutes.register. rewrite Hrun, Hemail.
    split; [reflexivity|]. split; [|exact Htok].
    cbn [Session.saved Session.store Models.write Models.users].
    rewrite view_saved. cbn [Models.write Models.users].
    rewrite Hid. apply lookup_insert_eq.
  - intros k u0 Hone. unfold AuthRoutes.register.
    now rewrite (create_user_duplicate settings user_in now salt uid pid
                   k u0 s Hone).
Qed.

(** Alice tries to register a second time. *)
Lemma register_route_witness :
  AuthRoutes.register (R := StandIn.runtime) StandIn.settings StandIn.alice
    1500 "pepper" "u-2" "p-2" StandIn.registered
  = (Ok (AuthRoutes.HTTPException 400
           "User with this email already exists" [], []),
     StandIn.registered).
Proof.
  apply (proj2 (register_route StandIn.runtime StandIn.settings StandIn.alice
                  1500 "pepper" "u-2" "p-2" StandIn.registered)
           "u-1" StandIn.alice_row).
  vm_compute. reflexivity.
Defined.

Lemma reset_token_valid_now (R : Runtime) (settings : Config.Settings)
    (now : Z) (e : string) :
  PasswordReset.verify_password_reset_token settings now
    (PasswordReset.create_password_reset_token settings now e)
  = Some (JStr e).
Proof.
  unfold PasswordReset.verify_password_reset_token,
    PasswordReset.create_password_reset_token.
  rewrite decode_mail_claims.
  destruct (mail_claims_lookup (now + 1 * 3600) e "reset")
    as (_ & Hemail & Htype & _).
  destruct (Z.ltb_spec (now + 1 * 3600) now); [lia|].
  rewrite Htype, bool_decide_eq_true_2 by reflexivity. exact Hemail.
Qed.

(** X20: the forgot-password route gives the same answer and leaves the
    session as it was whether or not the address is known; it schedules a
    reset e-mail exactly when one stored user has the address and is
    active, and the token in that e-mail is at that time accepted by the
    reset verifier for that address. *)
Theorem forgot_password_uniform (R : Runtime) (settings : Config.Settings)
    (now : Z) (email_in : string) (s : Session.t) :
  (size (CRUDUser.with_email email_in (Session.view s)) <= 1)%nat ->
  exists tasks,
    AuthRoutes.forgot_password settings now email_in s
    = (Ok (AuthRoutes.MessageResponse
             "If your email exists, you will receive a password reset link",
           tasks), s)
    /\ (tasks <> [] <->
        exists k u,
          CRUDUser.with_email email_in (Session.view s) = {[k := u]}
          /\ Models.is_active u = true)
    /\ (forall t, t ∈ tasks ->
          exists name tok,
            t = AuthRoutes.send_password_reset_email email_in name tok
            /\ PasswordReset.verify_password_reset_token settings now tok
               = Some (JStr email_in)).
Proof.
  intros Hsize. unfold AuthRoutes.forgot_password.
  destruct (at_most_one _ Hsize) as [Hnone|(k & u & Hone)].
  - unfold Session.bind at 1. rewrite (get_by_email_none _ _ Hnone).
    exists []. split; [reflexivity|]. split.
    + split; [congruence|]. intros (k & u & Hk & _).
      rewrite Hnone in Hk. symmetry in Hk.
      now apply map_non_empty_singleton in Hk.
    + intros t Ht. now apply elem_of_nil in Ht.
  - unfold Session.bind at 1. rewrite (get_by_email_single _ _ _ _ Hone).
    assert (Hemail : Models.email u = email_in).
    { assert (Hl : CRUDUser.with_email email_in (Session.view s) !! k = Some u)
        by (rewrite Hone; apply lookup_singleton_eq).
      apply map_lookup_filter_Some in Hl as [_ He]. exact He. }
    eexists. split; [reflexivity|].
    destruct (Models.is_active u) eqn:Hact.
    + split.
      * split; [eauto | discriminate].
      * intros t Ht. apply list_elem_of_singleton in Ht as ->.
        rewrite Hemail. eexists _, _. split; [reflexivity|].
        rewrite reset_token_valid_now. reflexivity.
    + split.
      * split; [congruence|]. intros (k' & u' & Hk & Hact').
        rewrite Hone in Hk.
        assert (Hl : ({[k' := u']} : gmap string Models.User) !! k = Some u)
          by (rewrite <- Hk; apply lookup_singleton_eq).
        apply lookup_singleton_Some in Hl as [_ ->]. congruence.
      * intros t Ht. now apply elem_of_nil in Ht.
Qed.

(** The route is asked for an address nobody registered. *)
Lemma forgot_password_uniform_witness :
  AuthRoutes.forgot_password (R := StandIn.runtime) StandIn.settings 2000
    "mallory@example.com" StandIn.registered
  = (Ok (AuthRoutes.MessageResponse
           "If your email exists, you will receive a password reset link",
         []), StandIn.registered).
Proof.
  destruct (forgot_password_uniform StandIn.runtime StandIn.settings 2000
              "mallory@example.com" StandIn.registered)
    as (tasks & Hrun & Htasks & _).
  - vm_compute. lia.
  - rewrite Hrun. destruct tasks as [|t tasks]; [reflexivity|].
    destruct Htasks as [Htasks _].
    destruct Htasks as (k & u & Hk & _); [discriminate|].
    vm_compute in Hk. discriminate Hk.
Defined.

(** X21: the login route never answers with tokens.  Unknown address or
    wrong password: 401; right password on an inactive account: 400;
    right password on an active account: [NameError], because the module
    never imports [datetime]; in each case the session is left as it
    was. *)
Theorem login_never_issues_tokens (R : Runtime) (P : PasswordRuntime)
    (settings : Config.Settings) (now : Z) (username : string)
    (password : list N) (s : Session.t) :
  let denied :=
    AuthRoutes.HTTPException 401 "Incorrect email or password"
      [("WWW-Authenticate", "Bearer")] in
  (forall a r t,
      (AuthRoutes.login settings now username password s).1
      <> Ok (AuthRoutes.TokenResponse a r t))
  /\ (AuthRoutes.login settings now username password s).2 = s
  /\ (CRUDUser.with_email username (Session.view s) = ∅ ->
      (AuthRoutes.login settings now username password s).1 = Ok denied)
  /\ (forall k u,
        CRUDUser.with_email username (Session.view s) = {[k := u]} ->
        (AuthRoutes.login settings now username password s).1
        = if negb (AuthRoutes.verify_password password
                     (Models.password_hash u))
          then Ok denied
          else if negb (Models.is_active u)
               then Ok (AuthRoutes.HTTPException 400 "Inactive user" [])
               else Raise (NameError "datetime")).
Proof.
  intros denied. subst denied.
  unfold AuthRoutes.login, CRUDUser.get_by_email.
  rewrite bind_bind, bind_query.
  assert (Hrows : forall k u,
             CRUDUser.with_email username (Session.view s) = {[k := u]} ->
             (map_to_list (CRUDUser.with_email username (Session.view s))).*2
             = [u]).
  { intros k u ->. now rewrite map_to_list_singleton. }
  split; [|split; [|split]].
  - intros a r t.
    destruct ((map_to_list _).*2) as [|u [|? ?]]; cbn; [discriminate| |discriminate].
    destruct (negb (AuthRoutes.verify_password _ _)); cbn; [discriminate|].
    destruct (negb (Models.is_active u)); cbn; [discriminate|].
    unfold Session.bind, CRUDMessageLog.load_name.
    rewrite datetime_is_unbound. discriminate.
  - destruct ((map_to_list _).*2) as [|u [|? ?]]; cbn; try reflexivity.
    destruct (negb (AuthRoutes.verify_password _ _)); cbn; [reflexivity|].
    destruct (negb (Models.is_active u)); cbn; [reflexivity|].
    unfold Session.bind, CRUDMessageLog.load_name.
    now rewrite datetime_is_unbound.
  - intros ->. now rewrite map_to_list_empty.
  - intros k u Hone. rewrite (Hrows k u Hone). cbn.
    destruct (negb (AuthRoutes.verify_password _ _)); cbn; [reflexivity|].
    destruct (negb (Models.is_active u)); cbn; [reflexivity|].
    unfold Session.bind, CRUDMessageLog.load_name.
    now rewrite datetime_is_unbound.
Qed.

(** Alice logs in with a password that the hash check accepts. *)
Lemma login_never_issues_tokens_witness :
  AuthRoutes.login (R := StandIn.runtime)
    (P := {| bcrypt_verify := fun _ _ => true |})
    StandIn.settings 2000 "alice@example.com"
    (Schemas.of_string "Abcdef12") StandIn.registered
  = (Raise (NameError "datetime"), StandIn.registered).
Proof.
  destruct (login_never_issues_tokens StandIn.runtime
              {| bcrypt_verify := fun _ _ => true |}
              StandIn.settings 2000 "alice@example.com"
              (Schemas.of_string "Abcdef12") StandIn.registered)
    as (_ & Hs & _ & H).
  specialize (H "u-1" StandIn.alice_row).
  apply injective_projections; [|exact Hs].
  rewrite H; [reflexivity|]. vm_compute. reflexivity.
Defined.

(** X22: the resend-verification route.  For an unknown address it gives
    the generic answer and schedules nothing; for a verified user it
    answers 400; for an unverified user it raises [NameError], because the
    module never imports [datetime]: no e-mail is scheduled and nothing is
    committed, the stored row keeping its old token. *)
Theorem resend_verification_outcomes (R : Runtime)
    (settings : Config.Settings) (now : Z) (email_in : string)
    (s : Session.t) :
  let out := AuthRoutes.resend_verification settings now email_in s in
  Session.store out.2 = Session.store s
  /\ Session.history out.2 = Session.history s
  /\ (CRUDUser.with_email email_in (Session.view s) = ∅ ->
      out = (Ok (AuthRoutes.MessageResponse
                   "If your email exists, you will receive a verification link",
                 []), s))
  /\ (forall k u,
        CRUDUser.with_email email_in (Session.view s) = {[k := u]} ->
        out.1 = if Models.is_verified u
                then Ok (AuthRoutes.HTTPException 400
                           "Email already verified" [], [])
                else Raise (NameError "datetime")).
Proof.
  intros out. subst out.
  unfold AuthRoutes.resend_verification, CRUDUser.get_by_email.
  rewrite bind_bind, bind_query.
  split; [|split; [|split]].
  - destruct ((map_to_list _).*2) as [|u [|? ?]]; cbn; try reflexivity.
    destruct (Models.is_verified u); cbn; [reflexivity|].
    unfold Session.bind, CRUDMessageLog.load_name.
    now rewrite datetime_is_unbound.
  - destruct ((map_to_list _).*2) as [|u [|? ?]]; cbn; try reflexivity.
    destruct (Models.is_verified u); cbn; [reflexivity|].
    unfold Session.bind, CRUDMessageLog.load_name.
    now rewrite datetime_is_unbound.
  - intros ->. now rewrite map_to_list_empty.
  - intros k u ->. rewrite map_to_list_singleton. cbn.
    destruct (Models.is_verified u); cbn; [reflexivity|].
    unfold Session.bind, CRUDMessageLog.load_name.
    now rewrite datetime_is_unbound.
Qed.

(** Alice, not yet verified, asks for a new link. *)
Lemma resend_verification_outcomes_witness :
  (AuthRoutes.resend_verification (R := StandIn.runtime) StandIn.settings
     2000 "alice@example.com" StandIn.registered).1
  = Raise (NameError "datetime").
Proof.
  destruct (resend_verification_outcomes StandIn.runtime StandIn.settings
              2000 "alice@example.com" StandIn.registered)
    as (_ & _ & _ & H).
  rewrite (H "u-1" StandIn.alice_row); [reflexivity|].
  vm_compute. reflexivity.
Defined.

(** X23: the refresh route only reads.  It leaves the session as it was
    on every input; it answers 401 "Invalid refresh token" for every
    token that [verify_token] rejects, among them every verification and
    every password-reset token, and 401 "User not found or inactive" for
    a subject that is no stored user or an inactive one. *)
Theorem refresh_route_rejects (R : Runtime) (settings : Config.Settings)
    (t0 now : Z) (e : string) (tok : Jose.token) (s : Session.t) :
  let invalid := Auth.HTTPException 401 "Invalid refresh token" in
  let unknown := Auth.HTTPException 401 "User not found or inactive" in
  (Auth.refresh_token settings now tok s).2 = s
  /\ (Security.verify_token settings now tok = None ->
      (Auth.refresh_token settings now tok s).1 = Ok invalid)
  /\ (Auth.refresh_token settings now
        (Security.create_verification_token settings t0 e) s).1 = Ok invalid
  /\ (Auth.refresh_token settings now
        (PasswordReset.create_password_reset_token settings t0 e) s).1
     = Ok invalid
  /\ (forall uid,
        Security.verify_token settings now tok = Some (JStr uid) ->
        uid <> "" ->
        Models.users (Session.view s) !! uid = None ->
        (Auth.refresh_token settings now tok s).1 = Ok unknown)
  /\ (forall uid u,
        Security.verify_token settings now tok = Some (JStr uid) ->
        uid <> "" ->
        Models.users (Session.view s) !! uid = Some u ->
        Models.is_active u = false ->
        (Auth.refresh_token settings now tok s).1 = Ok unknown).
Proof.
  intros invalid unknown. subst invalid unknown.
  assert (Hmail : forall x k,
             Security.verify_token settings now
               (Jose.encode
                  (<["exp" := JInt x]>
                     (<["email" := JStr e]> (<["type" := JStr k]> ∅)))
                  (Config.SECRET_KEY settings) (Config.ALGORITHM settings))
             = None).
  { intros x k. rewrite verify_token_decode, decode_mail_claims.
    destruct (_ <? _)%Z; [reflexivity|].
    now destruct (mail_claims_lookup x e k) as (_ & _ & _ & ->). }
  assert (Hinvalid : forall tk,
             Security.verify_token settings now tk = None ->
             (Auth.refresh_token settings now tk s).1
             = Ok (Auth.HTTPException 401 "Invalid refresh token")).
  { intros tk H. unfold Auth.refresh_token. now rewrite H. }
  split.
  { unfold Auth.refresh_token.
    destruct (Security.verify_token settings now tok) as [[uid|z]|];
      try reflexivity.
    destruct (String.eqb uid ""); [reflexivity|].
    unfold CRUDUser.get. rewrite bind_query.
    destruct (Models.users (Session.view s) !! uid) as [u|]; [|reflexivity].
    now destruct (negb (Models.is_active u)). }
  split; [apply Hinvalid|].
  split; [apply Hinvalid, Hmail|]. split; [apply Hinvalid, Hmail|].
  split.
  - intros uid Hv Hne Hu. unfold Auth.refresh_token. rewrite Hv.
    apply String.eqb_neq in Hne. rewrite Hne.
    unfold CRUDUser.get. rewrite bind_query, Hu. reflexivity.
  - intros uid u Hv Hne Hu Hact. unfold Auth.refresh_token. rewrite Hv.
    apply String.eqb_neq in Hne. rewrite Hne.
    unfold CRUDUser.get. rewrite bind_query, Hu, Hact. reflexivity.
Qed.

(** A refresh token whose user was never stored. *)
Lemma refresh_route_rejects_witness :
  (Auth.refresh_token (R := StandIn.runtime) StandIn.settings 2000
     (Security.create_refresh_token (R := StandIn.runtime) StandIn.settings
        1500 "u-404" None) StandIn.registered).1
  = Ok (Auth.HTTPException 401 "User not found or inactive").
Proof.
  destruct (refresh_route_rejects StandIn.runtime StandIn.settings 0 2000 ""
              (Security.create_refresh_token (R := StandIn.runtime)
                 StandIn.settings 1500 "u-404" None) StandIn.registered)
    as (_ & _ & _ & _ & H & _).
  apply (H "u-404").
  - vm_compute. reflexivity.
  - discriminate.
  - vm_compute. reflexivity.
Defined.

(** ** Accounts and API keys *)

Section AccountSession.
Import Accounts.

Lemma xbind_query {A B} (q : DB -> A) (k : A -> M B) (s : session) :
  bind (query q) k s = k (q (view s)) s.
Proof. reflexivity. Qed.

Lemma xbind_ret {A B} (a : A) (k : A -> M B) (s : session) :
  bind (ret a) k s = k a s.
Proof. reflexivity. Qed.

Lemma xbind_lift_ok {A B} (a : A) (k : A -> M B) (s : session) :
  bind (lift (Ok a)) k s = k a s.
Proof. reflexivity. Qed.


Lemma xbind_add_commit {B} (row : Row) (k : M B) (s : session) :
  bind (add row) (fun _ => bind commit (fun _ => k)) s = k (saved row s).
Proof.
  unfold bind, commit, saved, add, view. cbn.
  now rewrite fold_left_app.
Qed.

Lemma xview_saved (row : Row) (s : session) :
  view (saved row s) = write (view s) row.
Proof. reflexivity. Qed.

End AccountSession.

Section AccountFacts.
Context {R : Runtime}.
Import Config Accounts.



End AccountFacts.




Section AccountDuplicates.
Context {R : Runtime}.
Import Config Accounts.


End AccountDuplicates.



Section ApiKeys.
Import Accounts.

Lemma validate_none (now : Z) (key : string) (s : session) :
  filter (fun kv => CRUDApiKey.valid_at now key kv.2) (api_keys (view s)) = ∅ ->
  CRUDApiKey.validate_api_key now key s = (Ok None, s).
Proof.
  intros H. unfold CRUDApiKey.validate_api_key.
  now rewrite xbind_query, H, map_to_list_empty.
Qed.

Lemma validate_one (now : Z) (key i : string) (k : ApiKey) (s : session) :
  filter (fun kv => CRUDApiKey.valid_at now key kv.2) (api_keys (view s))
  = {[i := k]} ->
  CRUDApiKey.validate_api_key now key s
  = (Ok (Some (key_user_id k)), saved (RApiKey (CRUDApiKey.used now k)) s).
Proof.
  intros H. unfold CRUDApiKey.validate_api_key.
  rewrite xbind_query, H, map_to_list_singleton. cbn [fmap list_fmap snd].
  cbn [Session.scalar_one_or_none]. rewrite xbind_lift_ok.
  now rewrite xbind_add_commit.
Qed.

End ApiKeys.

(** X26: [validate_api_key].  A key counts when it equals the presented
    string, is active, and has no expiry or an expiry strictly after the
    current time; a key that expires at the current time, or is inactive,
    does not count.  With no such key the result is absent and the session
    is left as it was; with exactly one, the result is its user and the
    stored row has its use counter raised by one and its last use set to
    the current time. *)
Theorem validate_api_key_spec (now : Z) (key : string)
    (s : Accounts.session) :
  let valid :=
    filter (fun kv => CRUDApiKey.valid_at now key kv.2)
           (Accounts.api_keys (Accounts.view s)) in
  (valid = ∅ -> CRUDApiKey.validate_api_key now key s = (Ok None, s))
  /\ (forall i k, valid = {[i := k]} ->
        exists s1,
          CRUDApiKey.validate_api_key now key s
          = (Ok (Some (Accounts.key_user_id k)), s1)
          /\ exists k1,
               Accounts.api_keys (Accounts.store s1) !! Accounts.key_id k
               = Some k1
               /\ Accounts.usage_count k1 = Accounts.usage_count k + 1
               /\ Accounts.last_used k1 = Some now
               /\ Accounts.api_key k1 = key
               /\ Accounts.key_user_id k1 = Accounts.key_user_id k)
  /\ (forall k t, Accounts.key_expires_at k = Some t -> t <= now ->
        ~ CRUDApiKey.valid_at now key k)
  /\ (forall k, Accounts.key_is_active k = false ->
        ~ CRUDApiKey.valid_at now key k).
Proof.
  intros valid. split; [apply validate_none|]. split; [|split].
  - intros i k Hone. rewrite (validate_one now key i k s Hone).
    eexists. split; [reflexivity|].
    exists (CRUDApiKey.used now k).
    cbn [Accounts.saved Accounts.store Accounts.write Accounts.api_keys
         CRUDApiKey.used Accounts.key_id Accounts.usage_count
         Accounts.last_used Accounts.api_key Accounts.key_user_id].
    split; [apply lookup_insert_eq|].
    repeat (split; [reflexivity|]). split; [|reflexivity].
    assert (Hl : valid !! i = Some k)
      by (rewrite Hone; apply lookup_singleton_eq).
    apply map_lookup_filter_Some in Hl as [_ (Hk & _)]. exact Hk.
  - intros k t Hexp Hle (_ & _ & [Hnone|(t' & Ht' & Hlt)]).
    + congruence.
    + rewrite Hexp in Ht'. injection Ht' as <-. lia.
  - intros k Hinactive (_ & Hact & _). congruence.
Qed.

(** Alice's key, valid until time 5000, is used at time 2000. *)
Lemma validate_api_key_spec_witness :
  exists s1,
    CRUDApiKey.validate_api_key 2000 "sk_live_alice"
      (StandInAccounts.with_key true (Some 5000)) = (Ok (Some "u-1"), s1).
Proof.
  destruct (validate_api_key_spec 2000 "sk_live_alice"
              (StandInAccounts.with_key true (Some 5000))) as (_ & H & _).
  destruct (H "k-1" (StandInAccounts.key_row true (Some 5000)))
    as (s1 & Hrun & _).
  - vm_compute. reflexivity.
  - exists s1. exact Hrun.
Defined.

(** The same key, presented at the very second it expires. *)
Example api_key_expires_on_time :
  CRUDApiKey.validate_api_key 5000 "sk_live_alice"
    (StandInAccounts.with_key true (Some 5000))
  = (Ok None, StandInAccounts.with_key true (Some 5000)).
Proof. vm_compute. reflexivity. Qed.

(** X27: a presented API key decides alone.  When the key header is not
    empty, the bearer token is not looked at: without a valid key the
    answer is 401; with one, the answer is its user when that user is
    stored and active, and 401 otherwise. *)
Theorem api_key_decides (R : Runtime) (settings : Config.Settings) (now : Z)
    (token token' : Jose.token) (key : string) (s : Accounts.session) :
  key <> "" ->
  let valid :=
    filter (fun kv => CRUDApiKey.valid_at now key kv.2)
           (Accounts.api_keys (Accounts.view s)) in
  CurrentUser.get_current_user settings now token (Some key) s
  = CurrentUser.get_current_user settings now token' (Some key) s
  /\ (valid = ∅ ->
      CurrentUser.get_current_user settings now token (Some key) s
      = (Ok CurrentUser.credentials_exception, s))
  /\ (forall i k, valid = {[i := k]} ->
        (CurrentUser.get_current_user settings now token (Some key) s).1
        = Ok (match Accounts.users (Accounts.view s)
                      !! Accounts.key_user_id k with
              | Some u =>
                  if Models.is_active u then CurrentUser.Authenticated u
                  else CurrentUser.credentials_exception
              | None => CurrentUser.credentials_exception
              end)).
Proof.
  intros Hne valid.
  assert (Htruthy : PyStr.truthy (Some key) = true).
  { cbn. now destruct (String.eqb_spec key ""). }
  unfold CurrentUser.get_current_user. rewrite Htruthy.
  change (default "" (Some key)) with key.
  split; [reflexivity|]. split.
  - intros Hnone. unfold Accounts.bind at 1.
    now rewrite (validate_none now key s Hnone).
  - intros i k Hone. unfold Accounts.bind at 1.
    rewrite (validate_one now key i k s Hone).
    unfold CurrentUser.select_user. rewrite xbind_query, xview_saved.
    cbn [Accounts.write Accounts.users CRUDApiKey.used Accounts.key_user_id].
    destruct (Accounts.users (Accounts.view s) !! Accounts.key_user_id k)
      as [u|]; [|reflexivity].
    now destruct (Models.is_active u).
Qed.

(** A revoked key is refused although the bearer token is good. *)
Lemma api_key_decides_witness :
  CurrentUser.get_current_user (R := StandIn.runtime) StandIn.settings 2000
    (Security.create_access_token (R := StandIn.runtime) StandIn.settings
       1500 "u-1" None)
    (Some "sk_live_alice") (StandInAccounts.with_key false None)
  = (Ok CurrentUser.credentials_exception,
     StandInAccounts.with_key false None).
Proof.
  destruct (api_key_decides StandIn.runtime StandIn.settings 2000
              (Security.create_access_token (R := StandIn.runtime)
                 StandIn.settings 1500 "u-1" None)
              (Jose.Garbled "") "sk_live_alice"
              (StandInAccounts.with_key false None)) as (_ & H & _).
  - discriminate.
  - apply H. vm_compute. reflexivity.
Defined.

Lemma superuser_guard (u : Models.User) :
  CurrentUser.get_current_superuser (CurrentUser.Authenticated u)
  = CurrentUser.Authenticated u
  <-> Models.subscription_tier u = Some "enterprise".
Proof.
  unfold CurrentUser.get_current_superuser.
  case_bool_decide as Ht; cbn; split.
  - intros _. exact Ht.
  - reflexivity.
  - discriminate.
  - intros Ht'. contradiction.
Qed.

(** X28: without an API key, or with an empty one, [get_current_user]
    accepts exactly the tokens that [verify_token] accepts, of whatever
    kind: it answers 401 when [verify_token] gives the absent result or
    the subject is no stored user, 400 when the user is inactive, and the
    user otherwise, and it leaves the session as it was.  The guard of the
    administrative routes then lets through the enterprise tier only. *)
Theorem bearer_token_path (R : Runtime) (settings : Config.Settings)
    (now : Z) (token : Jose.token) (api_key : option string)
    (s : Accounts.session) :
  api_key = None \/ api_key = Some "" ->
  let out := CurrentUser.get_current_user settings now token api_key s in
  out.2 = s
  /\ (Security.verify_token settings now token = None ->
      out.1 = Ok CurrentUser.credentials_exception)
  /\ (forall uid,
        Security.verify_token settings now token = Some (JStr uid) ->
        out.1
        = Ok (match Accounts.users (Accounts.view s) !! uid with
              | None => CurrentUser.credentials_exception
              | Some u =>
                  if Models.is_active u then CurrentUser.Authenticated u
                  else CurrentUser.HTTPException 400 "Inactive user" []
              end))
  /\ (forall u,
        CurrentUser.get_current_superuser (CurrentUser.Authenticated u)
        = CurrentUser.Authenticated u
        <-> Models.subscription_tier u = Some "enterprise").
Proof.
  intros Hkey out. subst out.
  assert (Hfalsy : PyStr.truthy api_key = false)
    by (destruct Hkey as [->| ->]; reflexivity).
  unfold CurrentUser.get_current_user. rewrite Hfalsy.
  rewrite verify_token_decode.
  destruct (Jose.decode now token (Config.SECRET_KEY settings)
              [Config.ALGORITHM settings]) as [err|payload].
  { split; [reflexivity|]. split; [reflexivity|]. split; [discriminate|].
    apply superuser_guard. }
  destruct (payload !! "sub") as [[uid|z]|].
  - split.
    { unfold CurrentUser.select_user. rewrite xbind_query.
      destruct (Accounts.users (Accounts.view s) !! uid) as [u|];
        [|reflexivity].
      now destruct (negb (Models.is_active u)). }
    split; [discriminate|]. split; [|apply superuser_guard].
    intros ? [= <-]. unfold CurrentUser.select_user. rewrite xbind_query.
    destruct (Accounts.users (Accounts.view s) !! uid) as [u|];
      [|reflexivity].
    now destruct (Models.is_active u).
  - split; [reflexivity|]. split; [discriminate|]. split; [discriminate|].
    apply superuser_guard.
  - split; [reflexivity|]. split; [reflexivity|]. split; [discriminate|].
    apply superuser_guard.
Qed.

(** Alice's refresh token is taken as a bearer token. *)
Lemma bearer_token_path_witness :
  (CurrentUser.get_current_user (R := StandIn.runtime) StandIn.settings 2000
     (Security.create_refresh_token (R := StandIn.runtime) StandIn.settings
        1500 "u-1" None)
     None StandInAccounts.empty).1
  = Ok (CurrentUser.Authenticated StandIn.alice_row).
Proof.
  destruct (bearer_token_path StandIn.runtime StandIn.settings 2000
              (Security.create_refresh_token (R := StandIn.runtime)
                 StandIn.settings 1500 "u-1" None)
              None StandInAccounts.empty) as (_ & _ & H & _).
  - now left.
  - rewrite (H "u-1"); [reflexivity|]. vm_compute. reflexivity.
Defined.

(** ** The logs of a rule *)

Lemma newer_total : Total RuleLogs.newer.
Proof. intros a b. unfold RuleLogs.newer. lia. Qed.

Lemma newer_transitive : Transitive RuleLogs.newer.
Proof. intros a b c. unfold RuleLogs.newer. lia. Qed.

(** X29: [get_rule_logs] with a limit that is not negative returns logs of
    the rule only, as many as the limit allows and never more than the
    rule has, newest first; every log of the rule that is left out is no
    newer than any log returned; and the session is left as it was. *)
Theorem rule_logs_newest_first (s : Session.t) (rid : string) (limit : Z) :
  0 <= limit ->
  exists logs,
    RuleLogs.get_rule_logs rid limit s = (Ok logs, s)
    /\ length logs
       = Nat.min (Z.to_nat limit)
           (length (RuleLogs.rule_logs rid (Session.view s)))
    /\ (forall l, l ∈ logs ->
          l ∈ RuleLogs.rule_logs rid (Session.view s)
          /\ Models.log_rule_id l = Some rid)
    /\ StronglySorted RuleLogs.newer logs
    /\ (forall l l', l ∈ logs ->
          l' ∈ RuleLogs.rule_logs rid (Session.view s) -> l' ∉ logs ->
          Models.forwarded_at l' <= Models.forwarded_at l).
Proof.
  intros Hlimit. unfold RuleLogs.get_rule_logs.
  destruct (Z.ltb_spec limit 0); [lia|].
  set (all := RuleLogs.rule_logs rid (Session.view s)).
  set (sorted := merge_sort RuleLogs.newer all).
  assert (Hperm : sorted ≡ₚ all) by apply merge_sort_Permutation.
  assert (Hsorted : StronglySorted RuleLogs.newer sorted).
  { apply (StronglySorted_merge_sort RuleLogs.newer
             (Transitive0 := newer_transitive) (Total0 := newer_total)). }
  exists (take (Z.to_nat limit) sorted).
  split; [reflexivity|]. split.
  { rewrite length_take. now rewrite (Permutation_length Hperm). }
  split.
  { intros l Hl. apply elem_of_take in Hl as (i & Hl & _).
    apply list_elem_of_lookup_2 in Hl. rewrite Hperm in Hl.
    split; [exact Hl|]. subst all. unfold RuleLogs.rule_logs in Hl.
    apply list_elem_of_filter in Hl as [Hl _]. exact Hl. }
  split.
  { rewrite <- (take_drop (Z.to_nat limit) sorted) in Hsorted.
    now apply StronglySorted_app_1_l in Hsorted. }
  intros l l' Hl Hl' Hout.
  rewrite <- Hperm in Hl'.
  rewrite <- (take_drop (Z.to_nat limit) sorted) in Hl', Hsorted.
  apply elem_of_app in Hl' as [Hl'|Hl']; [contradiction|].
  exact (StronglySorted_app_1_elem_of _ _ _ _ _ Hsorted Hl Hl').
Qed.

(** A rule with three logs, asked for two. *)
Lemma rule_logs_newest_first_witness :
  exists logs,
    RuleLogs.get_rule_logs "r-1" 2 StandInLogs.session
    = (Ok logs, StandInLogs.session)
    /\ StronglySorted RuleLogs.newer logs.
Proof.
  destruct (rule_logs_newest_first StandInLogs.session "r-1" 2)
    as (logs & Hrun & _ & _ & Hsorted & _); [lia|].
  exists logs. split; assumption.
Defined.

(** They are the two newest, newest first. *)
Example two_newest_logs :
  RuleLogs.get_rule_logs "r-1" 2 StandInLogs.session
  = (Ok [StandInLogs.log "l-2" 300; StandInLogs.log "l-3" 200],
     StandInLogs.session).
Proof. vm_compute. reflexivity. Qed.

(** X30: the verify-email route answers 400 and leaves the session as it
    was for every token that the typed verifier rejects; for a valid
    token of a user who alone holds the address it answers with the
    success message, and it does so again when the same token is
    presented a second time within the 24 hours. *)
Theorem verify_email_route (R : Runtime) (settings : Config.Settings)
    (t0 now1 now2 : Z) (tok : Jose.token) (u : Models.User)
    (s : Session.t) :
  let ok := AuthRoutes.MessageResponse "Email verified successfully" in
  let fresh_token :=
    Security.create_verification_token settings t0 (Models.email u) in
  (Security.verify_verification_token settings now1 tok = None ->
   AuthRoutes.verify_email settings now1 tok s
   = (Ok (AuthRoutes.HTTPException 400
            "Invalid or expired verification token" []), s))
  /\ (Models.email u <> "" ->
      CRUDUser.with_email (Models.email u) (Session.view s)
      = {[Models.id u := u]} ->
      now1 <= t0 + 24 * 3600 -> now2 <= t0 + 24 * 3600 ->
      exists s1 s2,
        AuthRoutes.verify_email settings now1 fresh_token s = (Ok ok, s1)
        /\ AuthRoutes.verify_email settings now2 fresh_token s1 = (Ok ok, s2)).
Proof.
  intros ok fresh_token. split.
  - intros Hrej. unfold AuthRoutes.verify_email, CRUDUser.verify_email.
    now rewrite Hrej.
  - intros Hne Hone H1 H2.
    set (v := CRUDUser.mark_verified u).
    assert (Hone1 : CRUDUser.with_email (Models.email v)
                      (Session.view (Session.saved (Models.RUser v) s))
                    = {[Models.id v := v]}).
    { rewrite view_saved. now apply (with_email_saved_update _ u). }
    eexists _, _. unfold AuthRoutes.verify_email. split.
    + unfold Session.bind at 1.
      rewrite (verify_email_runs settings now1 fresh_token u s);
        [reflexivity | now apply verification_token_valid | exact Hne
        | exact Hone].
    + unfold Session.bind at 1.
      rewrite (verify_email_runs settings now2 fresh_token v _);
        [reflexivity | now apply verification_token_valid | exact Hne
        | exact Hone1].
Qed.

(** Alice opens her verification link twice. *)
Lemma verify_email_route_witness :
  exists s1 s2,
    AuthRoutes.verify_email (R := StandIn.runtime) StandIn.settings 2000
      (Security.create_verification_token (R := StandIn.runtime)
         StandIn.settings 1000 "alice@example.com") StandIn.registered
    = (Ok (AuthRoutes.MessageResponse "Email verified successfully"), s1)
    /\ AuthRoutes.verify_email (R := StandIn.runtime) StandIn.settings 3000
         (Security.create_verification_token (R := StandIn.runtime)
            StandIn.settings 1000 "alice@example.com") s1
       = (Ok (AuthRoutes.MessageResponse "Email verified successfully"), s2).
Proof.
  destruct (verify_email_route StandIn.runtime StandIn.settings 1000 2000 3000
              (Jose.Garbled "") StandIn.alice_row StandIn.registered)
    as (_ & H).
  destruct H as (s1 & s2 & H1 & H2).
  - discriminate.
  - vm_compute. reflexivity.
  - lia.
  - lia.
  - exists s1, s2. split; assumption.
Defined.
